(** * ProcureAI: the inbound-email pipeline, the oracle adapter, the
    comparison endpoint, and the dispatch of requests

    A shallow embedding of
      - [backend/services/AIService.js]             (modules [AIService],
                                                     [RFPStructuring]),
      - [backend/services/EmailService.js]          (modules [EmailService],
                                                     [EmailSending]),
      - [backend/services/EmailPollingService.js]   (modules [EmailPollingService],
                                                     [Polling]),
      - [backend/controllers/proposalController.js] (modules [proposalController],
                                                     [proposalListing]),
      - [backend/controllers/rfpController.js]      (modules [rfpController],
                                                     [rfpDetails]),
      - [backend/controllers/vendorController.js]   (module [vendorController],
                                                     with the schema of
                                                     [backend/models/Vendor.js]),
      - the reparse script                          (module [reparseScript]),
    over an in-memory model of the three Mongoose collections (module [Db]).
    Module [Inbound] holds what the two inbound entry points have in common,
    module [Interleaving] the two database calls of a delivery as separate
    steps, module [Text] white space and the hex digits of an ObjectId.

    JavaScript numbers are IEEE binary64 values, which is what Rocq's
    primitive floats are; JSON documents are a tree type; exceptions and the
    mutable database are threaded through a state-and-exception monad. The
    completion endpoint and the time a call to it takes, [JSON.parse], the
    ObjectId cast with the error it raises, and the cast and validation
    Mongoose applies to [parsed_data] on [save] are parameters (classes
    [Env] and [Structurer]), and so are the mail transport and the
    rendering of a request's mail body (class [Mailer]): the theorems hold
    for whatever these do. A [save] rejects when that validation does;
    the other database calls are modelled as succeeding. *)

From Stdlib Require Import List String Ascii ZArith NArith Bool Lia Floats DecimalString.
From Stdlib Require Import Sorted Permutation.
Import ListNotations.
Local Open Scope string_scope.

Set Implicit Arguments.
Set Warnings "-register-all".

(* ===================================================================== *)
(** * JavaScript values                                                   *)
(* ===================================================================== *)

Module Js.

(** [s.includes(sub)] *)
Fixpoint includes (sub s : string) : bool :=
  String.prefix sub s ||
  match s with
  | EmptyString => false
  | String _ s' => includes sub s'
  end.

(** The lower-case form of a code unit below 256: of the letters A to Z,
    and of the letters at 192 to 222, among which 215 is the
    multiplication sign and stays. *)
Definition lowerAscii (c : ascii) : ascii :=
  let n := nat_of_ascii c in
  if ((65 <=? n)%nat && (n <=? 90)%nat)
     || ((192 <=? n)%nat && (n <=? 222)%nat && negb (n =? 215)%nat)
  then ascii_of_nat (n + 32) else c.

(** [s.toLowerCase()] *)
Fixpoint toLowerCase (s : string) : string :=
  match s with
  | EmptyString => EmptyString
  | String c s' => String (lowerAscii c) (toLowerCase s')
  end.

(** The result of [JSON.parse]. *)
Inductive json : Type :=
| JNull
| JBool (b : bool)
| JNum (x : float)
| JStr (s : string)
| JArr (xs : list json)
| JObj (fields : list (string * json)).

(** A JavaScript value read from a document: [None] is [undefined]. *)
Definition value := option json.

(** ToBoolean. *)
Definition truthy (v : value) : bool :=
  match v with
  | None => false
  | Some JNull => false
  | Some (JBool b) => b
  | Some (JNum x) => negb (PrimFloat.eqb x 0%float) && PrimFloat.eqb x x
  | Some (JStr s) => negb (String.eqb s "")
  | Some (JArr _) => true
  | Some (JObj _) => true
  end.

Definition truthy_str (s : option string) : bool :=
  match s with
  | None => false
  | Some s => negb (String.eqb s "")
  end.

(** [typeof v === 'number'] *)
Definition isNumber (v : value) : bool :=
  match v with Some (JNum _) => true | _ => false end.

(** [Array.isArray(v)] *)
Definition isArray (v : value) : bool :=
  match v with Some (JArr _) => true | _ => false end.

Fixpoint assoc (k : string) (fields : list (string * json)) : value :=
  match fields with
  | [] => None
  | (k', v) :: rest => if String.eqb k k' then Some v else assoc k rest
  end.

Fixpoint assoc_set (k : string) (v : json) (fields : list (string * json))
  : list (string * json) :=
  match fields with
  | [] => [(k, v)]
  | (k', v') :: rest =>
      if String.eqb k k' then (k, v) :: rest
      else (k', v') :: assoc_set k v rest
  end.

(** ToNumber on the primitive values; the conversion of strings, arrays
    and objects is left to the parameter [other]. *)
Definition toNumber (other : json -> float) (v : value) : float :=
  match v with
  | None => nan
  | Some JNull => 0%float
  | Some (JBool b) => if b then 1%float else 0%float
  | Some (JNum x) => x
  | Some j => other j
  end.

End Js.
Import Js.

(* ===================================================================== *)
(** * Text: white space, hex digits                                       *)
(* ===================================================================== *)

Module Text.

(** What [\s] and [trim] take for white space among the code units below
    256: tab, line feed, vertical tab, form feed, carriage return, space
    and no-break space. *)
Definition isWhiteSpace (c : ascii) : bool :=
  let n := nat_of_ascii c in
  ((9 <=? n)%nat && (n <=? 13)%nat) || (n =? 32)%nat || (n =? 160)%nat.

Fixpoint trimStart (s : string) : string :=
  match s with
  | EmptyString => EmptyString
  | String c s' => if isWhiteSpace c then trimStart s' else s
  end.

Fixpoint trimEnd (s : string) : string :=
  match s with
  | EmptyString => EmptyString
  | String c s' =>
      match trimEnd s' with
      | EmptyString => if isWhiteSpace c then EmptyString else String c EmptyString
      | t => String c t
      end
  end.

(** [s.trim()] *)
Definition trim (s : string) : string := trimEnd (trimStart s).

Fixpoint allChars (p : ascii -> bool) (s : string) : bool :=
  match s with
  | EmptyString => true
  | String c s' => p c && allChars p s'
  end.

Definition hexChar (d : N) : ascii :=
  ascii_of_N (if (d <? 10)%N then 48 + d else 87 + d).

Fixpoint hexDigits (k : nat) (n : N) (acc : string) : string :=
  match k with
  | O => acc
  | S k' => hexDigits k' (n / 16)%N (String (hexChar (n mod 16)%N) acc)
  end.

(** [String(id)] of an ObjectId, a 96-bit number: its 24 lower-case hex
    digits. *)
Definition toHexString (o : N) : string := hexDigits 24 o EmptyString.

End Text.

(* ===================================================================== *)
(** * Identifiers, exceptions, documents                                  *)
(* ===================================================================== *)

(** A BSON ObjectId is a 96-bit number. *)
Definition ObjectId := N.

(** What [correlation.rfpId] holds: the hex string captured from the subject
    line, or the [_id] of a document. *)
Inductive IdVal :=
| IdStr (s : string)
| IdObj (o : ObjectId).

Definition truthy_id (v : option IdVal) : bool :=
  match v with
  | None => false
  | Some (IdStr s) => negb (String.eqb s "")
  | Some (IdObj _) => true
  end.

Inductive Details :=
| NoDetails
| DuplicateDetails (proposalId : ObjectId)
| CorrelationDetails (rfpId : option IdVal) (vendorId : option ObjectId)
                     (fromEmail : option string).

(** A thrown JavaScript object, with the properties the code reads. *)
Record Exn := mkExn {
  message : option string;
  status : option Z;
  code : option string;
  statusCode : option Z;
  details : Details
}.

(** [new Error(msg)] and [TypeError] *)
Definition Error (msg : string) : Exn := mkExn (Some msg) None None None NoDetails.

(** middleware/errorHandler.js *)
Definition AppError (msg : string) (sc : Z) (c : string) (d : Details) : Exn :=
  mkExn (Some msg) None (Some c) (Some sc) d.
Definition ValidationError (msg : string) (d : Details) : Exn :=
  AppError msg 400 "VALIDATION_ERROR" d.
Definition NotFoundError (resource : string) : Exn :=
  AppError (resource ++ " not found") 404 "NOT_FOUND" NoDetails.
Definition DuplicateError (msg : string) (d : Details) : Exn :=
  AppError msg 409 "DUPLICATE_ERROR" d.

Definition Date := Z.

(** models/RFP.js *)
Inductive RFPStatus := draft | sent | receiving_proposals | closed.

Record VendorEntry := mkVendorEntry {
  ve_vendor_id : ObjectId;
  ve_sent_at : Date
}.

(** [structured_data] is a nested path of the schema: a document read
    through Mongoose has an object there, whatever was stored; the field
    holds the members of that object. *)
Record RFP := mkRFP {
  rfp_id : ObjectId;
  rfp_title : string;
  rfp_structured_data : list (string * json);
  rfp_status : RFPStatus;
  rfp_vendors : list VendorEntry
}.

(** [rfp.structured_data] *)
Definition structured_data (rfp : RFP) : value := Some (JObj (rfp_structured_data rfp)).

(** models/Vendor.js *)
Record Vendor := mkVendor {
  vendor_id : ObjectId;
  vendor_name : string;
  vendor_email : string
}.

(** models/Vendor.js: the setters of [name] ([trim]) and of [email]
    ([trim], [lowercase]). Mongoose applies them to the values of a new
    document and to the values of a query filter. *)
Definition setName (name : string) : string := Text.trim name.
Definition setEmail (email : string) : string := toLowerCase (Text.trim email).

(** models/Proposal.js *)
Inductive ProposalStatus := received | parsed | reviewed.

Record RawEmail := mkRawEmail {
  raw_from : option string;
  raw_subject : option string;
  raw_body : option string;
  raw_attachments : list string
}.

Record Proposal := mkProposal {
  p_id : ObjectId;
  p_rfp_id : ObjectId;
  p_vendor_id : ObjectId;
  raw_email_content : RawEmail;
  parsed_data : value;
  parsing_confidence : value;
  requires_review : bool;
  received_at : Date;
  parsed_at : option Date;
  p_status : ProposalStatus
}.

(** What a new document has at the nested path [parsed_data] before
    anything is assigned to it: the two arrays of the schema, empty. *)
Definition noParsedData : json :=
  JObj [("line_items", JArr []); ("special_conditions", JArr [])].

(** The normalized email record of [extractEmailData] and of the webhook. *)
Record Attachment := mkAttachment { filename : option string }.

Record EmailData := mkEmailData {
  from : option string;
  subject : option string;
  body : option string;
  attachments : list Attachment;
  date : option Date
}.

(** A proposal after [populate('vendor_id', ...)]: the vendor document, or
    [null] when the vendor is gone. *)
Definition Populated := (Proposal * option Vendor)%type.

(** What a prompt interpolates; the fixed prose around it is left out. *)
Inductive Prompt :=
| ParsePrompt (from subject body : option string) (attachments : list Attachment)
| ComparePrompt (rfp : RFP) (proposals : list Populated).

(** One answer of the completion endpoint: a thrown client error, or the
    text of [response.choices[0].message.content]. *)
Inductive Reply :=
| Fail (e : Exn)
| Content (text : string).

(** What a piece of code comes to: its value, or what it throws. *)
Inductive Res (A : Type) :=
| Ok (a : A)
| Throw (e : Exn).
Arguments Ok {A} a.
Arguments Throw {A} e.

(** The collaborators that are not part of the repository. *)
Class Env := {
  (** [JSON.parse]; [None] is a SyntaxError *)
  JSON_parse : string -> option json;
  (** the cast of a string to an ObjectId; [None] is a CastError *)
  castObjectId : string -> option ObjectId;
  (** the CastError Mongoose throws for a string that is no ObjectId, from
      the path and the string *)
  CastError : string -> string -> Exn;
  (** the k-th call of [openai.chat.completions.create] *)
  complete : nat -> Prompt -> Reply;
  (** the time that passes with the k-th call, in ms *)
  elapsed : nat -> Z;
  (** ToNumber on strings, arrays and objects *)
  toNumberOther : json -> float;
  (** [proposal.parsed_data = parsedData], for the assignment that is made
      after [k] completion calls: what Mongoose keeps of the value under
      the schema of models/Proposal.js, which has the paths [line_items]
      (each item with [item_name], [unit_price], [quantity],
      [total_price], and an [_id] it is given), [total_price],
      [delivery_timeline], [payment_terms], [warranty_terms],
      [special_conditions] and [notes] and no others; or, when a value
      cannot be cast to the type of its path, the ValidationError that
      [save()] then rejects with *)
  castParsedData : nat -> json -> Res json
}.

(* ===================================================================== *)
(** * State and exceptions                                                *)
(* ===================================================================== *)

Record State := mkState {
  rfps : list RFP;
  vendors : list Vendor;
  proposals : list Proposal;
  next_oid : ObjectId;   (* the next generated [_id] *)
  now : Date;            (* the clock, in ms *)
  calls : nat;           (* completion calls made so far *)
  slept : list Z         (* the delays of [sleep], oldest first *)
}.

Definition M (A : Type) := State -> Res A * State.

Definition ret {A} (a : A) : M A := fun st => (Ok a, st).
Definition throw {A} (e : Exn) : M A := fun st => (Throw e, st).
Definition bind {A B} (m : M A) (k : A -> M B) : M B :=
  fun st => match m st with
            | (Ok a, st') => k a st'
            | (Throw e, st') => (Throw e, st')
            end.
(** [try { m } catch (e) { h e }] *)
Definition try_catch {A} (m : M A) (h : Exn -> M A) : M A :=
  fun st => match m st with
            | (Ok a, st') => (Ok a, st')
            | (Throw e, st') => h e st'
            end.
Definition lift {A} (r : Res A) : M A := fun st => (r, st).
Definition gets {A} (f : State -> A) : M A := fun st => (Ok (f st), st).
Definition modify (f : State -> State) : M unit := fun st => (Ok tt, f st).

Declare Scope js_scope.
Delimit Scope js_scope with js.
Notation "x <- c ;; k" := (bind c (fun x => k))
  (at level 61, c at next level, right associativity) : js_scope.
Notation "c ;;; k" := (bind c (fun _ => k))
  (at level 61, right associativity) : js_scope.
Local Open Scope js_scope.

(** The same for code that touches no state. *)
Definition rbind {A B} (r : Res A) (k : A -> Res B) : Res B :=
  match r with
  | Ok a => k a
  | Throw e => Throw e
  end.
Notation "'let*' x ':=' c 'in' k" := (rbind c (fun x => k))
  (at level 10, x name, c at level 100, k at level 200) : js_scope.

(** [o[k]]: reading a property of [null] is a TypeError; a primitive or an
    array has none of the properties the code asks for. *)
Definition get_prop (o : json) (k : string) : Res value :=
  match o with
  | JNull => Throw (Error ("Cannot read properties of null (reading " ++ k ++ ")"))
  | JObj fields => Ok (assoc k fields)
  | _ => Ok None
  end.

(** [o[k] = v] in strict mode (every file is an ES module). *)
Definition set_prop (o : json) (k : string) (v : json) : Res json :=
  match o with
  | JObj fields => Ok (JObj (assoc_set k v fields))
  | _ => Throw (Error ("Cannot create property " ++ k))
  end.

(** The decimal digits of an array index. *)
Definition string_of_index (n : nat) : string :=
  NilZero.string_of_uint (Nat.to_uint n).

Definition set_rfps (f : list RFP -> list RFP) (st : State) : State :=
  mkState (f (rfps st)) (vendors st) (proposals st) (next_oid st) (now st)
          (calls st) (slept st).
Definition set_proposals (f : list Proposal -> list Proposal) (st : State) : State :=
  mkState (rfps st) (vendors st) (f (proposals st)) (next_oid st) (now st)
          (calls st) (slept st).

(** [new Date()] *)
Definition new_Date : M Date := gets now.

(** [sleep(ms)]: the wait is recorded and the clock moves on by it. By
    how much the timer is late counts with the completion call that
    follows every [sleep]. *)
Definition sleep (ms : Z) : M unit :=
  modify (fun st => mkState (rfps st) (vendors st) (proposals st) (next_oid st)
                            (now st + ms)%Z (calls st) (slept st ++ [ms])).

(* ===================================================================== *)
(** * services/AIService.js                                               *)
(* ===================================================================== *)

Module AIService.
Section WithEnv.
Context {E : Env}.

Definition maxRetries : nat := 3.
Definition baseDelay : Z := 1000.

Definition status_is (e : Exn) (n : Z) : bool :=
  match status e with
  | Some s => Z.eqb s n
  | None => false
  end.

Definition code_is (e : Exn) (c : string) : bool :=
  match code e with
  | Some s => String.eqb s c
  | None => false
  end.

(** [error.message && error.message.includes(sub)] *)
Definition message_includes (e : Exn) (sub : string) : bool :=
  match message e with
  | Some m => negb (String.eqb m "") && includes sub m
  | None => false
  end.

Definition isRetryableError (error : Exn) : bool :=
  if status_is error 429 then true
  else if match status error with
          | Some s => (500 <=? s)%Z && (s <? 600)%Z
          | None => false
          end then true
  else if code_is error "ECONNRESET" || code_is error "ETIMEDOUT" then true
  else if message_includes error "timeout" then true
  else false.

Definition msg_invalid_key : string := "Invalid OpenAI API key".
Definition msg_rate_limit : string :=
  "OpenAI API rate limit exceeded. Please try again later.".
Definition msg_unavailable : string :=
  "OpenAI service is temporarily unavailable. Please try again later.".
Definition msg_timed_out : string :=
  "Request to OpenAI timed out. Please try again.".

Definition handleError (error : Exn) : Exn :=
  if status_is error 401 then Error msg_invalid_key
  else if status_is error 429 then Error msg_rate_limit
  else if status_is error 500 || status_is error 503 then Error msg_unavailable
  else if message_includes error "timeout" then Error msg_timed_out
  else Error ("AI service error: " ++
              (if truthy_str (message error)
               then match message error with Some m => m | None => "" end
               else "Unknown error occurred")).

(** [retryWithBackoff(fn, retries)]; the recursion is on [retries]. *)
Fixpoint retryWithBackoff {A} (fn : M A) (retries : nat) : M A :=
  try_catch fn (fun error =>
    let isRetryable := isRetryableError error in
    match retries with
    | S retries' =>
        if isRetryable then
          let delay := (baseDelay * 2 ^ (Z.of_nat maxRetries - Z.of_nat retries))%Z in
          sleep delay ;;;
          retryWithBackoff fn retries'
        else throw (handleError error)
    | O => throw (handleError error)
    end).

(** One call of [openai.chat.completions.create]; the clock moves on by
    the time that passes with it. *)
Definition create (p : Prompt) : M string :=
  fun st =>
    let st' := mkState (rfps st) (vendors st) (proposals st) (next_oid st)
                       (now st + elapsed (calls st))%Z (S (calls st)) (slept st) in
    match complete (calls st) p with
    | Fail e => (Throw e, st')
    | Content text => (Ok text, st')
    end.

Definition makeCompletionRequest (p : Prompt) : M string :=
  retryWithBackoff (create p) maxRetries.

Definition parseJSONResponse (jsonString : string) : Res json :=
  match JSON_parse jsonString with
  | Some j => Ok j
  | None => Throw (Error "Failed to parse AI response. The response was not valid JSON.")
  end.

(** The argument [parseProposal] is called with: the email record (the
    webhook) or [emailData.body] (the poller). *)
Inductive ParseArg :=
| ArgUndefined
| ArgString (s : string)
| ArgEmail (e : EmailData).

Definition arg_of_body (b : option string) : ParseArg :=
  match b with
  | None => ArgUndefined
  | Some s => ArgString s
  end.

Definition arg_truthy (a : ParseArg) : bool :=
  match a with
  | ArgUndefined => false
  | ArgString s => negb (String.eqb s "")
  | ArgEmail _ => true
  end.

(** [emailData.body], [emailData.from], ...: a string has none of them. *)
Definition arg_body (a : ParseArg) : option string :=
  match a with ArgEmail e => body e | _ => None end.
Definition arg_from (a : ParseArg) : option string :=
  match a with ArgEmail e => from e | _ => None end.
Definition arg_subject (a : ParseArg) : option string :=
  match a with ArgEmail e => subject e | _ => None end.
Definition arg_attachments (a : ParseArg) : list Attachment :=
  match a with ArgEmail e => attachments e | _ => [] end.

Definition confidenceThreshold : float := 0x1.6666666666666p-1%float. (* 0.7 *)
Definition defaultConfidence : float := 0x1.999999999999ap-1%float.   (* 0.8 *)

Definition num (v : value) : float := toNumber toNumberOther v.

(** [typeof c !== 'number' || c < 0 || c > 1] *)
Definition invalidConfidence (c : value) : bool :=
  negb (isNumber c) || PrimFloat.ltb (num c) 0%float || PrimFloat.ltb 1%float (num c).

(** The [forEach] over [parsedData.line_items]. *)
Fixpoint checkLineItems (items : list json) (index : nat) : Res unit :=
  match items with
  | [] => Ok tt
  | item :: rest =>
      let* item_name := get_prop item "item_name" in
      let* unit_price := get_prop item "unit_price" in
      let* quantity := get_prop item "quantity" in
      let* total_price := get_prop item "total_price" in
      if negb (truthy item_name) || negb (isNumber unit_price)
         || negb (isNumber quantity) || negb (isNumber total_price)
      then Throw (Error ("Line item at index " ++ string_of_index index ++
                         " is missing required fields"))
      else checkLineItems rest (S index)
  end.

(** [parseProposal], from "Validate required fields" to the [return]. *)
Definition validateProposal (parsedData : json) : Res json :=
  let* line_items := get_prop parsedData "line_items" in
  if negb (truthy line_items) || negb (isArray line_items)
     || match line_items with Some (JArr xs) => Nat.eqb (List.length xs) 0 | _ => false end
  then Throw (Error "AI response missing required field: line_items")
  else
  let* total_price := get_prop parsedData "total_price" in
  if negb (isNumber total_price)
  then Throw (Error "AI response missing required field: total_price")
  else
  let* confidence := get_prop parsedData "confidence" in
  if invalidConfidence confidence
  then Throw (Error "AI response has invalid confidence score")
  else
  let* _ := checkLineItems
              (match line_items with Some (JArr xs) => xs | _ => [] end) 0 in
  let* special_conditions := get_prop parsedData "special_conditions" in
  let* parsedData1 :=
    (if negb (isArray special_conditions)
     then set_prop parsedData "special_conditions" (JArr [])
     else Ok parsedData) in
  set_prop parsedData1 "requires_review"
           (JBool (PrimFloat.ltb (num confidence) confidenceThreshold)).

(** The outer [try { ... } catch (error) { console.error(...); throw error }]
    rethrows what it caught and is left out. *)
Definition parseProposal (emailData : ParseArg) : M json :=
  if negb (arg_truthy emailData) || negb (truthy_str (arg_body emailData))
  then throw (Error "Email body is required for proposal parsing")
  else
    responseContent <- makeCompletionRequest
        (ParsePrompt (arg_from emailData) (arg_subject emailData)
                     (arg_body emailData) (arg_attachments emailData)) ;;
    lift (let* parsedData := parseJSONResponse responseContent in
          validateProposal parsedData).

(** The body of the [forEach] over [comparisonData.proposal_analysis]; the
    entry is mutated in place, so the repaired entry is returned. *)
Definition repairList (analysis : json) (k : string) : Res json :=
  let* v := get_prop analysis k in
  if negb (isArray v) then set_prop analysis k (JArr []) else Ok analysis.

Definition checkAnalysis (analysis : json) (index : nat) : Res json :=
  let* vendor_id := get_prop analysis "vendor_id" in
  let* vendor_name := get_prop analysis "vendor_name" in
  let* scores := get_prop analysis "scores" in
  if negb (truthy vendor_id) || negb (truthy vendor_name) || negb (truthy scores)
  then Throw (Error ("Proposal analysis at index " ++ string_of_index index ++
                     " is missing required fields"))
  else
  let* a1 := repairList analysis "strengths" in
  let* a2 := repairList a1 "weaknesses" in
  repairList a2 "red_flags".

Fixpoint checkAnalyses (entries : list json) (index : nat) : Res (list json) :=
  match entries with
  | [] => Ok []
  | analysis :: rest =>
      let* a := checkAnalysis analysis index in
      let* rest' := checkAnalyses rest (S index) in
      Ok (a :: rest')
  end.

(** [compareProposals], from "Validate required fields" to the [return]. *)
Definition validateComparison (comparisonData : json) : Res json :=
  let* proposal_analysis := get_prop comparisonData "proposal_analysis" in
  if negb (truthy proposal_analysis) || negb (isArray proposal_analysis)
  then Throw (Error "AI response missing required field: proposal_analysis")
  else
  let* recommendation := get_prop comparisonData "recommendation" in
  let* rec_vendor_id :=
    (match recommendation with
     | Some r => if truthy recommendation then get_prop r "vendor_id" else Ok None
     | None => Ok None
     end) in
  if negb (truthy recommendation) || negb (truthy rec_vendor_id)
  then Throw (Error "AI response missing required field: recommendation")
  else
  let* summary := get_prop comparisonData "summary" in
  if negb (truthy summary)
  then Throw (Error "AI response missing required field: summary")
  else
  let* entries := checkAnalyses
                    (match proposal_analysis with Some (JArr xs) => xs | _ => [] end) 0 in
  let* comparisonData1 := set_prop comparisonData "proposal_analysis" (JArr entries) in
  let r := match recommendation with Some r => r | None => JNull end in
  let* rec_confidence := get_prop r "confidence" in
  if invalidConfidence rec_confidence
  then let* r' := set_prop r "confidence" (JNum defaultConfidence) in
       set_prop comparisonData1 "recommendation" r'
  else Ok comparisonData1.

Definition compareProposals (rfp : RFP) (proposals : list Populated) : M json :=
  if negb (truthy (structured_data rfp))
  then throw (Error "RFP with structured_data is required for comparison")
  else if Nat.eqb (List.length proposals) 0
  then throw (Error "At least one proposal is required for comparison")
  else
    responseContent <- makeCompletionRequest (ComparePrompt rfp proposals) ;;
    lift (let* comparisonData := parseJSONResponse responseContent in
          validateComparison comparisonData).

End WithEnv.
End AIService.

(* ===================================================================== *)
(** * services/EmailService.js                                            *)
(* ===================================================================== *)

Module EmailService.

(** The subject pattern [/\[RFP-([a-f0-9]+)\]/i]. *)
Definition isHexDigit (c : ascii) : bool :=
  let n := nat_of_ascii c in
  ((48 <=? n)%nat && (n <=? 57)%nat)
  || ((97 <=? n)%nat && (n <=? 102)%nat)
  || ((65 <=? n)%nat && (n <=? 70)%nat).

(** The longest run of hex digits at the head of [s], and what follows.
    The character after the group is a bracket, which is no hex digit, so
    the greedy [+] never gives a digit back. *)
Fixpoint hexRun (s : string) : string * string :=
  match s with
  | EmptyString => (EmptyString, EmptyString)
  | String c s' =>
      if isHexDigit c
      then let (run, rest) := hexRun s' in (String c run, rest)
      else (EmptyString, s)
  end.

(** [lit] at the head of [s], letters compared without case; the rest. *)
Fixpoint prefix_ci (lit s : string) : option string :=
  match lit, s with
  | EmptyString, _ => Some s
  | String a lit', String b s' =>
      if Ascii.eqb (lowerAscii a) (lowerAscii b) then prefix_ci lit' s' else None
  | String _ _, EmptyString => None
  end.

(** A match that starts at the first character: the captured group. *)
Definition matchAt (s : string) : option string :=
  match prefix_ci "[RFP-" s with
  | Some rest =>
      match hexRun rest with
      | (String c run, String "]" _) => Some (String c run)
      | _ => None
      end
  | None => None
  end.

(** [subject.match(...)]: the leftmost match; the result is group 1. *)
Fixpoint matchRfpId (s : string) : option string :=
  match matchAt s with
  | Some id => Some id
  | None =>
      match s with
      | EmptyString => None
      | String _ s' => matchRfpId s'
      end
  end.

Record Correlation := mkCorrelation {
  rfpId : option IdVal;
  vendorId : option ObjectId;
  fromEmail : option string;
  success : bool
}.

Definition isSome {A} (o : option A) : bool :=
  match o with Some _ => true | None => false end.

Definition result (rfpId : option IdVal) (vendorId : option ObjectId)
                  (fromEmail : option string) : Correlation :=
  mkCorrelation rfpId vendorId fromEmail (truthy_id rfpId && isSome vendorId).

(** [correlateEmailToRFP(email, findRFPCallback, findVendorCallback)].
    The source has one [try] around both callbacks with an empty handler;
    [vendorId] is assigned before the second callback runs, so a throw of
    the second leaves it set: each callback gets its own handler here. *)
Definition correlateEmailToRFP (email : EmailData)
    (findRFPCallback : option (ObjectId -> M (option RFP)))
    (findVendorCallback : option (string -> M (option Vendor)))
  : M Correlation :=
  (* Strategy 1: the RFP id in the subject line *)
  let rfpId0 :=
    match subject email with
    | Some s => option_map IdStr (matchRfpId s)
    | None => None
    end in
  (* Strategy 2: the vendor by email address *)
  let fromEmail := from email in
  match fromEmail, findVendorCallback with
  | Some addr, Some findVendor =>
      if truthy_str fromEmail then
        vendor <- try_catch (findVendor addr) (fun _ => ret None) ;;
        match vendor with
        | Some v =>
            let vendorId := Some (vendor_id v) in
            match findRFPCallback with
            | Some findRFP =>
                if negb (truthy_id rfpId0) then
                  recentRFP <- try_catch (findRFP (vendor_id v)) (fun _ => ret None) ;;
                  match recentRFP with
                  | Some r => ret (result (Some (IdObj (rfp_id r))) vendorId fromEmail)
                  | None => ret (result rfpId0 vendorId fromEmail)
                  end
                else ret (result rfpId0 vendorId fromEmail)
            | None => ret (result rfpId0 vendorId fromEmail)
            end
        | None => ret (result rfpId0 None fromEmail)
        end
      else ret (result rfpId0 None fromEmail)
  | _, _ => ret (result rfpId0 None fromEmail)
  end.

End EmailService.

(* ===================================================================== *)
(** * The Mongoose queries the two entry points issue                     *)
(* ===================================================================== *)

Module Db.
Section WithEnv.
Context {E : Env}.

(** A string given where an ObjectId is expected is cast by Mongoose. *)
Definition castId (path : string) (v : IdVal) : M ObjectId :=
  match v with
  | IdObj o => ret o
  | IdStr s =>
      match castObjectId s with
      | Some o => ret o
      | None => throw (CastError path s)
      end
  end.

(** [Vendor.findOne({ email })]: the filter is cast under the schema, which
    runs the setters of [email] on it. *)
Definition Vendor_findOne (email : string) : M (option Vendor) :=
  gets (fun st => find (fun v => String.eqb (vendor_email v) (setEmail email))
                       (vendors st)).

(** [Vendor.findById(id)], as [populate] does it. *)
Definition Vendor_findById (id : ObjectId) : M (option Vendor) :=
  gets (fun st => find (fun v => N.eqb (vendor_id v) id) (vendors st)).

(** ['vendors.vendor_id': vendorId] *)
Definition sentTo (vendorId : ObjectId) (r : RFP) : bool :=
  existsb (fun e => N.eqb (ve_vendor_id e) vendorId) (rfp_vendors r).

(** [status: { $in: ['sent', 'receiving_proposals'] }] *)
Definition outstanding (r : RFP) : bool :=
  match rfp_status r with
  | sent | receiving_proposals => true
  | draft | closed => false
  end.

(** The key of [sort({ 'vendors.sent_at': -1 })]: a descending sort on an
    array field compares the largest element of the array. *)
Definition latestSentAt (r : RFP) : option Z :=
  fold_right (fun e acc => match acc with
                           | None => Some (ve_sent_at e)
                           | Some m => Some (Z.max (ve_sent_at e) m)
                           end) None (rfp_vendors r).

Definition key_lt (a b : option Z) : bool :=
  match a, b with
  | None, Some _ => true
  | Some x, Some y => (x <? y)%Z
  | _, None => false
  end.

(** The first document of the descending order; among equal keys the one
    that comes first in the collection. *)
Fixpoint firstBySentAt (l : list RFP) : option RFP :=
  match l with
  | [] => None
  | r :: rest =>
      match firstBySentAt rest with
      | Some r' => if key_lt (latestSentAt r) (latestSentAt r') then Some r' else Some r
      | None => Some r
      end
  end.

(** [RFP.findOne({ 'vendors.vendor_id': vendorId, status: { $in: [...] } })
       .sort({ 'vendors.sent_at': -1 })] *)
Definition RFP_findRecent (vendorId : ObjectId) : M (option RFP) :=
  gets (fun st =>
    firstBySentAt (filter (fun r => sentTo vendorId r && outstanding r) (rfps st))).

(** [RFP.findById(id)] *)
Definition RFP_findById (id : IdVal) : M (option RFP) :=
  o <- castId "_id" id ;;
  gets (fun st => find (fun r => N.eqb (rfp_id r) o) (rfps st)).

Fixpoint updateFirst {A} (hit : A -> bool) (f : A -> A) (l : list A) : list A :=
  match l with
  | [] => []
  | x :: rest => if hit x then f x :: rest else x :: updateFirst hit f rest
  end.

Definition with_status (s : RFPStatus) (r : RFP) : RFP :=
  mkRFP (rfp_id r) (rfp_title r) (rfp_structured_data r) s (rfp_vendors r).

(** [rfp.status = s; rfp.save()] *)
Definition RFP_save_status (id : ObjectId) (s : RFPStatus) : M unit :=
  modify (set_rfps (updateFirst (fun r => N.eqb (rfp_id r) id) (with_status s))).

(** [RFP.findByIdAndUpdate(id, { status: s }, { new: true })] *)
Definition RFP_findByIdAndUpdate (id : IdVal) (s : RFPStatus) : M (option RFP) :=
  o <- castId "_id" id ;;
  RFP_save_status o s ;;;
  gets (fun st => find (fun r => N.eqb (rfp_id r) o) (rfps st)).

Definition samePair (r v : ObjectId) (p : Proposal) : bool :=
  N.eqb (p_rfp_id p) r && N.eqb (p_vendor_id p) v.

(** [Proposal.findOne({ rfp_id, vendor_id })] *)
Definition Proposal_findOne (rfp_id : IdVal) (vendor_id : ObjectId)
  : M (option Proposal) :=
  r <- castId "rfp_id" rfp_id ;;
  gets (fun st => find (samePair r vendor_id) (proposals st)).

(** [new Proposal({ rfp_id, vendor_id, raw_email_content, status: 'received',
    received_at })]: a fresh [_id], the schema defaults elsewhere. *)
Definition new_Proposal (rfp_id : IdVal) (vendor_id : ObjectId)
    (raw : RawEmail) (received_at : Date) : M Proposal :=
  r <- castId "rfp_id" rfp_id ;;
  fun st =>
    (Ok (mkProposal (next_oid st) r vendor_id raw (Some noParsedData) None false
                    received_at None received),
     mkState (rfps st) (vendors st) (proposals st) (N.succ (next_oid st))
             (now st) (calls st) (slept st)).

(** The first [proposal.save()]: an insert. *)
Definition Proposal_insert (p : Proposal) : M unit :=
  modify (set_proposals (fun l => (l ++ [p])%list)).

(** A later [proposal.save()]. Mongoose validates the document first, and
    rejects with the error of a value that was assigned and could not be
    cast ([pending]); otherwise the modified paths are written to the
    document with that [_id]. *)
Definition Proposal_save_modified (pending : option Exn) (id : ObjectId)
    (f : Proposal -> Proposal) : M unit :=
  match pending with
  | Some validationError => throw validationError
  | None => modify (set_proposals (updateFirst (fun p => N.eqb (p_id p) id) f))
  end.

(** [Proposal.find({ rfp_id: id }).populate('vendor_id', ...)] *)
Definition Proposal_find_populated (id : IdVal) : M (list Populated) :=
  o <- castId "rfp_id" id ;;
  gets (fun st =>
    map (fun p => (p, find (fun v => N.eqb (vendor_id v) (p_vendor_id p)) (vendors st)))
        (filter (fun p => N.eqb (p_rfp_id p) o) (proposals st))).

End WithEnv.
End Db.

(* ===================================================================== *)
(** * What both entry points share                                        *)
(* ===================================================================== *)

Module Inbound.
Section WithEnv.
Context {E : Env}.
Import EmailService Db AIService.

(** [async (vendorId) => RFP.findOne({...}).sort({...})] *)
Definition findRFPCallback : ObjectId -> M (option RFP) := RFP_findRecent.

(** [async (email) => Vendor.findOne({ email: email.toLowerCase() })] *)
Definition findVendorCallback (email : string) : M (option Vendor) :=
  Vendor_findOne (toLowerCase email).

(** [!correlation.success || !correlation.rfpId || !correlation.vendorId] *)
Definition uncorrelated (c : Correlation) : bool :=
  negb (success c) || negb (truthy_id (rfpId c)) || negb (isSome (vendorId c)).

(** [att => att.filename || 'attachment'] *)
Definition attachmentName (att : Attachment) : string :=
  if truthy_str (filename att)
  then match filename att with Some n => n | None => "" end
  else "attachment".

Definition rawOf (emailData : EmailData) : RawEmail :=
  mkRawEmail (from emailData) (subject emailData) (body emailData)
             (map attachmentName (attachments emailData)).

(** [parsedData.confidence || 0] *)
Definition orZero (v : value) : value :=
  if truthy v then v else Some (JNum 0%float).

(** The assignments of the [try] block: [parsed_data], of which the
    document has what the cast [kept], [parsing_confidence],
    [requires_review], [status], [parsed_at]. *)
Definition markParsed (kept : json) (confidence : value) (at_ : Date)
    (p : Proposal) : Proposal :=
  mkProposal (p_id p) (p_rfp_id p) (p_vendor_id p) (raw_email_content p)
             (Some kept) (orZero confidence)
             (PrimFloat.ltb (num confidence) confidenceThreshold)
             (received_at p) (Some at_) parsed.

(** [proposal.requires_review = true] *)
Definition markForReview (p : Proposal) : Proposal :=
  mkProposal (p_id p) (p_rfp_id p) (p_vendor_id p) (raw_email_content p)
             (parsed_data p) (parsing_confidence p) true
             (received_at p) (parsed_at p) (p_status p).

(** "Parse proposal data using AI": the [try]/[catch] of both entry points,
    which differ in the argument they hand to [parseProposal]. The result
    is the document in memory, which the block and the handler share.
    When [parseProposal] throws, the handler finds the document as it was
    created. When [parseProposal] returns, the assignments are made
    ([parseProposal] returns an object, so the read of
    [parsedData.confidence] does not throw), and [save()] is the only
    statement left that can throw: it does when [parsed_data] could not
    be cast, and then the handler sets [requires_review] on a document
    that still has that value, so that its own [save()] rejects as well
    and the error leaves the handler. *)
Definition parseAndStore (arg : ParseArg) (proposal : Proposal) : M Proposal :=
  attempt <- try_catch (parsedData <- parseProposal arg ;; ret (Some parsedData))
                       (fun parseError => ret None) ;;
  match attempt with
  | Some parsedData =>
      confidence <- lift (get_prop parsedData "confidence") ;;
      cast <- gets (fun st => castParsedData (calls st) parsedData) ;;
      parsed_at <- new_Date ;;
      match cast with
      | Ok kept =>
          Proposal_save_modified None (p_id proposal)
                                 (markParsed kept confidence parsed_at) ;;;
          ret (markParsed kept confidence parsed_at proposal)
      | Throw validationError =>
          try_catch
            (Proposal_save_modified (Some validationError) (p_id proposal)
                                    (fun p => p) ;;;
             ret proposal)
            (fun parseError =>
               Proposal_save_modified (Some validationError) (p_id proposal)
                                      markForReview ;;;
               ret (markForReview proposal))
      end
  | None =>
      (* Keep proposal in 'received' status if parsing fails *)
      Proposal_save_modified None (p_id proposal) markForReview ;;;
      ret (markForReview proposal)
  end.

End WithEnv.
End Inbound.

(* ===================================================================== *)
(** * services/EmailPollingService.js                                     *)
(* ===================================================================== *)

Module EmailPollingService.
Section WithEnv.
Context {E : Env}.
Import EmailService Db AIService Inbound.

Inductive ProcessResult :=
| processed (proposalId : ObjectId) (rfpId : IdVal) (vendorId : ObjectId)
| correlation_failed (details : Correlation)
| duplicate_proposal (proposalId : ObjectId)
| processing_error (error : option string).

Definition processReceivedEmail (emailData : EmailData) : M ProcessResult :=
  try_catch
    (correlation <- correlateEmailToRFP emailData
                      (Some findRFPCallback) (Some findVendorCallback) ;;
     if uncorrelated correlation then ret (correlation_failed correlation)
     else
     match rfpId correlation, vendorId correlation with
     | Some rfpId, Some vendorId =>
           (* Check if proposal already exists *)
           existingProposal <- Proposal_findOne rfpId vendorId ;;
           match existingProposal with
           | Some existing => ret (duplicate_proposal (p_id existing))
           | None =>
               (* Create proposal record with raw email content *)
               today <- new_Date ;;
               proposal <- new_Proposal rfpId vendorId (rawOf emailData)
                             (match date emailData with Some d => d | None => today end) ;;
               Proposal_insert proposal ;;;
               (* Parse proposal data using AI *)
               _ <- parseAndStore (arg_of_body (body emailData)) proposal ;;
               (* Update RFP status to 'receiving_proposals' if it's still 'sent' *)
               rfp <- RFP_findById rfpId ;;
               match rfp with
               | Some r =>
                   match rfp_status r with
                   | sent => RFP_save_status (rfp_id r) receiving_proposals
                   | _ => ret tt
                   end
               | None => ret tt
               end ;;;
               ret (processed (p_id proposal) rfpId vendorId)
           end
     | _, _ => ret (correlation_failed correlation) (* excluded by the test above *)
     end)
    (fun error => ret (processing_error (message error))).

End WithEnv.
End EmailPollingService.

(* ===================================================================== *)
(** * controllers/proposalController.js                                   *)
(* ===================================================================== *)

Module proposalController.
Section WithEnv.
Context {E : Env}.
Import EmailService Db AIService Inbound.

(** The 201 body: the in-memory proposal and its populated vendor. *)
Record Created := mkCreated {
  created_proposal : Proposal;
  created_vendor : Vendor
}.

(** The handler under [asyncHandler]: what it throws goes to [next]. *)
Definition receiveProposal (req_body : EmailData) : M Created :=
  if negb (truthy_str (from req_body)) || negb (truthy_str (subject req_body))
     || negb (truthy_str (body req_body))
  then throw (ValidationError "Missing required fields: from, subject, body" NoDetails)
  else
    let emailData := req_body in
    correlation <- correlateEmailToRFP emailData
                     (Some findRFPCallback) (Some findVendorCallback) ;;
    let unable :=
      ValidationError "Unable to correlate email to RFP and vendor"
        (CorrelationDetails (rfpId correlation) (vendorId correlation)
                            (fromEmail correlation)) in
    if uncorrelated correlation then throw unable
    else
    match rfpId correlation, vendorId correlation with
    | Some rfpId, Some vendorId =>
          (* Check if proposal already exists *)
          existingProposal <- Proposal_findOne rfpId vendorId ;;
          match existingProposal with
          | Some existing =>
              throw (DuplicateError "Proposal from this vendor for this RFP already exists"
                       (DuplicateDetails (p_id existing)))
          | None =>
              today <- new_Date ;;
              proposal <- new_Proposal rfpId vendorId (rawOf emailData) today ;;
              Proposal_insert proposal ;;;
              (* Parse proposal data using AI *)
              proposal' <- parseAndStore (ArgEmail emailData) proposal ;;
              (* Update RFP status to 'receiving_proposals' if it's still 'sent' *)
              _ <- RFP_findByIdAndUpdate rfpId receiving_proposals ;;
              (* Populate vendor details for response *)
              vendor <- Vendor_findById (p_vendor_id proposal') ;;
              match vendor with
              | Some v => ret (mkCreated proposal' v)
              | None => throw (Error "Cannot read properties of null (reading '_id')")
              end
          end
    | _, _ => throw unable (* excluded by the test above *)
    end.

(** One element of [proposals.map(p => ({ ... }))]. *)
Record ProposalView := mkProposalView {
  view_id : ObjectId;
  view_vendor : Vendor;
  view_raw_email_content : RawEmail;
  view_parsed_data : value;
  view_total_price : value;
  view_parsing_confidence : value;
  view_requires_review : bool;
  view_status : ProposalStatus;
  view_received_at : Date
}.

(** [p.parsed_data?.total_price] *)
Definition total_price_of (parsed_data : value) : value :=
  match parsed_data with
  | Some (JObj fields) => assoc "total_price" fields
  | _ => None
  end.

(** [p.vendor_id._id] is a TypeError when the vendor is gone. *)
Definition view (p : Populated) : Res ProposalView :=
  match snd p with
  | Some v =>
      Ok (mkProposalView (p_id (fst p)) v (raw_email_content (fst p))
            (parsed_data (fst p)) (total_price_of (parsed_data (fst p)))
            (parsing_confidence (fst p)) (requires_review (fst p))
            (p_status (fst p)) (received_at (fst p)))
  | None => Throw (Error "Cannot read properties of null (reading '_id')")
  end.

Fixpoint views (ps : list Populated) : Res (list ProposalView) :=
  match ps with
  | [] => Ok []
  | p :: rest =>
      let* v := view p in
      let* vs := views rest in
      Ok (v :: vs)
  end.

(** The 200 body of [getComparison]; [None] in [analysis] and
    [recommendation] is [null]. *)
Record Comparison := mkComparison {
  cmp_rfp_id : string;
  cmp_rfp_title : string;
  proposal_count : nat;
  cmp_proposals : list ProposalView;
  analysis : value;
  recommendation : value;
  summary : value;
  error : option string
}.

Definition noProposalsSummary : string :=
  "No proposals have been received yet for this RFP.".
Definition unavailableSummary : string :=
  "AI comparison is temporarily unavailable. Please review proposals manually.".

Definition getComparison (id : string) : M Comparison :=
  (* Verify RFP exists *)
  found <- RFP_findById (IdStr id) ;;
  match found with
  | None => throw (NotFoundError "RFP")
  | Some rfp =>
      (* Fetch all proposals for this RFP *)
      proposals <- Proposal_find_populated (IdStr id) ;;
      if Nat.eqb (List.length proposals) 0 then
        ret (mkComparison id (rfp_title rfp) 0 [] None None
                          (Some (JStr noProposalsSummary)) None)
      else
        outcome <- try_catch (c <- compareProposals rfp proposals ;; ret (Some c))
                             (fun aiError => ret None) ;;
        vs <- lift (views proposals) ;;
        match outcome with
        | None =>
            (* Return proposals without AI comparison if AI fails *)
            ret (mkComparison id (rfp_title rfp) (List.length proposals) vs None None
                              (Some (JStr unavailableSummary)) (Some "AI service error"))
        | Some comparison =>
            proposal_analysis <- lift (get_prop comparison "proposal_analysis") ;;
            recommendation <- lift (get_prop comparison "recommendation") ;;
            summary <- lift (get_prop comparison "summary") ;;
            ret (mkComparison id (rfp_title rfp) (List.length proposals) vs
                              proposal_analysis recommendation summary None)
        end
  end.

End WithEnv.
End proposalController.

(* ===================================================================== *)
(** * Two deliveries in flight                                            *)
(* ===================================================================== *)

(** The create-if-absent of one delivery is two awaited database calls,
    [Proposal.findOne] and, when it found nothing, [proposal.save()].
    Another request of the same process, or another process, can run
    between the two. *)
Module Interleaving.
Section WithEnv.
Context {E : Env}.
Import Db.

Inductive Task :=
| AtFindOne (rfpId : IdVal) (vendorId : ObjectId) (raw : RawEmail)
| AtSave (rfpId : IdVal) (vendorId : ObjectId) (raw : RawEmail)
| Duplicate (existing : ObjectId)
| Saved (proposalId : ObjectId)
| Failed.

(** One awaited call of a task. *)
Definition step (t : Task) (st : State) : Task * State :=
  match t with
  | AtFindOne rfpId vendorId raw =>
      match Proposal_findOne rfpId vendorId st with
      | (Ok (Some existing), st') => (Duplicate (p_id existing), st')
      | (Ok None, st') => (AtSave rfpId vendorId raw, st')
      | (Throw _, st') => (Failed, st')
      end
  | AtSave rfpId vendorId raw =>
      match (today <- new_Date ;;
             proposal <- new_Proposal rfpId vendorId raw today ;;
             Proposal_insert proposal ;;;
             ret (p_id proposal)) st with
      | (Ok id, st') => (Saved id, st')
      | (Throw _, st') => (Failed, st')
      end
  | _ => (t, st)
  end.

(** A schedule says whose call runs next: [false] the first task, [true]
    the second. *)
Fixpoint run (schedule : list bool) (t1 t2 : Task) (st : State)
  : Task * Task * State :=
  match schedule with
  | [] => (t1, t2, st)
  | false :: rest => let (t1', st') := step t1 st in run rest t1' t2 st'
  | true :: rest => let (t2', st') := step t2 st in run rest t1 t2' st'
  end.

End WithEnv.
End Interleaving.

(* ===================================================================== *)
(** * Properties of a database state                                      *)
(* ===================================================================== *)

(** How many Response Records the pair has. *)
Definition countPair (r v : ObjectId) (st : State) : nat :=
  List.length (filter (Db.samePair r v) (proposals st)).

(** At most one record per (request, responder). *)
Definition atMostOnePerPair (st : State) : Prop :=
  forall r v, (countPair r v st <= 1)%nat.

(** Every stored [_id] was generated before the next one. *)
Definition freshIds (st : State) : Prop :=
  Forall (fun p => (p_id p < next_oid st)%N) (proposals st).

(** The stored document with this [_id]. *)
Definition proposalById (id : ObjectId) (st : State) : option Proposal :=
  find (fun p => N.eqb (p_id p) id) (proposals st).

(** The stored request with this [_id]. *)
Definition rfpById (id : ObjectId) (st : State) : option RFP :=
  find (fun r => N.eqb (rfp_id r) id) (rfps st).

(** The forward order draft, sent, receiving_proposals, closed. *)
Definition rank (s : RFPStatus) : nat :=
  match s with
  | draft => 0
  | sent => 1
  | receiving_proposals => 2
  | closed => 3
  end.

(** The five failure categories of the oracle adapter. *)
Inductive Category :=
| invalid_credential | rate_limited | upstream_unavailable | timed_out
| generic_upstream_error.

Definition categoryOf (raised : Exn) : option Category :=
  match message raised with
  | Some m =>
      if String.eqb m AIService.msg_invalid_key then Some invalid_credential
      else if String.eqb m AIService.msg_rate_limit then Some rate_limited
      else if String.eqb m AIService.msg_unavailable then Some upstream_unavailable
      else if String.eqb m AIService.msg_timed_out then Some timed_out
      else if String.prefix "AI service error: " m then Some generic_upstream_error
      else None
  | None => None
  end.

(* ===================================================================== *)
(** * Vocabulary of the statements                                        *)
(* ===================================================================== *)

Section Vocabulary.
Context {E : Env}.
Import EmailService Db AIService Inbound proposalController.

(** The parts of the state a completion request leaves alone. *)
Definition sameDb (st st' : State) : Prop :=
  rfps st' = rfps st /\ vendors st' = vendors st /\
  proposals st' = proposals st /\ next_oid st' = next_oid st.

(** The delay before the retry that is made with [r] retries left. *)
Definition delayAt (r : nat) : Z :=
  (baseDelay * 2 ^ (Z.of_nat maxRetries - Z.of_nat r))%Z.

(** The delays of [k] retries in a row, the first made with [r] left. *)
Fixpoint delaysFrom (r k : nat) : list Z :=
  match k with
  | O => []
  | S k' => delayAt r :: delaysFrom (pred r) k'
  end.

(** The text that follows "AI service error: " in the generic category. *)
Definition genericDetail (e : Exn) : string :=
  if truthy_str (message e)
  then match message e with Some m => m | None => "" end
  else "Unknown error occurred".

(** The fixed text of a category other than the generic one. *)
Definition fixedText (c : Category) : option string :=
  match c with
  | invalid_credential => Some msg_invalid_key
  | rate_limited => Some msg_rate_limit
  | upstream_unavailable => Some msg_unavailable
  | timed_out => Some msg_timed_out
  | generic_upstream_error => None
  end.

(** The request id the subject line yields. *)
Definition subjectId (email : EmailData) : option IdVal :=
  match subject email with
  | Some s => option_map IdStr (matchRfpId s)
  | None => None
  end.

(** The order of the sort keys, [None] lowest. *)
Definition key_le (a b : option Z) : bool := negb (key_lt b a).

(** The request-identity tag, in the words of the specification: an
    opening bracket, the letters RFP in either case, a hyphen, at least one
    hex digit in either case, a closing bracket. *)
Definition opensTag (o : string) : bool :=
  match o with
  | String b (String r (String f (String p (String d EmptyString)))) =>
      Ascii.eqb b "[" && (Ascii.eqb r "R" || Ascii.eqb r "r")
      && (Ascii.eqb f "F" || Ascii.eqb f "f") && (Ascii.eqb p "P" || Ascii.eqb p "p")
      && Ascii.eqb d "-"
  | _ => false
  end.

Definition hexDigit (c : ascii) : bool :=
  existsb (Ascii.eqb c) (list_ascii_of_string "0123456789abcdefABCDEF").

(** [s] carries the tag of [h] when the tag with the digits [h] stands
    somewhere in [s]. *)
Definition carriesTag (s h : string) : Prop :=
  exists before opening after,
    s = before ++ opening ++ h ++ String "]" after /\
    opensTag opening = true /\
    h <> EmptyString /\ Text.allChars hexDigit h = true.

(** No opening bracket in [s]. *)
Definition bracketFree (s : string) : bool :=
  Text.allChars (fun c => negb (Ascii.eqb c "[")) s.

(** The request was dispatched to the vendor: its dispatch list has an
    entry for it. *)
Definition dispatchedTo (vid : ObjectId) (r : RFP) : Prop :=
  exists e, In e (rfp_vendors r) /\ ve_vendor_id e = vid.

(** No dispatch timestamp of [r'] is later than every one of [r]. *)
Definition notDispatchedLater (r' r : RFP) : Prop :=
  forall e', In e' (rfp_vendors r') ->
  exists e, In e (rfp_vendors r) /\ (ve_sent_at e' <= ve_sent_at e)%Z.

(** The vendor the sender address resolves to: the one whose stored
    address is the sender's in lower case, after the setters of the
    schema ran on it. *)
Definition senderVendor (email : EmailData) (st : State) : option Vendor :=
  match from email with
  | Some addr =>
      if truthy_str (Some addr)
      then find (fun v => String.eqb (vendor_email v) (setEmail (toLowerCase addr)))
                (vendors st)
      else None
  | None => None
  end.

(** The correlation both entry points compute in a state. *)
Definition correlationOf (email : EmailData) (st : State) : Correlation :=
  match fst (correlateEmailToRFP email (Some findRFPCallback)
                                 (Some findVendorCallback) st) with
  | Ok c => c
  | Throw _ => result None None None
  end.

(** The ObjectId a query gets for [correlation.rfpId]. *)
Definition castOf (v : IdVal) : option ObjectId :=
  match v with
  | IdObj o => Some o
  | IdStr s => castObjectId s
  end.

(** What the query throws when it gets none. *)
Definition castFailure (path : string) (v : IdVal) : Exn :=
  match v with
  | IdStr s => CastError path s
  | IdObj _ => CastError path ""
  end.

(** What [save()] rejects with after a parse that returned, if it does:
    the error of the cast of the parsed document. *)
Definition rejection (pr : Res json * State) : option Exn :=
  match fst pr with
  | Ok pd =>
      match castParsedData (calls (snd pr)) pd with
      | Ok _ => None
      | Throw validationError => Some validationError
      end
  | Throw _ => None
  end.

(** [parsedData.confidence] *)
Definition confidenceOf (pd : json) : value :=
  match pd with
  | JObj fields => assoc "confidence" fields
  | _ => None
  end.

(** What the parse step writes to the stored document, given the run of
    [parseProposal]: nothing when [save()] rejects. *)
Definition outcomeUpdate (pr : Res json * State) : Proposal -> Proposal :=
  match fst pr with
  | Ok pd =>
      match castParsedData (calls (snd pr)) pd with
      | Ok kept => markParsed kept (confidenceOf pd) (now (snd pr))
      | Throw _ => fun p => p
      end
  | Throw _ => markForReview
  end.

(** The filter [{ _id: id }]. *)
Definition hasId (id : ObjectId) (p : Proposal) : bool := N.eqb (p_id p) id.

(** The document [new Proposal] builds. *)
Definition newDoc (st : State) (r vid : ObjectId) (raw : RawEmail) (rcv : Date)
  : Proposal :=
  mkProposal (next_oid st) r vid raw (Some noParsedData) None false rcv None received.

(** The state after the insert of [doc]. *)
Definition stored (st : State) (doc : Proposal) : State :=
  mkState (rfps st) (vendors st) (proposals st ++ [doc]) (N.succ (next_oid st))
          (now st) (calls st) (slept st).

(** The state after the parse step on the inserted document. *)
Definition afterParse (arg : ParseArg) (doc : Proposal) (st1 : State) : State :=
  set_proposals (updateFirst (hasId (p_id doc)) (outcomeUpdate (parseProposal arg st1)))
                (snd (parseProposal arg st1)).

(** The status update of the poller. *)
Definition advanceIfSent (r : ObjectId) (st : State) : State :=
  match find (fun x => N.eqb (rfp_id x) r) (rfps st) with
  | Some x =>
      match rfp_status x with
      | sent => set_rfps (updateFirst (fun y => N.eqb (rfp_id y) (rfp_id x))
                                      (with_status receiving_proposals)) st
      | _ => st
      end
  | None => st
  end.

(** The status update of the webhook. *)
Definition forceReceiving (r : ObjectId) (st : State) : State :=
  set_rfps (updateFirst (fun y => N.eqb (rfp_id y) r) (with_status receiving_proposals)) st.

(** [emailData.date || new Date()] *)
Definition receivedAt (email : EmailData) (st : State) : Date :=
  match date email with Some d => d | None => now st end.

(** Two requests the fallback lookup cannot tell apart. *)
Definition alike (a b : RFP) : Prop :=
  rfp_id a = rfp_id b /\ rfp_vendors a = rfp_vendors b.

(** The same for the result of a lookup. *)
Definition alikeOpt (a b : option RFP) : Prop :=
  match a, b with
  | Some x, Some y => alike x y
  | None, None => True
  | _, _ => False
  end.

(** The fallback lookup on a collection of requests. *)
Definition recent (vid : ObjectId) (l : list RFP) : option RFP :=
  firstBySentAt (filter (fun r => sentTo vid r && outstanding r) l).

(** A property of a document, [undefined] where there is none. *)
Definition prop (j : json) (k : string) : value :=
  match j with
  | JObj fields => assoc k fields
  | _ => None
  end.

(** The same for a value that may be [undefined]. *)
Definition propOf (v : value) (k : string) : value :=
  match v with
  | Some j => prop j k
  | None => None
  end.

(** The entries of [proposal_analysis], none when it is no array. *)
Definition entriesOf (j : json) : list json :=
  match prop j "proposal_analysis" with
  | Some (JArr xs) => xs
  | _ => []
  end.

(** An analysis entry names its vendor and has scores. *)
Definition entryOk (a : json) : bool :=
  truthy (prop a "vendor_id") && truthy (prop a "vendor_name") && truthy (prop a "scores").

(** What the comparison validation lets through. *)
Definition accepted (j : json) : bool :=
  isArray (prop j "proposal_analysis")
  && truthy (prop j "recommendation")
  && truthy (propOf (prop j "recommendation") "vendor_id")
  && truthy (prop j "summary")
  && forallb entryOk (entriesOf j).

(** An entry with a list that is no array set to the empty list. *)
Definition fixList (k : string) (a : json) : json :=
  match a with
  | JObj fields => if isArray (assoc k fields) then a else JObj (assoc_set k (JArr []) fields)
  | _ => a
  end.

(** The three repairs of an entry, in the order of the source. *)
Definition repairEntry (a : json) : json :=
  fixList "red_flags" (fixList "weaknesses" (fixList "strengths" a)).

(** All three lists of an entry are arrays. *)
Definition listsAreArrays (a : json) : Prop :=
  isArray (prop a "strengths") = true /\
  isArray (prop a "weaknesses") = true /\
  isArray (prop a "red_flags") = true.

(** [Proposal.find({ rfp_id }).populate(...)] on a state. *)
Definition populated (o : ObjectId) (st : State) : list Populated :=
  map (fun p => (p, find (fun v => N.eqb (vendor_id v) (p_vendor_id p)) (vendors st)))
      (filter (fun p => N.eqb (p_rfp_id p) o) (proposals st)).

End Vocabulary.

(* ===================================================================== *)
(** * Concrete collaborators and data for the examples                    *)
(* ===================================================================== *)

Module Fixtures.

Definition hexValue (c : ascii) : option N :=
  let n := N_of_ascii c in
  if (48 <=? n)%N && (n <=? 57)%N then Some (n - 48)%N
  else if (97 <=? n)%N && (n <=? 102)%N then Some (n - 87)%N
  else if (65 <=? n)%N && (n <=? 70)%N then Some (n - 55)%N
  else None.

Fixpoint hexToN (s : string) (acc : N) : option N :=
  match s with
  | EmptyString => Some acc
  | String c s' =>
      match hexValue c with
      | Some d => hexToN s' (16 * acc + d)%N
      | None => None
      end
  end.

(** The cast of the driver: 24 hex digits. *)
Definition cast24 (s : string) : option ObjectId :=
  if Nat.eqb (String.length s) 24 then hexToN s 0%N else None.

Definition lineItem : json :=
  JObj [("item_name", JStr "Chair"); ("unit_price", JNum 100%float);
        ("quantity", JNum 2%float); ("total_price", JNum 200%float)].

Definition proposalJson (confidence : float) : json :=
  JObj [("line_items", JArr [lineItem]); ("total_price", JNum 200%float);
        ("confidence", JNum confidence)].

(** A proposal whose delivery timeline is an object where the schema has
    a string. *)
Definition structuredTimeline : json :=
  JObj [("line_items", JArr [lineItem]); ("total_price", JNum 200%float);
        ("confidence", JNum 0.5%float);
        ("delivery_timeline", JObj [("weeks", JNum 2%float)])].

Definition scores : json :=
  JObj [("price", JNum 8%float); ("delivery", JNum 7%float);
        ("terms", JNum 6%float); ("completeness", JNum 9%float)].

(** An analysis entry with no [strengths], [weaknesses] or [red_flags]. *)
Definition bareEntry : json :=
  JObj [("vendor_id", JStr "v1"); ("vendor_name", JStr "Vendor One");
        ("scores", scores)].

(** An analysis entry with no [scores]. *)
Definition unscoredEntry : json :=
  JObj [("vendor_id", JStr "v1"); ("vendor_name", JStr "Vendor One");
        ("strengths", JArr [JStr "cheap"])].

Definition recommendationJson : json :=
  JObj [("vendor_id", JStr "v1"); ("vendor_name", JStr "Vendor One");
        ("reasoning", JStr "best price"); ("confidence", JNum 0.5%float)].

Definition comparisonJson (entries : list json) : json :=
  JObj [("proposal_analysis", JArr entries);
        ("recommendation", recommendationJson);
        ("summary", JStr "Vendor One leads.")].

(** A stand-in for [JSON.parse] that knows a few documents by name. *)
Definition parseNamed (s : string) : option json :=
  if String.eqb s "proposal at 0.7" then Some (proposalJson AIService.confidenceThreshold)
  else if String.eqb s "proposal at 0.5" then Some (proposalJson 0.5%float)
  else if String.eqb s "proposal, timeline an object" then Some structuredTimeline
  else if String.eqb s "comparison, bare entry" then Some (comparisonJson [bareEntry])
  else if String.eqb s "comparison, unscored entry" then Some (comparisonJson [unscoredEntry])
  else None.

(** A scripted completion endpoint: the k-th call answers with the k-th
    reply, and with a refused connection after the script. *)
Definition refused : Exn :=
  mkExn (Some "connect ECONNREFUSED") None (Some "ECONNREFUSED") None NoDetails.

(** A stand-in for the cast of a value assigned to [parsed_data]: it
    keeps the paths the schema has, gives each line item an [_id], and
    rejects a value in which one of the four string paths holds an object
    or an array. *)
Definition keep (paths : list string) (fields : list (string * json))
  : list (string * json) :=
  filter (fun kv => existsb (String.eqb (fst kv)) paths) fields.

Definition castItem (id : N) (item : json) : json :=
  match item with
  | JObj fields =>
      JObj (keep ["item_name"; "unit_price"; "quantity"; "total_price"] fields
            ++ [("_id", JStr (Text.toHexString id))])
  | other => other
  end.

Fixpoint castItems (id : N) (items : list json) : list json :=
  match items with
  | [] => []
  | item :: rest => castItem id item :: castItems (N.succ id) rest
  end.

Definition isCompound (v : value) : bool :=
  match v with
  | Some (JObj _) | Some (JArr _) => true
  | _ => false
  end.

Definition strictCast (k : nat) (parsedData : json) : Res json :=
  match parsedData with
  | JObj fields =>
      if existsb (fun path => isCompound (assoc path fields))
                 ["delivery_timeline"; "payment_terms"; "warranty_terms"; "notes"]
      then Throw (Error "Proposal validation failed")
      else
        Ok (JObj (map (fun kv =>
                    match snd kv with
                    | JArr items =>
                        if String.eqb (fst kv) "line_items"
                        then (fst kv, JArr (castItems (N.of_nat (4096 * S k)) items))
                        else kv
                    | _ => kv
                    end)
                  (keep ["line_items"; "total_price"; "delivery_timeline";
                         "payment_terms"; "warranty_terms"; "special_conditions";
                         "notes"] fields)))
  | _ => Throw (Error "Proposal validation failed")
  end.

Definition scripted (script : list Reply) : Env :=
  {| JSON_parse := parseNamed;
     castObjectId := cast24;
     CastError := fun path s =>
       Error ("Cast to ObjectId failed for value " ++ s ++ " at path " ++ path);
     complete := fun k _ => nth k script (Fail refused);
     elapsed := fun _ => 2%Z;
     toNumberOther := fun _ => nan;
     castParsedData := strictCast |}.

Definition upstream (status : Z) (msg : string) : Exn :=
  mkExn (Some msg) (Some status) None None NoDetails.

Definition R1 : ObjectId := 161%N.   (* 0x...a1 *)
Definition V1 : ObjectId := 1%N.
Definition V2 : ObjectId := 2%N.

Definition rfpR1 (s : RFPStatus) : RFP :=
  mkRFP R1 "Office chairs" [] s [mkVendorEntry V1 100%Z].

Definition vendorV1 : Vendor := mkVendor V1 "Vendor One" "v1@x.com".

Definition db (s : RFPStatus) (ps : list Proposal) : State :=
  mkState [rfpR1 s] [vendorV1] ps 1000%N 5000%Z 0 [].

(** A reply to R1 that carries the tag, from V1 in mixed case. *)
Definition taggedEmail : EmailData :=
  mkEmailData (Some "V1@X.com")
              (Some "Re: Office chairs [RFP-0000000000000000000000a1]")
              (Some "We offer 2 chairs at 100 each.") [] None.

Definition emptyPrompt : Prompt := ParsePrompt None None None [].

(** R1 as [createRFP] leaves it: a draft that was sent to nobody. *)
Definition draftR1 : RFP := mkRFP R1 "Office chairs" [] draft [].

Definition dbOf (r : RFP) : State := mkState [r] [vendorV1] [] 1000%N 5000%Z 0 [].

(** A second request, sent to V1 later than R1 and still outstanding. *)
Definition R2 : ObjectId := 162%N.
Definition rfpR2 : RFP :=
  mkRFP R2 "Standing desks" [] receiving_proposals [mkVendorEntry V1 200%Z].

Definition twoRequests : State :=
  mkState [rfpR1 sent; rfpR2] [vendorV1] [] 1000%N 5000%Z 0 [].

(** The same reply with the tag left out of the subject. *)
Definition untaggedEmail : EmailData :=
  mkEmailData (Some "V1@X.com") (Some "Re: Office chairs")
              (Some "We offer 2 chairs at 100 each.") [] None.

(** The two awaited calls of one delivery of [taggedEmail]. *)
Definition delivery : Interleaving.Task :=
  Interleaving.AtFindOne (IdStr "0000000000000000000000a1") V1
                         (Inbound.rawOf taggedEmail).

End Fixtures.

(* ===================================================================== *)
(** * services/AIService.js: structureRFP                                 *)
(* ===================================================================== *)

(** The completion endpoint as [structureRFP] calls it: the k-th call, on
    the description the prompt interpolates. *)
Class Structurer := {
  completeStructure : nat -> string -> Reply
}.

Module RFPStructuring.
Section WithEnv.
Context {E : Env} {Str : Structurer}.
Import AIService Text.

(** One call of [openai.chat.completions.create] with answers [answer]. *)
Definition createWith (answer : nat -> Reply) : M string :=
  fun st =>
    let st' := mkState (rfps st) (vendors st) (proposals st) (next_oid st)
                       (now st + elapsed (calls st))%Z (S (calls st)) (slept st) in
    match answer (calls st) with
    | Fail e => (Throw e, st')
    | Content text => (Ok text, st')
    end.

(** The [forEach] over [structuredData.items]. *)
Fixpoint checkItems (items : list json) (index : nat) : Res unit :=
  match items with
  | [] => Ok tt
  | item :: rest =>
      let* name := get_prop item "name" in
      let* description := get_prop item "description" in
      let* quantity := get_prop item "quantity" in
      if negb (truthy name) || negb (truthy description) || negb (isNumber quantity)
      then Throw (Error ("Item at index " ++ string_of_index index ++
                         " is missing required fields (name, description, or quantity)"))
      else checkItems rest (S index)
  end.

(** [structureRFP], from "Validate the response has required fields" to
    the [return]. *)
Definition validateStructure (structuredData : json) : Res json :=
  let* title := get_prop structuredData "title" in
  let* items := get_prop structuredData "items" in
  if negb (truthy title) || negb (truthy items) || negb (isArray items)
     || match items with Some (JArr xs) => Nat.eqb (List.length xs) 0 | _ => false end
  then Throw (Error "AI response missing required fields (title or items)")
  else
  let* _ := checkItems (match items with Some (JArr xs) => xs | _ => [] end) 0 in
  let* special_conditions := get_prop structuredData "special_conditions" in
  if negb (isArray special_conditions)
  then set_prop structuredData "special_conditions" (JArr [])
  else Ok structuredData.

(** [structureRFP(naturalLanguageDescription)]; the outer [catch] logs and
    rethrows. The completion request is [makeCompletionRequest] on the
    prompt built from the description. *)
Definition structureRFP (naturalLanguageDescription : option string) : M json :=
  match naturalLanguageDescription with
  | Some description =>
      if negb (truthy_str naturalLanguageDescription)
         || Nat.eqb (String.length (trim description)) 0
      then throw (Error "RFP description cannot be empty")
      else
        responseContent <-
          retryWithBackoff (createWith (fun k => completeStructure k description))
                           maxRetries ;;
        lift (let* structuredData := parseJSONResponse responseContent in
              validateStructure structuredData)
  | None => throw (Error "RFP description cannot be empty")
  end.

End WithEnv.
End RFPStructuring.

(* ===================================================================== *)
(** * services/EmailService.js: sending                                   *)
(* ===================================================================== *)

(** The mail options [sendRFPToVendor] builds. *)
Record MailOptions := mkMailOptions {
  mail_from : option string;
  mail_to : string;
  mail_subject : string;
  mail_text : string
}.

(** What sending depends on and the repository does not fix: the
    configured sender, the transport, and the body text of a request,
    which [formatRFPForEmail] renders with locale-dependent formatting
    from fields the request record here does not carry. *)
Class Mailer := {
  (** [process.env.EMAIL_USER] *)
  EMAIL_USER : option string;
  (** [transporter.sendMail]: [info.messageId], or what it throws *)
  sendMail : MailOptions -> Res string;
  (** [formatRFPForEmail(rfp)], or what it throws *)
  formatRFPForEmail : RFP -> Res string
}.

Module EmailSending.
Section WithMailer.
Context {Mlr : Mailer}.
Import Text.

(** A character of the class [[^\s@]]. *)
Definition plainChar (c : ascii) : bool :=
  negb (isWhiteSpace c) && negb (Ascii.eqb c "@").

(** The longest run of plain characters at the head of [s], and the rest. *)
Fixpoint plainRun (s : string) : string * string :=
  match s with
  | EmptyString => (EmptyString, EmptyString)
  | String c s' =>
      if plainChar c
      then let (run, rest) := plainRun s' in (String c run, rest)
      else (EmptyString, s)
  end.

(** [[^\s@]*\.[^\s@]+$] on [d]: some dot of [d] has only plain characters
    before it and one or more plain characters, and nothing else, after. *)
Fixpoint dotThenPlain (d : string) : bool :=
  match d with
  | EmptyString => false
  | String c d' =>
      plainChar c &&
      ((Ascii.eqb c "." && negb (String.eqb d' "") && allChars plainChar d')
       || dotThenPlain d')
  end.

(** [/^[^\s@]+@[^\s@]+\.[^\s@]+$/.test(email)]. The first group cannot
    run over the at-sign, so it is the whole plain run at the head. *)
Definition validateEmail (email : string) : bool :=
  match plainRun email with
  | (String _ _, String "@" (String c d)) => plainChar c && dotThenPlain d
  | _ => false
  end.

(** [validateEmails(emails)]: [{ valid, invalid }] *)
Definition validateEmails (emails : list string) : list string * list string :=
  fold_left (fun acc email =>
               if validateEmail email
               then (fst acc ++ [email], snd acc)%list
               else (fst acc, snd acc ++ [email])%list)
            emails ([], []).

(** The object [sendEmail] resolves to. *)
Inductive SendOutcome :=
| Delivered (messageId : string) (recipient : string)
| NotDelivered (error : option string) (recipient : string).

(** [try { m } catch (e) { h e }] for code that touches no state. *)
Definition rcatch {A} (m : Res A) (h : Exn -> Res A) : Res A :=
  match m with
  | Ok a => Ok a
  | Throw e => h e
  end.

Definition sendEmail (mailOptions : MailOptions) : Res SendOutcome :=
  rcatch
    (let* _ := (if negb (validateEmail (mail_to mailOptions))
                then Throw (Error ("Invalid recipient email: " ++ mail_to mailOptions))
                else Ok tt) in
     let* messageId := sendMail mailOptions in
     Ok (Delivered messageId (mail_to mailOptions)))
    (fun error => Ok (NotDelivered (message error) (mail_to mailOptions))).

(** [`Request for Proposal - ${rfp.title} [RFP-${rfp._id}]`] *)
Definition subjectFor (rfp : RFP) : string :=
  "Request for Proposal - " ++ rfp_title rfp ++ " [RFP-" ++ toHexString (rfp_id rfp) ++ "]".

(** [{ ...result, vendorId, vendorName }] *)
Record VendorOutcome := mkVendorOutcome {
  vo_result : SendOutcome;
  vo_vendorId : ObjectId;
  vo_vendorName : string
}.

Definition sendRFPToVendor (rfp : RFP) (vendor : Vendor) : Res VendorOutcome :=
  rcatch
    (let subject := subjectFor rfp in
     let* emailBody := formatRFPForEmail rfp in
     let mailOptions := mkMailOptions EMAIL_USER (vendor_email vendor) subject emailBody in
     let* result := sendEmail mailOptions in
     Ok (mkVendorOutcome result (vendor_id vendor) (vendor_name vendor)))
    (fun error =>
       Ok (mkVendorOutcome (NotDelivered (message error) (vendor_email vendor))
                           (vendor_id vendor) (vendor_name vendor))).

Record Sent := mkSent {
  s_vendorId : ObjectId;
  s_vendorName : string;
  s_email : string;
  s_messageId : string
}.

Record NotSent := mkNotSent {
  f_vendorId : ObjectId;
  f_vendorName : string;
  f_email : string
}.

Record SendError := mkSendError {
  e_vendor : string;
  e_email : string;
  e_error : option string
}.

Record SendResults := mkSendResults {
  total : nat;
  successful : list Sent;
  failed : list NotSent;
  errors : list SendError
}.

(** The body of [sendResults.forEach((result, index) => ...)]; a settled
    promise is [Ok] when fulfilled and [Throw] when rejected. *)
Definition record (results : SendResults) (settled : Res VendorOutcome * Vendor)
  : SendResults :=
  let (result, vendor) := settled in
  let fail (errorMessage : option string) :=
    mkSendResults (total results) (successful results)
      (failed results ++ [mkNotSent (vendor_id vendor) (vendor_name vendor)
                                    (vendor_email vendor)])%list
      (errors results ++ [mkSendError (vendor_name vendor) (vendor_email vendor)
                                      errorMessage])%list in
  match result with
  | Ok value =>
      match vo_result value with
      | Delivered messageId _ =>
          mkSendResults (total results)
            (successful results ++ [mkSent (vendor_id vendor) (vendor_name vendor)
                                           (vendor_email vendor) messageId])%list
            (failed results) (errors results)
      | NotDelivered error _ => fail error
      end
  | Throw reason => fail (message reason)
  end.

(** [sendRFPToVendors(rfp, vendors)]. The result of [validateEmails] is
    only logged. The sends are started in the order of [vendors], and
    [Promise.allSettled] keeps that order. *)
Definition sendRFPToVendors (rfp : RFP) (vendors : list Vendor) : SendResults :=
  let results := mkSendResults (List.length vendors) [] [] [] in
  let sendResults := map (fun vendor => sendRFPToVendor rfp vendor) vendors in
  fold_left record (combine sendResults vendors) results.

End WithMailer.
End EmailSending.

(* ===================================================================== *)
(** * controllers/rfpController.js: sendRFP                               *)
(* ===================================================================== *)

Module rfpController.
Section WithEnv.
Context {E : Env} {Mlr : Mailer}.
Import Db EmailSending.

(** The casts of [{ _id: { $in: vendor_ids } }]. *)
Fixpoint castIds (ids : list string) : M (list ObjectId) :=
  match ids with
  | [] => ret []
  | s :: rest =>
      o <- castId "_id" (IdStr s) ;;
      os <- castIds rest ;;
      ret (o :: os)
  end.

(** [Vendor.find({ _id: { $in: vendor_ids } })] *)
Definition Vendor_find_in (vendor_ids : list string) : M (list Vendor) :=
  os <- castIds vendor_ids ;;
  gets (fun st => filter (fun v => existsb (N.eqb (vendor_id v)) os) (vendors st)).

(** [rfp.vendors.findIndex(v => v.vendor_id.toString() ===
    entry.vendor_id.toString())], then the update of [sent_at] or the
    [push]. *)
Fixpoint upsert (vendors : list VendorEntry) (entry : VendorEntry) : list VendorEntry :=
  match vendors with
  | [] => [entry]
  | v :: rest =>
      if N.eqb (ve_vendor_id v) (ve_vendor_id entry)
      then mkVendorEntry (ve_vendor_id v) (ve_sent_at entry) :: rest
      else v :: upsert rest entry
  end.

(** [rfp.save()]: the paths [vendors] and [status] of the document. *)
Definition RFP_save_dispatch (id : ObjectId) (vs : list VendorEntry) (s : RFPStatus)
  : M unit :=
  modify (set_rfps (updateFirst (fun r => N.eqb (rfp_id r) id)
            (fun r => mkRFP (rfp_id r) (rfp_title r) (rfp_structured_data r) s vs))).

(** The 200 body. *)
Record SendReport := mkSendReport {
  rep_total : nat;
  rep_successful : nat;
  rep_failed : nat;
  sent_to : list NotSent;           (* vendor_id, vendor_name, email *)
  failed_vendors : list NotSent;
  rep_errors : list SendError;
  rep_rfp_id : ObjectId;
  rep_status : RFPStatus;
  vendors_count : nat
}.

(** The handler under [asyncHandler]. [vendor_ids] is [None] when the body
    has none or has something that is no array; the elements of an array
    are strings. [sendRFPToVendors] does not throw, so the [catch] that
    wraps it into an EmailServiceError has nothing to catch. The details
    object of the ValidationError is left out. *)
Definition sendRFP (id : string) (vendor_ids : option (list string)) : M SendReport :=
  match vendor_ids with
  | None | Some [] => throw (ValidationError "Missing required field" NoDetails)
  | Some ids =>
      (* Find RFP *)
      found <- RFP_findById (IdStr id) ;;
      match found with
      | None => throw (NotFoundError "RFP")
      | Some rfp =>
          (* Fetch vendor details *)
          vendors <- Vendor_find_in ids ;;
          if Nat.eqb (List.length vendors) 0
          then throw (NotFoundError "No valid vendors found with provided IDs")
          else
            (* Send RFP to vendors via email *)
            let emailResults := sendRFPToVendors rfp vendors in
            (* Update RFP with vendor send information *)
            sentAt <- new_Date ;;
            let vendorEntries :=
              map (fun result => mkVendorEntry (s_vendorId result) sentAt)
                  (successful emailResults) in
            (* Add new vendors to the RFP (avoid duplicates) *)
            let vendors' := fold_left upsert vendorEntries (rfp_vendors rfp) in
            (* Update RFP status *)
            let status' := match rfp_status rfp with draft => sent | s => s end in
            RFP_save_dispatch (rfp_id rfp) vendors' status' ;;;
            ret (mkSendReport (total emailResults)
                   (List.length (successful emailResults))
                   (List.length (failed emailResults))
                   (map (fun r => mkNotSent (s_vendorId r) (s_vendorName r) (s_email r))
                        (successful emailResults))
                   (failed emailResults) (errors emailResults)
                   (rfp_id rfp) status' (List.length vendors'))
      end
  end.

End WithEnv.
End rfpController.

(* ===================================================================== *)
(** * controllers/proposalController.js: getProposalsByRFP                *)
(* ===================================================================== *)

Module proposalListing.
Section WithEnv.
Context {E : Env}.
Import Db proposalController.

(** [.sort({ received_at: -1 })]: latest first; records received at the
    same time keep the order of the collection. *)
Fixpoint insertByReceivedAt (p : Populated) (l : list Populated) : list Populated :=
  match l with
  | [] => [p]
  | q :: rest =>
      if (received_at (fst q) <? received_at (fst p))%Z
      then p :: l
      else q :: insertByReceivedAt p rest
  end.

Definition sortByReceivedAt (l : list Populated) : list Populated :=
  fold_right insertByReceivedAt [] l.

(** One element of [proposals.map(p => ({ ... }))]. *)
Record Listed := mkListed {
  listed : ProposalView;
  listed_delivery_timeline : value;
  listed_parsed_at : option Date
}.

(** [p.parsed_data?.delivery_timeline] *)
Definition delivery_timeline_of (parsed_data : value) : value :=
  match parsed_data with
  | Some (JObj fields) => assoc "delivery_timeline" fields
  | _ => None
  end.

Fixpoint listing (ps : list Populated) : Res (list Listed) :=
  match ps with
  | [] => Ok []
  | p :: rest =>
      let* v := view p in
      let* vs := listing rest in
      Ok (mkListed v (delivery_timeline_of (parsed_data (fst p))) (parsed_at (fst p)) :: vs)
  end.

(** The 200 body. *)
Record ProposalList := mkProposalList {
  list_rfp_id : string;
  list_rfp_title : string;
  list_count : nat;
  list_proposals : list Listed
}.

Definition getProposalsByRFP (id : string) : M ProposalList :=
  (* Verify RFP exists *)
  found <- RFP_findById (IdStr id) ;;
  match found with
  | None => throw (NotFoundError "RFP")
  | Some rfp =>
      (* Fetch all proposals for this RFP *)
      found' <- Proposal_find_populated (IdStr id) ;;
      let proposals := sortByReceivedAt found' in
      ls <- lift (listing proposals) ;;
      ret (mkProposalList id (rfp_title rfp) (List.length proposals) ls)
  end.

End WithEnv.
End proposalListing.

(* ===================================================================== *)
(** * The reparse script                                                  *)
(* ===================================================================== *)

Module reparseScript.
Section WithEnv.
Context {E : Env}.
Import Db AIService Inbound.

(** [{ $or: [{ status: 'received' }, { parsed_data: null },
              { parsed_data: { $exists: false } }] }] *)
Definition needsReparsing (p : Proposal) : bool :=
  match p_status p with received => true | _ => false end
  || match parsed_data p with None | Some JNull => true | Some _ => false end.

(** The email record the script rebuilds from the stored raw content; the
    stored attachments are names. *)
Definition emailDataOf (raw : RawEmail) : EmailData :=
  mkEmailData (raw_from raw) (raw_subject raw) (raw_body raw)
              (map (fun name => mkAttachment (Some name)) (raw_attachments raw)) None.

(** The body of the [for ... of] loop, with its [try]/[catch]; the
    [catch] only logs. *)
Definition reparseOne (proposal : Proposal) : M unit :=
  try_catch
    (if negb (truthy_str (raw_body (raw_email_content proposal)))
     then ret tt (* continue *)
     else
       parsedData <- parseProposal (ArgEmail (emailDataOf (raw_email_content proposal))) ;;
       confidence <- lift (get_prop parsedData "confidence") ;;
       cast <- gets (fun st => castParsedData (calls st) parsedData) ;;
       parsed_at <- new_Date ;;
       match cast with
       | Ok kept =>
           Proposal_save_modified None (p_id proposal)
                                  (markParsed kept confidence parsed_at)
       | Throw validationError =>
           Proposal_save_modified (Some validationError) (p_id proposal) (fun p => p)
       end)
    (fun error => ret tt).



End WithEnv.
End reparseScript.

(* ===================================================================== *)
(** * controllers/vendorController.js: deleteVendor, createVendor         *)
(* ===================================================================== *)

Module vendorController.
Section WithEnv.
Context {E : Env}.
Import Db.

Fixpoint removeFirst {A} (hit : A -> bool) (l : list A) : list A :=
  match l with
  | [] => []
  | x :: rest => if hit x then rest else x :: removeFirst hit rest
  end.

(** [Vendor.findByIdAndDelete(id)] *)
Definition Vendor_findByIdAndDelete (id : string) : M (option Vendor) :=
  o <- castId "_id" (IdStr id) ;;
  fun st =>
    (Ok (find (fun v => N.eqb (vendor_id v) o) (vendors st)),
     mkState (rfps st) (removeFirst (fun v => N.eqb (vendor_id v) o) (vendors st))
             (proposals st) (next_oid st) (now st) (calls st) (slept st)).

(** The handler under [asyncHandler]; the 200 body names the vendor. *)
Definition deleteVendor (id : string) : M Vendor :=
  (* Find and delete vendor *)
  vendor <- Vendor_findByIdAndDelete id ;;
  match vendor with
  | None => throw (NotFoundError "Vendor")
  | Some v => ret v
  end.

(** [new Vendor({ name, email, ... })]: a fresh [_id], the setters applied.
    The optional fields are not carried. *)
Definition new_Vendor (name email : string) : M Vendor :=
  fun st =>
    (Ok (mkVendor (next_oid st) (setName name) (setEmail email)),
     mkState (rfps st) (vendors st) (proposals st) (N.succ (next_oid st))
             (now st) (calls st) (slept st)).

(** models/Vendor.js: the validators, [required] on [name] and [email] and
    the pattern on [email], which is the pattern of [validateEmail]. *)
Definition validVendor (v : Vendor) : bool :=
  negb (String.eqb (vendor_name v) "") && negb (String.eqb (vendor_email v) "")
  && EmailSending.validateEmail (vendor_email v).

(** What a failed validation throws; the per-path messages are left out. *)
Definition validationFailed : Exn := Error "Vendor validation failed".

(** What the unique index on [email] makes the insert throw; its numeric
    code 11000 is not among the properties carried here. *)
Definition duplicateKey : Exn := Error "E11000 duplicate key error".

(** [vendor.save()] of a new document: the validation, then the insert,
    which the unique index refuses for an address that is stored. *)
Definition Vendor_save (v : Vendor) : M unit :=
  fun st =>
    if negb (validVendor v) then (Throw validationFailed, st)
    else if existsb (fun w => String.eqb (vendor_email w) (vendor_email v)) (vendors st)
    then (Throw duplicateKey, st)
    else (Ok tt,
          mkState (rfps st) (vendors st ++ [v])%list (proposals st) (next_oid st)
                  (now st) (calls st) (slept st)).

(** The handler under [asyncHandler], for a body whose [name] and
    [email] are strings or absent; the 201 body shows the stored vendor.
    The details objects of the two errors are left out. *)
Definition createVendor (name email : option string) : M Vendor :=
  match name, email with
  | Some name', Some email' =>
      (* Validate required fields *)
      if negb (truthy_str name) || negb (truthy_str email)
      then throw (ValidationError "Missing required fields" NoDetails)
      else
        (* Check for duplicate email *)
        existingVendor <- Vendor_findOne (toLowerCase email') ;;
        match existingVendor with
        | Some _ => throw (DuplicateError "Vendor with this email already exists" NoDetails)
        | None =>
            (* Create new vendor *)
            vendor <- new_Vendor name' email' ;;
            Vendor_save vendor ;;;
            ret vendor
        end
  | _, _ => throw (ValidationError "Missing required fields" NoDetails)
  end.

End WithEnv.
End vendorController.

(* ===================================================================== *)
(** * controllers/rfpController.js: getRFPById                            *)
(* ===================================================================== *)

Module rfpDetails.
Section WithEnv.
Context {E : Env}.
Import Db.

(** One element of [rfp.vendors.map(v => ({ ... }))], after
    [populate('vendors.vendor_id', ...)]: the vendor's fields are read
    with [?.], so they are [undefined] when the vendor is gone. *)
Record DispatchView := mkDispatchView {
  dv_vendor_id : option ObjectId;
  dv_name : option string;
  dv_email : option string;
  dv_sent_at : Date
}.

Definition dispatchView (vendors : list Vendor) (v : VendorEntry) : DispatchView :=
  let vendor_id' := find (fun w => N.eqb (vendor_id w) (ve_vendor_id v)) vendors in
  mkDispatchView (option_map vendor_id vendor_id') (option_map vendor_name vendor_id')
                 (option_map vendor_email vendor_id') (ve_sent_at v).

(** The 200 body. *)
Record Detail := mkDetail {
  detail_id : ObjectId;
  detail_title : string;
  detail_structured_data : value;
  detail_status : RFPStatus;
  detail_vendors : list DispatchView;
  detail_proposal_count : nat
}.

(** [Proposal.countDocuments({ rfp_id })] *)
Definition Proposal_countDocuments (rfp_id : ObjectId) : M nat :=
  gets (fun st => List.length (filter (fun p => N.eqb (p_rfp_id p) rfp_id) (proposals st))).

Definition getRFPById (id : string) : M Detail :=
  found <- RFP_findById (IdStr id) ;;
  match found with
  | None => throw (NotFoundError "RFP")
  | Some rfp =>
      (* Get proposal count *)
      proposalCount <- Proposal_countDocuments (rfp_id rfp) ;;
      stored <- gets vendors ;;
      ret (mkDetail (rfp_id rfp) (rfp_title rfp) (structured_data rfp) (rfp_status rfp)
                    (map (dispatchView stored) (rfp_vendors rfp)) proposalCount)
  end.

End WithEnv.
End rfpDetails.

(* ===================================================================== *)
(** * Starting and stopping the polling                                   *)
(* ===================================================================== *)

(** [EmailPollingService.start] and [stop] with the [startEmailPolling]
    and [stopEmailPolling] of the EmailService instance the polling
    service owns. The runtime's interval timers are a list of the active
    ones, each with its handle and the delay [setInterval] was called
    with. What period the runtime makes of that delay is its own affair
    and is not modelled: Node runs a timer whose delay is not a number,
    is below 1 or is above 2147483647 with a period of 1 ms. *)
Module Polling.

Record EmailServiceState := mkEmailServiceState {
  isPolling : bool;
  pollingInterval : option nat     (* the handle [setInterval] returned *)
}.

Record PollingState := mkPollingState {
  isRunning : bool;
  emailService : EmailServiceState;
  timers : list (nat * float);     (* active interval timers *)
  next_handle : nat;
  fetches : nat                    (* fetches started right away *)
}.

(** The two constructors. *)
Definition initial : PollingState :=
  mkPollingState false (mkEmailServiceState false None) [] 0 0.

(** EmailService: [startEmailPolling(onEmailReceived, intervalMinutes)] *)
Definition startEmailPolling (intervalMinutes : float) (s : PollingState) : PollingState :=
  if isPolling (emailService s) then s
  else
    let intervalMs := (intervalMinutes * 60 * 1000)%float in
    mkPollingState (isRunning s)
      (mkEmailServiceState true (Some (next_handle s)))
      ((next_handle s, intervalMs) :: timers s)
      (S (next_handle s)) (S (fetches s)).

(** EmailService: [stopEmailPolling()] *)
Definition stopEmailPolling (s : PollingState) : PollingState :=
  match pollingInterval (emailService s) with
  | Some handle =>
      mkPollingState (isRunning s) (mkEmailServiceState false None)
        (filter (fun t => negb (Nat.eqb (fst t) handle)) (timers s))
        (next_handle s) (fetches s)
  | None => s
  end.

Definition set_isRunning (b : bool) (s : PollingState) : PollingState :=
  mkPollingState b (emailService s) (timers s) (next_handle s) (fetches s).

(** EmailPollingService: [start(intervalMinutes)] *)
Definition start (intervalMinutes : float) (s : PollingState) : PollingState :=
  if isRunning s then s
  else startEmailPolling intervalMinutes (set_isRunning true s).

(** EmailPollingService: [stop()] *)
Definition stop (s : PollingState) : PollingState :=
  if negb (isRunning s) then s
  else set_isRunning false (stopEmailPolling s).

Inductive Call :=
| Start (intervalMinutes : float)
| Stop.

Definition call (s : PollingState) (c : Call) : PollingState :=
  match c with
  | Start m => start m s
  | Stop => stop s
  end.

End Polling.

(* ===================================================================== *)
(** * Vocabulary of the statements about the rest of the code             *)
(* ===================================================================== *)

Section FurtherVocabulary.
Context {E : Env}.
Import AIService.

(** The elements of the array at [k], none when there is no array. *)
Definition itemsAt (j : json) (k : string) : list json :=
  match prop j k with
  | Some (JArr xs) => xs
  | _ => []
  end.

(** A line item names its item and has three numbers. *)
Definition lineItemOk (item : json) : bool :=
  truthy (prop item "item_name") && isNumber (prop item "unit_price")
  && isNumber (prop item "quantity") && isNumber (prop item "total_price").

(** A number that is neither below 0 nor above 1. *)
Definition confidenceInRange (c : value) : bool :=
  match c with
  | Some (JNum x) => negb (PrimFloat.ltb x 0%float) && negb (PrimFloat.ltb 1%float x)
  | _ => false
  end.

(** What the proposal validation lets through. *)
Definition acceptedProposal (j : json) : bool :=
  negb (Nat.eqb (List.length (itemsAt j "line_items")) 0)
  && isNumber (prop j "total_price")
  && confidenceInRange (prop j "confidence")
  && forallb lineItemOk (itemsAt j "line_items").

(** The document with [special_conditions] made a list and the review flag
    set from the confidence. *)
Definition flagged (j : json) : json :=
  match fixList "special_conditions" j with
  | JObj fields =>
      JObj (assoc_set "requires_review"
              (JBool (PrimFloat.ltb (num (prop j "confidence")) confidenceThreshold))
              fields)
  | other => other
  end.

(** An item of a structured request has a name, a description and a
    numeric quantity. *)
Definition itemOk (item : json) : bool :=
  truthy (prop item "name") && truthy (prop item "description")
  && isNumber (prop item "quantity").

(** What the validation of a structured request lets through. *)
Definition acceptedStructure (j : json) : bool :=
  truthy (prop j "title")
  && negb (Nat.eqb (List.length (itemsAt j "items")) 0)
  && forallb itemOk (itemsAt j "items").

(** The completion calls of [structureRFP] on description [d], seen as
    the completion endpoint of an [Env]. *)
Definition structuringEnv {Str : Structurer} (d : string) : Env :=
  {| JSON_parse := JSON_parse;
     castObjectId := castObjectId;
     CastError := CastError;
     complete := fun k _ => completeStructure k d;
     elapsed := elapsed;
     toNumberOther := toNumberOther;
     castParsedData := castParsedData |}.

(** The sum of a list of waits. *)
Definition totalWait (ds : list Z) : Z := fold_right Z.add 0%Z ds.

(** The time slept between two states of one run. *)
Definition waited (st st' : State) : Z :=
  totalWait (skipn (List.length (slept st)) (slept st')).

(** The state after one completion call and nothing else. *)
Definition called (st : State) : State :=
  mkState (rfps st) (vendors st) (proposals st) (next_oid st)
          (now st + elapsed (calls st))%Z (S (calls st)) (slept st).

(** The prompt [parseProposal] builds from its argument. *)
Definition promptOf (arg : ParseArg) : Prompt :=
  ParsePrompt (arg_from arg) (arg_subject arg) (arg_body arg) (arg_attachments arg).

(** What is made of the text of an answer to a parse request. *)
Definition parsedFrom (text : string) : Res json :=
  let* parsedData := parseJSONResponse text in validateProposal parsedData.

(** The same for a comparison request. *)
Definition comparedFrom (text : string) : Res json :=
  let* comparisonData := parseJSONResponse text in validateComparison comparisonData.

End FurtherVocabulary.

Section SendingVocabulary.
Context {Mlr : Mailer}.
Import EmailSending.

(** What becomes of the mail of [rfp] to [vendor]: the message id the
    transport returns, or the error that stops it. *)
Definition deliveryTo (rfp : RFP) (vendor : Vendor) : Res string :=
  let* emailBody := formatRFPForEmail rfp in
  if validateEmail (vendor_email vendor)
  then sendMail (mkMailOptions EMAIL_USER (vendor_email vendor) (subjectFor rfp) emailBody)
  else Throw (Error ("Invalid recipient email: " ++ vendor_email vendor)).

Definition delivered (rfp : RFP) (vendor : Vendor) : bool :=
  match deliveryTo rfp vendor with
  | Ok _ => true
  | Throw _ => false
  end.

(** The entries of the three result lists for one vendor. *)
Definition sentEntry (rfp : RFP) (v : Vendor) : list Sent :=
  match deliveryTo rfp v with
  | Ok messageId => [mkSent (vendor_id v) (vendor_name v) (vendor_email v) messageId]
  | Throw _ => []
  end.

Definition notSentEntry (rfp : RFP) (v : Vendor) : list NotSent :=
  match deliveryTo rfp v with
  | Ok _ => []
  | Throw _ => [mkNotSent (vendor_id v) (vendor_name v) (vendor_email v)]
  end.

Definition errorEntry (rfp : RFP) (v : Vendor) : list SendError :=
  match deliveryTo rfp v with
  | Ok _ => []
  | Throw e => [mkSendError (vendor_name v) (vendor_email v) (message e)]
  end.

End SendingVocabulary.


Section DispatchVocabulary.
Context {E : Env} {Mlr : Mailer}.
Import Db EmailSending rfpController.

(** The casts of a list of id strings; [None] when one of them fails. *)
Fixpoint castAll (ids : list string) : option (list ObjectId) :=
  match ids with
  | [] => Some []
  | s :: rest =>
      match castObjectId s with
      | Some o =>
          match castAll rest with
          | Some os => Some (o :: os)
          | None => None
          end
      | None => None
      end
  end.

(** The first of the strings that casts to no ObjectId. *)
Fixpoint uncastable (ids : list string) : string :=
  match ids with
  | [] => EmptyString
  | s :: rest =>
      match castObjectId s with
      | Some _ => uncastable rest
      | None => s
      end
  end.

(** The stored vendors whose id is among [os]. *)
Definition selected (os : list ObjectId) (st : State) : list Vendor :=
  filter (fun v => existsb (N.eqb (vendor_id v)) os) (vendors st).

(** The ids of the vendors the mail went out to, in the order of [vs]. *)
Definition notified (rfp : RFP) (vs : list Vendor) : list ObjectId :=
  map vendor_id (filter (delivered rfp) vs).

(** The dispatch entries after the vendors [vids] were stamped with [at_]. *)
Definition stamped (at_ : Date) (vids : list ObjectId) (old : list VendorEntry)
  : list VendorEntry :=
  fold_left upsert (map (fun vid => mkVendorEntry vid at_) vids) old.

(** The status a dispatch leaves. *)
Definition statusAfterDispatch (s : RFPStatus) : RFPStatus :=
  match s with
  | draft => sent
  | other => other
  end.

(** The state after the dispatch of [rfp] to [vs]. *)
Definition afterDispatch (rfp : RFP) (vs : list Vendor) (st : State) : State :=
  set_rfps (updateFirst (fun r => N.eqb (rfp_id r) (rfp_id rfp))
              (fun r => mkRFP (rfp_id r) (rfp_title r) (rfp_structured_data r)
                              (statusAfterDispatch (rfp_status rfp))
                              (stamped (now st) (notified rfp vs) (rfp_vendors rfp))))
           st.

(** The 200 body of the dispatch of [rfp] to [vs] at [at_]. *)
Definition reportOf (rfp : RFP) (vs : list Vendor) (at_ : Date) : SendReport :=
  let results := sendRFPToVendors rfp vs in
  mkSendReport (total results)
    (List.length (successful results)) (List.length (failed results))
    (map (fun r => mkNotSent (s_vendorId r) (s_vendorName r) (s_email r))
         (successful results))
    (failed results) (errors results) (rfp_id rfp)
    (statusAfterDispatch (rfp_status rfp))
    (List.length (stamped at_ (notified rfp vs) (rfp_vendors rfp))).

(** The vendor ids of the [sent_to] list of a report. *)
Definition sentIds (report : SendReport) : list ObjectId :=
  map f_vendorId (sent_to report).

End DispatchVocabulary.

Section ListingVocabulary.
Context {E : Env}.
Import proposalController proposalListing.

(** Dates in descending order. *)
Definition latestFirst (ds : list Date) : Prop :=
  StronglySorted (fun a b => (b <= a)%Z) ds.

Definition listedIds (body : ProposalList) : list ObjectId :=
  map (fun l => view_id (listed l)) (list_proposals body).

Definition listedDates (body : ProposalList) : list Date :=
  map (fun l => view_received_at (listed l)) (list_proposals body).

(** The ids of the stored records of a request, in the order of the
    collection. *)
Definition recordIds (o : ObjectId) (st : State) : list ObjectId :=
  map p_id (filter (fun p => N.eqb (p_rfp_id p) o) (proposals st)).

Definition vendorGone (p : Populated) : bool :=
  match snd p with
  | None => true
  | Some _ => false
  end.

(** Some record of the request refers to a vendor that is not stored. *)
Definition dangling (o : ObjectId) (st : State) : bool :=
  existsb vendorGone (populated o st).

(** The TypeError of [p.vendor_id._id] on a vendor that is gone. *)
Definition vendorTypeError : Exn :=
  Error "Cannot read properties of null (reading '_id')".

End ListingVocabulary.

Section InboundVocabulary.

(** The webhook got [from], [subject] and [body], all non-empty. *)
Definition complete_fields (email : EmailData) : bool :=
  truthy_str (from email) && truthy_str (subject email) && truthy_str (body email).

(** Two collections of requests that differ in status at most. *)
Definition sameButStatus (l l' : list RFP) : Prop :=
  map (Db.with_status draft) l' = map (Db.with_status draft) l.

(** What a delivery of [email] may do to a state: nothing, or append one
    record, with the next id and the raw content of the mail, after the
    records that were there, which stay as they are; vendors are not
    touched and requests change in status at most. *)
Definition keepsPrior (email : EmailData) (st st' : State) : Prop :=
  freshIds st' /\ vendors st' = vendors st /\ sameButStatus (rfps st) (rfps st') /\
  (st' = st \/
   exists doc,
     proposals st' = (proposals st ++ [doc])%list /\ p_id doc = next_oid st /\
     next_oid st' = N.succ (next_oid st) /\
     raw_email_content doc = Inbound.rawOf email).

End InboundVocabulary.

Section ReparseVocabulary.
Context {E : Env}.
Import Db AIService Inbound reparseScript.

(** The fields of a record that say which mail it is. *)
Definition sameIdentity (p p' : Proposal) : Prop :=
  p_id p' = p_id p /\ p_rfp_id p' = p_rfp_id p /\ p_vendor_id p' = p_vendor_id p /\
  raw_email_content p' = raw_email_content p /\ received_at p' = received_at p.

(** A confidence [c] the oracle gave, a number neither below 0 nor above
    1, as the record [p] has it: [parsing_confidence] is [c], or 0 when
    [c] is falsy, and [requires_review] says whether [c] is below the
    threshold. *)
Definition carries (p : Proposal) (c : float) : Prop :=
  PrimFloat.ltb c 0%float = false /\ PrimFloat.ltb 1%float c = false /\
  parsing_confidence p = orZero (Some (JNum c)) /\
  requires_review p = PrimFloat.ltb c confidenceThreshold.

(** [p'] is [p] after a parse that returned a document of which the store
    kept [kept]: the same mail, now parsed at some time, with [kept] as
    its parsed data and the confidence and review flag of the parse. *)
Definition reparsedFrom (p p' : Proposal) : Prop :=
  sameIdentity p p' /\ p_status p' = parsed /\
  exists kept c at_,
    parsed_data p' = Some kept /\ carries p' c /\ parsed_at p' = Some at_.



(** What the script writes to a record, given the run of [parseProposal]
    on it: nothing when the parse throws or [save()] rejects. *)
Definition scriptUpdate (pr : Res json * State) : Proposal -> Proposal :=
  match fst pr with
  | Ok pd =>
      match castParsedData (calls (snd pr)) pd with
      | Ok kept => markParsed kept (confidenceOf pd) (now (snd pr))
      | Throw _ => fun p => p
      end
  | Throw _ => fun p => p
  end.


(** The parse the script runs for a record. *)
Definition reparseOf (p : Proposal) (st : State) : Res json * State :=
  parseProposal (ArgEmail (emailDataOf (raw_email_content p))) st.

(** The record has a body to parse. *)
Definition hasBody (p : Proposal) : bool :=
  truthy_str (raw_body (raw_email_content p)).

End ReparseVocabulary.

Section VendorVocabulary.
Import EmailSending.

(** A stored vendor whose address is lower-case and passes
    [validateEmail]. *)
Definition mailable (v : Vendor) : Prop :=
  validateEmail (vendor_email v) = true /\
  toLowerCase (vendor_email v) = vendor_email v.

(** A string that is empty or starts with no white space. *)
Definition noLeadingSpace (s : string) : bool :=
  match s with
  | EmptyString => true
  | String c _ => negb (Text.isWhiteSpace c)
  end.

(** Every stored vendor is mailable and no two have the same address. *)
Definition addressBook (st : State) : Prop :=
  Forall mailable (vendors st) /\ NoDup (map vendor_email (vendors st)).

End VendorVocabulary.

Section PollingVocabulary.
Import Polling.

(** Running, with one active timer, whose handle the service holds; or
    stopped, with none. *)
Definition oneTimer (s : PollingState) : Prop :=
  isPolling (emailService s) = isRunning s /\
  (forall t, In t (timers s) -> (fst t < next_handle s)%nat) /\
  match pollingInterval (emailService s) with
  | Some handle => isRunning s = true /\ exists ms, timers s = [(handle, ms)]
  | None => isRunning s = false /\ timers s = []
  end.

End PollingVocabulary.

(* ===================================================================== *)
(** * More concrete collaborators and data                                *)
(* ===================================================================== *)

Module Samples.
Import EmailSending.

(** A transport that refuses the addresses in [refusedTo] and accepts
    every other mail, and a one-line body. *)
Definition office (refusedTo : list string) : Mailer :=
  {| EMAIL_USER := Some "buyer@x.com";
     sendMail := fun m =>
       if existsb (String.eqb (mail_to m)) refusedTo
       then Throw (Error "550 mailbox unavailable")
       else Ok ("<" ++ mail_to m ++ ">");
     formatRFPForEmail := fun rfp => Ok ("Title: " ++ rfp_title rfp) |}.

Definition V3 : ObjectId := 3%N.

Definition vendorV2 : Vendor := mkVendor Fixtures.V2 "Vendor Two" "v2@y.org".

(** A vendor whose stored address is malformed. *)
Definition vendorV3 : Vendor := mkVendor V3 "Vendor Three" "no address".

Definition idR1 : string := "0000000000000000000000a1".
Definition idV1 : string := "000000000000000000000001".
Definition idV2 : string := "000000000000000000000002".
Definition idV3 : string := "000000000000000000000003".

(** R1 as a draft that was once dispatched to V2. *)
Definition draftR1 : RFP :=
  mkRFP Fixtures.R1 "Office chairs" [] draft
        [mkVendorEntry Fixtures.V2 100%Z].

(** R1 as a draft and R2, which went out to V1 earlier. *)
Definition catalog : State :=
  mkState [draftR1; Fixtures.rfpR2] [Fixtures.vendorV1; vendorV2; vendorV3] []
          1000%N 5000%Z 0 [].

(** R1 after its dispatch to V1, V2 and V3, of which only the mail to V1
    went out. *)
Definition sentR1 : RFP :=
  mkRFP Fixtures.R1 "Office chairs" [] sent
        [mkVendorEntry Fixtures.V2 100%Z; mkVendorEntry Fixtures.V1 5000%Z].

Definition dispatched : State :=
  mkState [sentR1; Fixtures.rfpR2] [Fixtures.vendorV1; vendorV2; vendorV3] []
          1000%N 5000%Z 0 [].

Definition report : rfpController.SendReport :=
  rfpController.mkSendReport 3 1 2
    [mkNotSent Fixtures.V1 "Vendor One" "v1@x.com"]
    [mkNotSent Fixtures.V2 "Vendor Two" "v2@y.org";
     mkNotSent V3 "Vendor Three" "no address"]
    [mkSendError "Vendor Two" "v2@y.org" (Some "550 mailbox unavailable");
     mkSendError "Vendor Three" "no address"
                 (Some "Invalid recipient email: no address")]
    Fixtures.R1 sent 2.

(** The reply of V1 to the dispatched mail. *)
Definition reply : EmailData :=
  mkEmailData (Some "V1@X.com")
    (Some "Re: Request for Proposal - Office chairs [RFP-0000000000000000000000a1]")
    (Some "We offer 2 chairs at 100 each.") [] None.

(** A database with a vendor and no request at all. *)
Definition noRequests : State :=
  mkState [] [Fixtures.vendorV1] [] 1000%N 5000%Z 0 [].

(** A parsed record of V2 for R1, stored earlier. *)
Definition earlier : Proposal :=
  mkProposal 5%N Fixtures.R1 Fixtures.V2
    (mkRawEmail (Some "v2@y.org") (Some "Offer") (Some "3 chairs at 90") [])
    (Some (JObj [("line_items", JArr [Fixtures.castItem 6%N Fixtures.lineItem]);
                 ("total_price", JNum 200%float);
                 ("special_conditions", JArr [])]))
    (Some (JNum 0.5%float)) true
    4000%Z (Some 4001%Z) parsed.

End Samples.

(* ==== Theorems ==== *)

(* ===================================================================== *)
(** * The oracle adapter                                                  *)
(* ===================================================================== *)

Section AdapterProofs.
Context {E : Env}.
Import AIService.

Lemma sameDb_refl st : sameDb st st.
Proof. repeat split. Qed.

Lemma sameDb_trans st1 st2 st3 : sameDb st1 st2 -> sameDb st2 st3 -> sameDb st1 st3.
Proof.
  unfold sameDb. intros (a & b & c & d) (a' & b' & c' & d').
  repeat split; congruence.
Qed.

Lemma create_run p st :
  create p st =
  (match complete (calls st) p with Fail e => Throw e | Content t => Ok t end,
   mkState (rfps st) (vendors st) (proposals st) (next_oid st)
           (now st + elapsed (calls st))%Z (S (calls st)) (slept st)).
Proof. unfold create. destruct (complete (calls st) p); reflexivity. Qed.

(** What a run of [retryWithBackoff] over the completion call does, for any
    number of retries left. *)
Lemma retryWithBackoff_spec p : forall r st,
  exists k, (k <= r)%nat /\
    calls (snd (retryWithBackoff (create p) r st)) = (calls st + k + 1)%nat /\
    slept (snd (retryWithBackoff (create p) r st)) = (slept st ++ delaysFrom r k)%list /\
    sameDb st (snd (retryWithBackoff (create p) r st)) /\
    (forall j, (j < k)%nat ->
       exists e, complete (calls st + j) p = Fail e /\ isRetryableError e = true) /\
    match complete (calls st + k) p with
    | Content text => fst (retryWithBackoff (create p) r st) = Ok text
    | Fail e => fst (retryWithBackoff (create p) r st) = Throw (handleError e) /\
                (k = r \/ isRetryableError e = false)
    end.
Proof.
  assert (stop : forall r st,
    match complete (calls st) p with
    | Fail e => (r = 0%nat \/ isRetryableError e = false) /\
                retryWithBackoff (create p) r st =
                (Throw (handleError e),
                 mkState (rfps st) (vendors st) (proposals st) (next_oid st)
                         (now st + elapsed (calls st))%Z (S (calls st)) (slept st))
    | Content t => retryWithBackoff (create p) r st =
                (Ok t,
                 mkState (rfps st) (vendors st) (proposals st) (next_oid st)
                         (now st + elapsed (calls st))%Z (S (calls st)) (slept st))
    end ->
    exists k, (k <= r)%nat /\
    calls (snd (retryWithBackoff (create p) r st)) = (calls st + k + 1)%nat /\
    slept (snd (retryWithBackoff (create p) r st)) = (slept st ++ delaysFrom r k)%list /\
    sameDb st (snd (retryWithBackoff (create p) r st)) /\
    (forall j, (j < k)%nat ->
       exists e, complete (calls st + j) p = Fail e /\ isRetryableError e = true) /\
    match complete (calls st + k) p with
    | Content text => fst (retryWithBackoff (create p) r st) = Ok text
    | Fail e => fst (retryWithBackoff (create p) r st) = Throw (handleError e) /\
                (k = r \/ isRetryableError e = false)
    end).
  { intros r st H. exists 0%nat. rewrite !Nat.add_0_r.
    destruct (complete (calls st) p) as [e | t].
    - destruct H as [Hor ->]. cbn [fst snd calls slept].
      split; [lia |]. split; [lia |]. split; [now rewrite app_nil_r |].
      split; [repeat split |]. split; [intros; lia |]. split; [reflexivity |].
      destruct Hor; [left; lia | now right].
    - rewrite H. cbn [fst snd calls slept].
      split; [lia |]. split; [lia |]. split; [now rewrite app_nil_r |].
      split; [repeat split |]. split; [intros; lia |]. reflexivity. }
  induction r as [| r IH]; intros st.
  - apply stop. simpl. unfold try_catch. rewrite create_run.
    destruct (complete (calls st) p); [split; [now left | reflexivity] | reflexivity].
  - destruct (complete (calls st) p) as [e | t] eqn:Hc.
    + destruct (isRetryableError e) eqn:Hr.
      * set (st1 := mkState (rfps st) (vendors st) (proposals st) (next_oid st)
                            (now st + elapsed (calls st) + delayAt (S r))%Z (S (calls st))
                            (slept st ++ [delayAt (S r)])).
        assert (Hrun : retryWithBackoff (create p) (S r) st =
                       retryWithBackoff (create p) r st1).
        { simpl. unfold try_catch at 1. rewrite create_run, Hc, Hr. reflexivity. }
        destruct (IH st1) as (k & Hk & Hcalls & Hslept & Hdb & Hprev & Hlast).
        exists (S k). rewrite Hrun.
        split; [lia |].
        split; [rewrite Hcalls; simpl; lia |].
        split; [rewrite Hslept; simpl; rewrite <- app_assoc; reflexivity |].
        split; [exact Hdb |].
        split.
        -- intros j Hj. destruct j as [| j].
           ++ rewrite Nat.add_0_r. eauto.
           ++ destruct (Hprev j) as (e' & He' & Hre'); [lia |].
              exists e'. split; [| assumption].
              rewrite <- He'. simpl. f_equal. lia.
        -- replace (calls st + S k)%nat with (calls st1 + k)%nat by (simpl; lia).
           destruct (complete (calls st1 + k) p).
           ++ destruct Hlast as [Hres Hor]. split; [assumption |].
              destruct Hor; [left; lia | now right].
           ++ assumption.
      * apply stop. rewrite Hc. split; [now right |].
        simpl. unfold try_catch. rewrite create_run, Hc, Hr. reflexivity.
    + apply stop. rewrite Hc.
      simpl. unfold try_catch. rewrite create_run, Hc. reflexivity.
Qed.

(** The delays of up to three retries from the default budget. *)
Lemma delaysFrom_default k :
  (k <= 3)%nat -> delaysFrom maxRetries k = firstn k [1000; 2000; 4000]%Z.
Proof.
  intros H. destruct k as [| [| [| [| k]]]]; try lia; reflexivity.
Qed.

Lemma isRetryableError_iff e :
  isRetryableError e = true <->
  (status e = Some 429%Z \/
   (exists s, status e = Some s /\ (500 <= s < 600)%Z) \/
   code e = Some "ECONNRESET" \/ code e = Some "ETIMEDOUT" \/
   (exists m, message e = Some m /\ includes "timeout" m = true)).
Proof.
  unfold isRetryableError, status_is, code_is, message_includes.
  destruct e as [m s c sc d]; cbn [status code message].
  split.
  - destruct s as [s |].
    + destruct (Z.eqb_spec s 429); [subst; now left |].
      destruct (Z.leb_spec 500 s), (Z.ltb_spec s 600); cbn [andb];
        try (right; left; exists s; split; [reflexivity | lia]).
      all: destruct c as [c |]; cbn [orb].
      all: try (destruct (String.eqb_spec c "ECONNRESET"); [subst; auto |];
                destruct (String.eqb_spec c "ETIMEDOUT"); [subst; auto 6 |];
                cbn [orb]).
      all: destruct m as [m |]; try discriminate.
      all: destruct (String.eqb m ""); cbn [negb andb]; try discriminate.
      all: destruct (includes "timeout" m) eqn:Hi; try discriminate.
      all: intros _; right; right; right; right; eauto.
    + destruct c as [c |]; cbn [orb].
      all: try (destruct (String.eqb_spec c "ECONNRESET"); [subst; auto |];
                destruct (String.eqb_spec c "ETIMEDOUT"); [subst; auto 6 |];
                cbn [orb]).
      all: destruct m as [m |]; try discriminate.
      all: destruct (String.eqb m ""); cbn [negb andb]; try discriminate.
      all: destruct (includes "timeout" m) eqn:Hi; try discriminate.
      all: intros _; right; right; right; right; eauto.
  - intros [H | [(s' & H & Hs) | [H | [H | (m' & H & Hm)]]]].
    + rewrite H. reflexivity.
    + rewrite H. destruct (Z.eqb s' 429); [reflexivity |].
      destruct (Z.leb_spec 500 s'), (Z.ltb_spec s' 600); try lia. reflexivity.
    + rewrite H. destruct s as [s |]; [| reflexivity].
      destruct (Z.eqb s 429); [reflexivity |].
      destruct ((500 <=? s)%Z && (s <? 600)%Z); reflexivity.
    + rewrite H. destruct s as [s |]; [| reflexivity].
      destruct (Z.eqb s 429); [reflexivity |].
      destruct ((500 <=? s)%Z && (s <? 600)%Z); reflexivity.
    + rewrite H. rewrite Hm.
      assert (Hne : String.eqb m' "" = false).
      { destruct m'; [discriminate Hm | reflexivity]. }
      rewrite Hne. cbn [negb andb].
      destruct s as [s |].
      * destruct (Z.eqb s 429); [reflexivity |].
        destruct ((500 <=? s)%Z && (s <? 600)%Z); [reflexivity |].
        destruct c as [c |]; [| reflexivity].
        destruct (String.eqb c "ECONNRESET" || String.eqb c "ETIMEDOUT"); reflexivity.
      * destruct c as [c |]; [| reflexivity].
        destruct (String.eqb c "ECONNRESET" || String.eqb c "ETIMEDOUT"); reflexivity.
Qed.

(** C5. A completion request makes [k + 1] calls for some [k <= 3]; it
    sleeps before each of the [k] retries, for 1000, 2000 and 4000 ms in
    that order; every call that was retried had failed with a retryable
    error, and an error is retryable exactly when it is a 429, a 5xx, an
    ECONNRESET or ETIMEDOUT code, or a message that contains "timeout".
    The last call either answers, or fails with no retry left or with an
    error that is not retryable, such as a 401, which is raised after the
    first call with no wait at all. *)
Theorem retry_policy (p : Prompt) (st : State) :
  (forall e, isRetryableError e = true <->
     (status e = Some 429%Z \/
      (exists s, status e = Some s /\ (500 <= s < 600)%Z) \/
      code e = Some "ECONNRESET" \/ code e = Some "ETIMEDOUT" \/
      (exists m, message e = Some m /\ includes "timeout" m = true)))
  /\ (exists k, (k <= 3)%nat /\
       calls (snd (makeCompletionRequest p st)) = (calls st + k + 1)%nat /\
       slept (snd (makeCompletionRequest p st))
         = (slept st ++ firstn k [1000; 2000; 4000]%Z)%list /\
       (forall j, (j < k)%nat ->
          exists e, complete (calls st + j) p = Fail e /\ isRetryableError e = true) /\
       match complete (calls st + k) p with
       | Content text => fst (makeCompletionRequest p st) = Ok text
       | Fail e => fst (makeCompletionRequest p st) = Throw (handleError e) /\
                   (k = 3%nat \/ isRetryableError e = false)
       end)
  /\ (forall e, complete (calls st) p = Fail e -> isRetryableError e = false ->
       fst (makeCompletionRequest p st) = Throw (handleError e) /\
       calls (snd (makeCompletionRequest p st)) = S (calls st) /\
       slept (snd (makeCompletionRequest p st)) = slept st)
  /\ (forall msg, includes "timeout" msg = false ->
       isRetryableError (mkExn (Some msg) (Some 401%Z) None None NoDetails) = false).
Proof.
  split; [apply isRetryableError_iff |].
  unfold makeCompletionRequest.
  destruct (retryWithBackoff_spec p maxRetries st)
    as (k & Hk & Hcalls & Hslept & Hdb & Hprev & Hlast).
  split; [| split].
  - exists k. rewrite <- (delaysFrom_default Hk). auto 7.
  - intros e He Hr.
    destruct k as [| k].
    + rewrite Nat.add_0_r in Hlast. rewrite He in Hlast.
      rewrite Hcalls, Hslept. simpl. rewrite app_nil_r.
      split; [apply Hlast |]. split; [lia | reflexivity].
    + destruct (Hprev 0%nat) as (e' & He' & Hr'); [lia |].
      rewrite Nat.add_0_r in He'. congruence.
  - intros msg Hmsg. unfold isRetryableError, status_is, code_is, message_includes.
    cbn. rewrite Hmsg. now rewrite andb_false_r.
Qed.

Lemma categoryOf_generic x :
  categoryOf (Error ("AI service error: " ++ x)) = Some generic_upstream_error.
Proof. destruct x; reflexivity. Qed.

(** C6, as the code has it. Whatever a completion request raises is
    [handleError] of the reply of its last call. [handleError] returns one
    of five categories. In the four specific ones the raised failure is a
    fixed text that depends on the category alone; in the generic one it
    is "AI service error: " followed by the upstream message, or by
    "Unknown error occurred" when the upstream error has no message. *)
Theorem adapter_failure_categories (p : Prompt) (st : State) :
  (forall e,
     match categoryOf (handleError e) with
     | Some generic_upstream_error =>
         handleError e = Error ("AI service error: " ++ genericDetail e)
     | Some c => exists text, fixedText c = Some text /\ handleError e = Error text
     | None => False
     end)
  /\ match fst (makeCompletionRequest p st) with
     | Throw raised =>
         exists k e, (k <= 3)%nat /\ complete (calls st + k) p = Fail e /\
                     raised = handleError e /\
                     (k = 3%nat \/ isRetryableError e = false)
     | Ok _ => True
     end.
Proof.
  split.
  - intros e. unfold handleError.
    destruct (status_is e 401); [cbn; eauto |].
    destruct (status_is e 429); [cbn; eauto |].
    destruct (status_is e 500 || status_is e 503); [cbn; eauto |].
    destruct (message_includes e "timeout"); [cbn; eauto |].
    fold (genericDetail e). rewrite categoryOf_generic. reflexivity.
  - unfold makeCompletionRequest.
    destruct (retryWithBackoff_spec p maxRetries st)
      as (k & Hk & _ & _ & _ & _ & Hlast).
    destruct (complete (calls st + k) p) as [e | t] eqn:Hc.
    + destruct Hlast as [-> Hor]. exists k, e. auto.
    + rewrite Hlast. exact I.
Qed.

End AdapterProofs.

(** C6, as stated, fails: two upstream errors that differ in their message
    alone are both mapped to the generic category, and what the adapter
    raises for each carries that message. *)
Lemma generic_failure_carries_upstream_text :
  let e1 := Fixtures.upstream 400 "org-4711 has no access to model gpt-4" in
  let e2 := Fixtures.upstream 400 "context length exceeded" in
  let run e := @AIService.makeCompletionRequest (Fixtures.scripted [Fail e])
                 Fixtures.emptyPrompt (Fixtures.db sent []) in
  fst (run e1) = Throw (Error "AI service error: org-4711 has no access to model gpt-4")
  /\ fst (run e2) = Throw (Error "AI service error: context length exceeded")
  /\ categoryOf (Error "AI service error: org-4711 has no access to model gpt-4")
       = Some generic_upstream_error
  /\ categoryOf (Error "AI service error: context length exceeded")
       = Some generic_upstream_error
  /\ includes "org-4711 has no access to model gpt-4"
              "AI service error: org-4711 has no access to model gpt-4" = true.
Proof. repeat split; reflexivity. Qed.

(* ===================================================================== *)
(** * Correlation                                                         *)
(* ===================================================================== *)

Section CorrelationProofs.
Context {E : Env}.
Import EmailService Db Inbound.

Lemma matchAt_nonempty s id : matchAt s = Some id -> String.eqb id "" = false.
Proof.
  unfold matchAt. destruct (prefix_ci "[RFP-" s) as [rest |]; [| discriminate].
  destruct (hexRun rest) as [[| c run] after]; [discriminate |].
  destruct after as [| a after]; [discriminate |].
  destruct a as [[] [] [] [] [] [] [] []]; try discriminate.
  intros [= <-]. reflexivity.
Qed.

Lemma matchRfpId_nonempty s id : matchRfpId s = Some id -> String.eqb id "" = false.
Proof.
  induction s as [| c s IH].
  - discriminate.
  - cbn [matchRfpId]. destruct (matchAt (String c s)) eqn:Hm.
    + intros [= <-]. eapply matchAt_nonempty; eassumption.
    + exact IH.
Qed.

Lemma subjectId_truthy email v : subjectId email = Some v -> truthy_id (Some v) = true.
Proof.
  unfold subjectId. destruct (subject email) as [s |]; [| discriminate].
  destruct (matchRfpId s) as [id |] eqn:Hm; [| discriminate].
  intros [= <-]. simpl. now rewrite (matchRfpId_nonempty _ Hm).
Qed.

(** Correlation never throws. *)
Lemma correlate_total email cb fv st :
  exists c st', correlateEmailToRFP email cb fv st = (Ok c, st').
Proof.
  unfold correlateEmailToRFP, bind, try_catch, ret.
  destruct (from email) as [addr |]; [| eauto].
  destruct fv as [fv |]; [| eauto].
  destruct (truthy_str (Some addr)); [| eauto].
  destruct (fv addr st) as [[[v |] | e] st1]; [| eauto | eauto].
  destruct cb as [cb |]; [| eauto].
  destruct (negb _); [| eauto].
  destruct (cb (vendor_id v) st1) as [[[r |] | e] st2]; eauto.
Qed.

(** With a tag in the subject the request id is the tag, and the run is
    the same whatever the fallback callback is. *)
Lemma tag_wins email v cb1 cb2 fv st :
  subjectId email = Some v ->
  correlateEmailToRFP email cb1 fv st = correlateEmailToRFP email cb2 fv st /\
  forall c st', correlateEmailToRFP email cb1 fv st = (Ok c, st') -> rfpId c = Some v.
Proof.
  intros Hs. pose proof (subjectId_truthy _ Hs) as Ht.
  unfold subjectId in Hs.
  unfold correlateEmailToRFP, bind, try_catch, ret. rewrite Hs, Ht. cbn [negb].
  destruct (from email) as [addr |]; [| split; [reflexivity | now intros c st' [= <- <-]]].
  destruct fv as [fv |]; [| split; [reflexivity | now intros c st' [= <- <-]]].
  destruct (truthy_str (Some addr)); [| split; [reflexivity | now intros c st' [= <- <-]]].
  destruct (fv addr st) as [[[w |] | e] st1];
    try (split; [reflexivity | now intros c st' [= <- <-]]).
  destruct cb1, cb2; split; try reflexivity; now intros c st' [= <- <-].
Qed.

(** With no responder resolved the run is the same whatever the fallback
    callback is. *)
Lemma unresolved_vendor_skips_fallback email cb1 cb2 fv st c st' :
  correlateEmailToRFP email cb1 fv st = (Ok c, st') ->
  vendorId c = None ->
  correlateEmailToRFP email cb2 fv st = (Ok c, st').
Proof.
  unfold correlateEmailToRFP, bind, try_catch, ret.
  destruct (from email) as [addr |]; [| auto].
  destruct fv as [fv |]; [| auto].
  destruct (truthy_str (Some addr)); [| auto].
  destruct (fv addr st) as [[[w |] | e] st1]; [| auto | auto].
  intros Hrun Hnone. exfalso.
  destruct cb1 as [cb1 |].
  - destruct (negb _).
    + destruct (cb1 (vendor_id w) st1) as [[[r |] | e] st2];
        injection Hrun as <- <-; discriminate Hnone.
    + injection Hrun as <- <-; discriminate Hnone.
  - injection Hrun as <- <-; discriminate Hnone.
Qed.

(** With no tag and a responder resolved the fallback callback is run
    once, on that responder's id, right after the responder lookup. *)
Lemma fallback_consulted email cb fv addr v st st1 :
  subjectId email = None ->
  from email = Some addr -> String.eqb addr "" = false ->
  fv addr st = (Ok (Some v), st1) ->
  correlateEmailToRFP email (Some cb) (Some fv) st =
  match cb (vendor_id v) st1 with
  | (Ok (Some r), st2) =>
      (Ok (result (Some (IdObj (rfp_id r))) (Some (vendor_id v)) (Some addr)), st2)
  | (_, st2) => (Ok (result None (Some (vendor_id v)) (Some addr)), st2)
  end.
Proof.
  intros Hs Hf Hne Hv. unfold subjectId in Hs.
  unfold correlateEmailToRFP, bind, try_catch, ret.
  rewrite Hs, Hf. cbn [truthy_str truthy_id negb]. rewrite Hne. cbn [negb].
  rewrite Hv.
  destruct (cb (vendor_id v) st1) as [[[r |] | e] st2]; reflexivity.
Qed.

Lemma key_le_refl a : key_le a a = true.
Proof. destruct a; unfold key_le; simpl; [rewrite Z.ltb_irrefl |]; reflexivity. Qed.

Lemma key_le_trans a b c : key_le a b = true -> key_le b c = true -> key_le a c = true.
Proof.
  unfold key_le. destruct a, b, c; simpl; try discriminate; try reflexivity.
  rewrite !negb_true_iff, !Z.ltb_ge. lia.
Qed.

Lemma key_lt_le a b : key_lt a b = true -> key_le a b = true.
Proof.
  unfold key_le. destruct a, b; simpl; try discriminate; try reflexivity.
  rewrite negb_true_iff, Z.ltb_lt, Z.ltb_ge. lia.
Qed.

Lemma key_lt_le_trans a b c :
  key_lt a b = true -> key_le b c = true -> key_lt a c = true.
Proof.
  unfold key_le. destruct a, b, c; simpl; try discriminate; try reflexivity.
  rewrite negb_true_iff, !Z.ltb_lt, Z.ltb_ge. lia.
Qed.

(** [firstBySentAt] picks a member with the largest key. *)
Lemma firstBySentAt_max l :
  match firstBySentAt l with
  | Some r => In r l /\ forall r', In r' l -> key_le (latestSentAt r') (latestSentAt r) = true
  | None => l = []
  end.
Proof.
  induction l as [| x l IH]; simpl; [reflexivity |].
  destruct (firstBySentAt l) as [r |].
  - destruct IH as [Hin Hmax].
    destruct (key_lt (latestSentAt x) (latestSentAt r)) eqn:Hlt.
    + split; [now right |]. intros r' [<- | Hr'].
      * now apply key_lt_le.
      * now apply Hmax.
    + split; [now left |]. intros r' [<- | Hr'].
      * apply key_le_refl.
      * eapply key_le_trans; [apply Hmax, Hr' |].
        unfold key_le. now rewrite Hlt.
  - subst l. split; [now left |]. intros r' [<- | []]. apply key_le_refl.
Qed.

(** The fallback lookup of both entry points: it leaves the state alone;
    what it finds was dispatched to the responder, is in status sent or
    receiving_proposals, and no other such request has a later dispatch
    timestamp; it finds nothing only when there is no such request. *)
Lemma findRFPCallback_spec vid st :
  snd (findRFPCallback vid st) = st /\
  match fst (findRFPCallback vid st) with
  | Ok (Some r) =>
      In r (rfps st) /\ sentTo vid r = true /\
      (rfp_status r = sent \/ rfp_status r = receiving_proposals) /\
      forall r', In r' (rfps st) -> sentTo vid r' = true -> outstanding r' = true ->
                 key_le (latestSentAt r') (latestSentAt r) = true
  | Ok None =>
      forall r', In r' (rfps st) -> sentTo vid r' = true -> outstanding r' = false
  | Throw _ => False
  end.
Proof.
  unfold findRFPCallback, RFP_findRecent, gets. cbn [fst snd]. split; [reflexivity |].
  pose proof (firstBySentAt_max
                (filter (fun r => sentTo vid r && outstanding r) (rfps st))) as H.
  destruct (firstBySentAt _) as [r |].
  - destruct H as [Hin Hmax]. apply filter_In in Hin as [Hin Hok].
    apply andb_true_iff in Hok as [Hs Ho].
    split; [assumption |]. split; [assumption |]. split.
    + unfold outstanding in Ho. destruct (rfp_status r); auto; discriminate.
    + intros r' Hin' Hs' Ho'. apply Hmax. apply filter_In. now rewrite Hs', Ho'.
  - intros r' Hin' Hs'. destruct (outstanding r') eqn:Ho; [| reflexivity].
    assert (Hx : In r' (filter (fun r => sentTo vid r && outstanding r) (rfps st))).
    { apply filter_In. now rewrite Hs', Ho. }
    rewrite H in Hx. destruct Hx.
Qed.

(** The pattern and the tag of the specification. *)
Lemma lowerAscii_bracket c : lowerAscii c = "["%char -> c = "["%char.
Proof.
  destruct c as [[] [] [] [] [] [] [] []]; intros H; try reflexivity;
    vm_compute in H; discriminate H.
Qed.

Lemma prefix_ci_opening opening rest :
  toLowerCase opening = "[rfp-" -> prefix_ci "[RFP-" (opening ++ rest) = Some rest.
Proof.
  destruct opening as [| a1 [| a2 [| a3 [| a4 [| a5 [| a6 o]]]]]]; try discriminate.
  cbn [toLowerCase]. intros [= H1 H2 H3 H4 H5].
  cbn [append prefix_ci]. rewrite H1, H2, H3, H4, H5. reflexivity.
Qed.

Lemma prefix_ci_sound s rest :
  prefix_ci "[RFP-" s = Some rest ->
  exists opening, s = opening ++ rest /\ toLowerCase opening = "[rfp-".
Proof.
  destruct s as [| a1 [| a2 [| a3 [| a4 [| a5 s]]]]]; cbn [prefix_ci];
    repeat match goal with
    | |- (if ?b then _ else _) = _ -> _ =>
        let H := fresh "H" in destruct b eqn:H; [| discriminate]
    end; try discriminate.
  intros [= <-].
  repeat match goal with
  | H : Ascii.eqb _ _ = true |- _ => apply Ascii.eqb_eq in H
  end.
  exists (String a1 (String a2 (String a3 (String a4 (String a5 EmptyString))))).
  split; [reflexivity |]. cbn [toLowerCase].
  repeat match goal with
  | H : _ = lowerAscii _ |- _ => rewrite <- H; clear H
  end.
  reflexivity.
Qed.

Lemma hexRun_sound s : forall h rest,
  hexRun s = (h, rest) -> s = h ++ rest /\ Text.allChars isHexDigit h = true.
Proof.
  induction s as [| c s IH]; intros h rest.
  - cbn. intros [= <- <-]. split; reflexivity.
  - cbn [hexRun]. destruct (isHexDigit c) eqn:Hc.
    + destruct (hexRun s) as [run after]. intros [= <- <-].
      destruct (IH run after eq_refl) as [-> Hall].
      split; [reflexivity |]. cbn [Text.allChars]. now rewrite Hc, Hall.
    + intros [= <- <-]. split; reflexivity.
Qed.

Lemma hexRun_digits h after :
  Text.allChars isHexDigit h = true ->
  hexRun (h ++ String "]" after) = (h, String "]" after).
Proof.
  induction h as [| c h IH]; intros H; [reflexivity |].
  cbn [Text.allChars] in H. apply andb_true_iff in H as [Hc Hh].
  cbn [append hexRun]. rewrite Hc, IH by exact Hh. reflexivity.
Qed.

Lemma matchAt_sound s h :
  matchAt s = Some h ->
  exists opening after,
    s = opening ++ h ++ String "]" after /\ toLowerCase opening = "[rfp-" /\
    h <> EmptyString /\ Text.allChars isHexDigit h = true.
Proof.
  unfold matchAt. destruct (prefix_ci "[RFP-" s) as [rest |] eqn:Hp; [| discriminate].
  destruct (prefix_ci_sound _ Hp) as (opening & -> & Ho).
  destruct (hexRun rest) as [run after] eqn:Hr.
  destruct (hexRun_sound _ Hr) as [-> Hall].
  destruct run as [| c run]; [discriminate |].
  destruct after as [| a after]; [discriminate |].
  destruct (Ascii.eqb_spec a "]") as [-> | Hne].
  - intros [= <-]. exists opening, after. repeat split; [exact Ho | discriminate | exact Hall].
  - destruct a as [[] [] [] [] [] [] [] []]; try discriminate. now elim Hne.
Qed.

Lemma matchAt_complete opening h after :
  toLowerCase opening = "[rfp-" -> h <> EmptyString ->
  Text.allChars isHexDigit h = true ->
  matchAt (opening ++ h ++ String "]" after) = Some h.
Proof.
  intros Ho Hne Hall. unfold matchAt.
  rewrite (@prefix_ci_opening opening _ Ho), (@hexRun_digits h after Hall).
  destruct h; [now elim Hne | reflexivity].
Qed.

Lemma matchRfpId_head s h : matchAt s = Some h -> matchRfpId s = Some h.
Proof. intros H. destruct s; cbn [matchRfpId]; now rewrite H. Qed.

(** The character tests of the pattern are those of the tag. *)
Lemma isHexDigit_hexDigit c : isHexDigit c = hexDigit c.
Proof. destruct c as [[] [] [] [] [] [] [] []]; reflexivity. Qed.

Lemma allChars_hexDigit h : Text.allChars isHexDigit h = Text.allChars hexDigit h.
Proof.
  induction h as [| c h IH]; [reflexivity |].
  cbn [Text.allChars]. now rewrite isHexDigit_hexDigit, IH.
Qed.

Lemma opensTag_lower o : opensTag o = true <-> toLowerCase o = "[rfp-".
Proof.
  split.
  - destruct o as [| b [| r [| f [| p [| d [| x o]]]]]]; try discriminate.
    cbn [opensTag]. rewrite !andb_true_iff, !orb_true_iff, !Ascii.eqb_eq.
    intros ((((-> & [-> | ->]) & [-> | ->]) & [-> | ->]) & ->); reflexivity.
  - destruct o as [| b [| r [| f [| p [| d [| x o]]]]]]; try discriminate.
    cbn [toLowerCase opensTag]. intros [= Hb Hr Hf Hp Hd].
    rewrite !andb_true_iff, !orb_true_iff, !Ascii.eqb_eq.
    repeat split.
    + destruct b as [[] [] [] [] [] [] [] []]; try reflexivity;
        vm_compute in Hb; discriminate Hb.
    + destruct r as [[] [] [] [] [] [] [] []]; try (now left); try (now right);
        vm_compute in Hr; discriminate Hr.
    + destruct f as [[] [] [] [] [] [] [] []]; try (now left); try (now right);
        vm_compute in Hf; discriminate Hf.
    + destruct p as [[] [] [] [] [] [] [] []]; try (now left); try (now right);
        vm_compute in Hp; discriminate Hp.
    + destruct d as [[] [] [] [] [] [] [] []]; try reflexivity;
        vm_compute in Hd; discriminate Hd.
Qed.

(** What the pattern finds is a tag of the subject. *)
Lemma matchRfpId_sound s : forall h, matchRfpId s = Some h -> carriesTag s h.
Proof.
  induction s as [| c s IH]; intros h; cbn [matchRfpId].
  - destruct (matchAt EmptyString) eqn:Hm; [| discriminate].
    intros [= <-]. destruct (matchAt_sound _ Hm) as (o & a & Hs & Ho & Hne & Hall).
    exists EmptyString, o, a. rewrite <- allChars_hexDigit.
    split; [exact Hs |]. split; [now apply opensTag_lower | now split].
  - destruct (matchAt (String c s)) eqn:Hm.
    + intros [= <-]. destruct (matchAt_sound _ Hm) as (o & a & Hs & Ho & Hne & Hall).
      exists EmptyString, o, a. rewrite <- allChars_hexDigit.
      split; [exact Hs |]. split; [now apply opensTag_lower | now split].
    + intros Hrec. destruct (IH _ Hrec) as (b & o & a & -> & H).
      exists (String c b), o, a. split; [reflexivity | exact H].
Qed.

(** A subject that carries a tag yields one. *)
Lemma matchRfpId_complete s h : carriesTag s h -> exists h', matchRfpId s = Some h'.
Proof.
  intros (before & o & a & -> & Ho & Hne & Hall).
  apply opensTag_lower in Ho. rewrite <- allChars_hexDigit in Hall.
  pose proof (@matchRfpId_head _ _ (@matchAt_complete o h a Ho Hne Hall)) as Hhead.
  induction before as [| c b IH]; [eauto |].
  cbn [append matchRfpId]. destruct (matchAt _); eauto.
Qed.

(** With no opening bracket before it, the tag is the one that is found. *)
Lemma matchRfpId_first before opening h after :
  bracketFree before = true ->
  toLowerCase opening = "[rfp-" -> h <> EmptyString ->
  Text.allChars isHexDigit h = true ->
  matchRfpId (before ++ opening ++ h ++ String "]" after) = Some h.
Proof.
  intros Hb Ho Hne Hall.
  induction before as [| c b IH].
  - apply matchRfpId_head. now apply matchAt_complete.
  - cbn [bracketFree Text.allChars] in Hb. apply andb_true_iff in Hb as [Hc Hb].
    cbn [append matchRfpId].
    assert (Hm : matchAt (String c (b ++ opening ++ h ++ String "]" after)) = None).
    { unfold matchAt. cbn [prefix_ci].
      destruct (Ascii.eqb_spec (lowerAscii "[") (lowerAscii c)) as [He | _];
        [| reflexivity].
      symmetry in He. apply lowerAscii_bracket in He. subst c. discriminate Hc. }
    rewrite Hm. now apply IH.
Qed.

(** The sort key of a request is its latest dispatch timestamp. *)
Lemma latestSentAt_spec r :
  match latestSentAt r with
  | Some m =>
      (exists e, In e (rfp_vendors r) /\ ve_sent_at e = m) /\
      forall e, In e (rfp_vendors r) -> (ve_sent_at e <= m)%Z
  | None => rfp_vendors r = []
  end.
Proof.
  unfold latestSentAt. induction (rfp_vendors r) as [| x l IH]; [reflexivity |].
  cbn [fold_right]. destruct (fold_right _ None l) as [m |].
  - destruct IH as [(e & He & Hm) Hmax]. split.
    + destruct (Z.max_spec (ve_sent_at x) m) as [[_ ->] | [_ ->]].
      * exists e. split; [now right | exact Hm].
      * exists x. split; [now left | reflexivity].
    + intros e' [<- | He']; [lia |]. specialize (Hmax e' He'). lia.
  - subst l. split.
    + exists x. split; [now left | reflexivity].
    + intros e' [<- | []]. lia.
Qed.

Lemma key_le_entries r' r :
  key_le (latestSentAt r') (latestSentAt r) = true -> notDispatchedLater r' r.
Proof.
  intros Hle e' He'.
  pose proof (latestSentAt_spec r') as H'. pose proof (latestSentAt_spec r) as H.
  destruct (latestSentAt r') as [m' |]; [| rewrite H' in He'; destruct He'].
  destruct H' as [_ Hmax'].
  destruct (latestSentAt r) as [m |]; [| discriminate Hle].
  destruct H as [(e & He & Hm) _]. exists e. split; [exact He |].
  unfold key_le in Hle. cbn in Hle. apply negb_true_iff, Z.ltb_ge in Hle.
  specialize (Hmax' e' He'). lia.
Qed.

Lemma sentTo_iff vid r : sentTo vid r = true <-> dispatchedTo vid r.
Proof.
  unfold sentTo, dispatchedTo. rewrite existsb_exists.
  split; intros (e & He & Hv); exists e; (split; [exact He |]);
    now apply N.eqb_eq.
Qed.

Lemma outstanding_iff r :
  outstanding r = true <-> rfp_status r = sent \/ rfp_status r = receiving_proposals.
Proof.
  unfold outstanding. destruct (rfp_status r); split; auto; try discriminate;
    intros [H | H]; discriminate H.
Qed.

(** C4. Take a mail whose subject carries the tag of [h] after a text
    with no opening bracket. Its correlation takes [h] for the request id,
    whether or not a responder is resolved, and its run is the same
    whatever the fallback callback is: the dispatch history is not
    looked at, whatever it says about the sender. In general, for any
    mail: the request id the pattern yields is the digits of a tag the
    subject carries; when the subject carries a tag anywhere, the
    correlation takes the digits of a tag of the subject for the request
    id (the leftmost match) and its run is the same whatever the fallback
    callback is. When no responder was resolved the run does not depend
    on the fallback callback either. When the subject carries no tag and the responder
    lookup found a vendor, the fallback callback runs once, on that
    vendor's id. The callback both entry points pass leaves the state
    alone and returns a request that was dispatched to the responder and
    is in status sent or receiving_proposals, such that no other such
    request has a dispatch timestamp later than all of its own; it
    returns none only when there is no such request. *)
Theorem correlation_precedence (email : EmailData) (st : State)
    (before opening h after : string) :
  subject email = Some (before ++ opening ++ h ++ String "]" after) ->
  bracketFree before = true ->
  opensTag opening = true ->
  h <> EmptyString -> Text.allChars hexDigit h = true ->
  (forall cb1 cb2 fv,
     correlateEmailToRFP email cb1 fv st = correlateEmailToRFP email cb2 fv st /\
     exists c st',
       correlateEmailToRFP email cb1 fv st = (Ok c, st') /\ rfpId c = Some (IdStr h))
  /\ (forall (mail : EmailData),
        (forall t, subjectId mail = Some (IdStr t) ->
           exists s, subject mail = Some s /\ carriesTag s t) /\
        (forall s t cb1 cb2 fv, subject mail = Some s -> carriesTag s t ->
           correlateEmailToRFP mail cb1 fv st = correlateEmailToRFP mail cb2 fv st /\
           exists c st' t',
             correlateEmailToRFP mail cb1 fv st = (Ok c, st') /\
             rfpId c = Some (IdStr t') /\ carriesTag s t') /\
        (forall cb1 cb2 fv c st',
           correlateEmailToRFP mail cb1 fv st = (Ok c, st') -> vendorId c = None ->
           correlateEmailToRFP mail cb2 fv st = (Ok c, st')) /\
        (forall cb fv addr v st1,
           (forall s t, subject mail = Some s -> ~ carriesTag s t) ->
           from mail = Some addr -> String.eqb addr "" = false ->
           fv addr st = (Ok (Some v), st1) ->
           correlateEmailToRFP mail (Some cb) (Some fv) st =
           match cb (vendor_id v) st1 with
           | (Ok (Some r), st2) =>
               (Ok (result (Some (IdObj (rfp_id r))) (Some (vendor_id v)) (Some addr)), st2)
           | (_, st2) => (Ok (result None (Some (vendor_id v)) (Some addr)), st2)
           end))
  /\ (forall vid,
        snd (findRFPCallback vid st) = st /\
        match fst (findRFPCallback vid st) with
        | Ok (Some r) =>
            In r (rfps st) /\ dispatchedTo vid r /\
            (rfp_status r = sent \/ rfp_status r = receiving_proposals) /\
            forall r', In r' (rfps st) -> dispatchedTo vid r' ->
                       rfp_status r' = sent \/ rfp_status r' = receiving_proposals ->
                       notDispatchedLater r' r
        | Ok None =>
            forall r', In r' (rfps st) -> dispatchedTo vid r' ->
                       rfp_status r' = draft \/ rfp_status r' = closed
        | Throw _ => False
        end).
Proof.
  intros Hsubject Hfree Ho Hne Hall.
  apply opensTag_lower in Ho. rewrite <- allChars_hexDigit in Hall.
  assert (Hs : subjectId email = Some (IdStr h)).
  { unfold subjectId. rewrite Hsubject, matchRfpId_first by assumption. reflexivity. }
  split; [| split].
  - intros cb1 cb2 fv. destruct (tag_wins email cb1 cb2 fv st Hs) as [Heq Hid].
    split; [assumption |].
    destruct (correlate_total email cb1 fv st) as (c & st' & Hrun).
    exists c, st'. split; [assumption |]. eapply Hid; eassumption.
  - intros mail. split; [| split; [| split]].
    + intros t. unfold subjectId. destruct (subject mail) as [s |]; [| discriminate].
      destruct (matchRfpId s) as [t' |] eqn:Hm; [| discriminate].
      intros [= <-]. exists s. split; [reflexivity |]. now apply matchRfpId_sound.
    + intros s t cb1 cb2 fv Hsub Htag.
      destruct (matchRfpId_complete Htag) as (t' & Hm).
      assert (Hs' : subjectId mail = Some (IdStr t'))
        by (unfold subjectId; now rewrite Hsub, Hm).
      destruct (tag_wins mail cb1 cb2 fv st Hs') as [Heq Hid].
      split; [assumption |].
      destruct (correlate_total mail cb1 fv st) as (c & st' & Hrun).
      exists c, st', t'. split; [assumption |].
      split; [eapply Hid; eassumption | now apply matchRfpId_sound].
    + intros. eapply unresolved_vendor_skips_fallback; eassumption.
    + intros cb fv addr v st1 Hnone Hfrom Haddr Hfv.
      apply fallback_consulted; try assumption.
      unfold subjectId. destruct (subject mail) as [s |]; [| reflexivity].
      destruct (matchRfpId s) as [t |] eqn:Hm; [| reflexivity].
      exfalso. apply (Hnone s t eq_refl). now apply matchRfpId_sound.
  - intros vid. destruct (findRFPCallback_spec vid st) as [Hst Hfound].
    split; [exact Hst |].
    destruct (fst (findRFPCallback vid st)) as [[r |] | e]; [| | exact Hfound].
    + destruct Hfound as (Hin & Hsent & Hstatus & Hmax).
      split; [exact Hin |]. split; [now apply sentTo_iff |].
      split; [exact Hstatus |].
      intros r' Hin' Hd' Hs'. apply key_le_entries.
      apply Hmax; [exact Hin' | now apply sentTo_iff | now apply outstanding_iff].
    + intros r' Hin' Hd'. apply sentTo_iff in Hd'. specialize (Hfound r' Hin' Hd').
      unfold outstanding in Hfound. destruct (rfp_status r'); auto; discriminate.
Qed.

End CorrelationProofs.

(* ===================================================================== *)
(** * The inbound pipeline, step by step                                  *)
(* ===================================================================== *)

Section PipelineProofs.
Context {E : Env}.
Import EmailService Db AIService Inbound.

Lemma correlate_run email st :
  correlateEmailToRFP email (Some findRFPCallback) (Some findVendorCallback) st
  = (Ok (correlationOf email st), st).
Proof.
  unfold correlationOf, correlateEmailToRFP, bind, try_catch, ret,
    findRFPCallback, findVendorCallback, RFP_findRecent, Vendor_findOne, gets.
  destruct (from email) as [addr |]; [| reflexivity].
  destruct (truthy_str (Some addr)); [| reflexivity].
  destruct (find _ (vendors st)) as [v |]; [| reflexivity].
  destruct (negb _); [| reflexivity].
  destruct (firstBySentAt _); reflexivity.
Qed.

(** A resolved responder is a stored vendor. *)
Lemma correlationOf_vendor email st vid :
  vendorId (correlationOf email st) = Some vid ->
  exists v, find (fun v => N.eqb (vendor_id v) vid) (vendors st) = Some v.
Proof.
  unfold correlationOf, correlateEmailToRFP, bind, try_catch, ret,
    findRFPCallback, findVendorCallback, RFP_findRecent, Vendor_findOne, gets.
  assert (Hfind : forall w, In w (vendors st) ->
            exists v, find (fun v => N.eqb (vendor_id v) (vendor_id w)) (vendors st) = Some v).
  { intros w Hw. destruct (find _ (vendors st)) as [v |] eqn:Hf; [eauto |].
    exfalso. eapply find_none in Hf; [| exact Hw]. simpl in Hf.
    now rewrite N.eqb_refl in Hf. }
  destruct (from email) as [addr |]; [| discriminate].
  destruct (truthy_str (Some addr)); [| discriminate].
  destruct (find _ (vendors st)) as [v |] eqn:Hv; [| discriminate].
  apply find_some in Hv as [Hin _].
  destruct (negb _); [destruct (firstBySentAt _) |]; cbn; intros [= <-]; auto.
Qed.

Lemma castId_run path v st :
  castId path v st =
  (match castOf v with Some o => Ok o | None => Throw (castFailure path v) end, st).
Proof.
  unfold castId, castOf, castFailure. destruct v as [s | o]; [| reflexivity].
  destruct (castObjectId s); reflexivity.
Qed.

Lemma assoc_set_same k v fs : assoc k (assoc_set k v fs) = Some v.
Proof.
  induction fs as [| [k' v'] fs IH]; simpl.
  - now rewrite String.eqb_refl.
  - destruct (String.eqb k k') eqn:Hk; simpl.
    + now rewrite String.eqb_refl.
    + now rewrite Hk.
Qed.

Lemma assoc_set_other k k' v fs :
  String.eqb k' k = false -> assoc k' (assoc_set k v fs) = assoc k' fs.
Proof.
  intros Hne. induction fs as [| [k0 v0] fs IH]; simpl.
  - now rewrite Hne.
  - destruct (String.eqb k k0) eqn:Hk; simpl.
    + apply String.eqb_eq in Hk. subst k0. now rewrite Hne.
    + destruct (String.eqb k' k0); [reflexivity | exact IH].
Qed.

(** What [parseProposal] returns when the oracle's document passes the
    checks: an object whose confidence is a number that is neither below 0
    nor above 1, and whose [requires_review] says whether it is below the
    threshold. *)
Lemma validateProposal_ok j pd :
  validateProposal j = Ok pd ->
  exists fields c,
    pd = JObj fields /\
    get_prop j "confidence" = Ok (Some (JNum c)) /\
    assoc "confidence" fields = Some (JNum c) /\
    PrimFloat.ltb c 0%float = false /\ PrimFloat.ltb 1%float c = false /\
    assoc "requires_review" fields = Some (JBool (PrimFloat.ltb c confidenceThreshold)).
Proof.
  unfold validateProposal.
  destruct j as [| b | x | s | xs | fs]; cbn [get_prop rbind]; try discriminate.
  destruct (negb (truthy (assoc "line_items" fs)) || _ || _); [discriminate |].
  destruct (negb (isNumber (assoc "total_price" fs))); [discriminate |].
  destruct (invalidConfidence (assoc "confidence" fs)) eqn:Hc; [discriminate |].
  unfold invalidConfidence in Hc.
  destruct (assoc "confidence" fs) as [[| | c | | |] |] eqn:Hconf; try discriminate Hc.
  cbn [isNumber negb orb num toNumber] in Hc.
  apply orb_false_iff in Hc as [Hlo Hhi].
  destruct (checkLineItems _ 0); [| discriminate]. cbn [rbind].
  cbn [num toNumber].
  destruct (negb (isArray (assoc "special_conditions" fs))); cbn [set_prop rbind];
    intros [= <-]; eexists; exists c; repeat split; try assumption.
  all: try (rewrite assoc_set_other by reflexivity).
  all: try (rewrite assoc_set_other by reflexivity).
  all: try assumption.
  all: apply assoc_set_same.
Qed.

Lemma makeCompletionRequest_sameDb p st :
  sameDb st (snd (makeCompletionRequest p st)).
Proof.
  unfold makeCompletionRequest.
  destruct (retryWithBackoff_spec p maxRetries st) as (k & _ & _ & _ & Hdb & _).
  exact Hdb.
Qed.

Lemma parseProposal_sameDb arg st : sameDb st (snd (parseProposal arg st)).
Proof.
  unfold parseProposal.
  destruct (negb (arg_truthy arg) || _); [apply sameDb_refl |].
  unfold bind, lift.
  pose proof (makeCompletionRequest_sameDb
                (ParsePrompt (arg_from arg) (arg_subject arg) (arg_body arg)
                             (arg_attachments arg)) st) as H.
  destruct (makeCompletionRequest _ st) as [[t | e] st']; exact H.
Qed.

Lemma parseProposal_ok arg st pd st' :
  parseProposal arg st = (Ok pd, st') ->
  exists fields c,
    pd = JObj fields /\
    assoc "confidence" fields = Some (JNum c) /\
    PrimFloat.ltb c 0%float = false /\ PrimFloat.ltb 1%float c = false /\
    assoc "requires_review" fields = Some (JBool (PrimFloat.ltb c confidenceThreshold)).
Proof.
  unfold parseProposal.
  destruct (negb (arg_truthy arg) || _); [discriminate |].
  unfold bind, lift.
  destruct (makeCompletionRequest _ st) as [[t | e] st1]; [| discriminate].
  unfold parseJSONResponse. destruct (JSON_parse t) as [j |]; [| discriminate].
  cbn [rbind]. intros [= Hv <-].
  destruct (validateProposal_ok _ Hv) as (fs & c & -> & _ & H1 & H2 & H3 & H4).
  exists fs, c. auto.
Qed.

(** The poller hands the body string to the parser, whose guard wants an
    object with a [body]: the parse throws before any completion call. *)
Lemma parseProposal_of_body b st :
  parseProposal (arg_of_body b) st =
  (Throw (Error "Email body is required for proposal parsing"), st).
Proof.
  unfold parseProposal. destruct b as [s |]; cbn.
  - now rewrite orb_true_r.
  - reflexivity.
Qed.

Lemma updateFirst_same {A} (hit : A -> bool) (l : list A) :
  updateFirst hit (fun x => x) l = l.
Proof.
  induction l as [| x l IH]; cbn [updateFirst]; [reflexivity |].
  destruct (hit x); [reflexivity | now rewrite IH].
Qed.

Lemma set_proposals_same hit st :
  set_proposals (updateFirst hit (fun p : Proposal => p)) st = st.
Proof. unfold set_proposals. rewrite updateFirst_same. now destruct st. Qed.

(** The parse step, run: when [save()] rejects, its error is thrown and
    nothing is written. *)
Lemma parseAndStore_run arg doc st :
  parseAndStore arg doc st =
  (match rejection (parseProposal arg st) with
   | Some validationError => Throw validationError
   | None => Ok (outcomeUpdate (parseProposal arg st) doc)
   end,
   afterParse arg doc st).
Proof.
  unfold afterParse, parseAndStore, rejection, outcomeUpdate.
  unfold bind at 1. unfold try_catch at 1. unfold bind at 1.
  destruct (parseProposal arg st) as [[pd | e] st'] eqn:Hp; cbn [fst snd ret].
  - destruct (parseProposal_ok _ _ Hp) as (fs & c & -> & _).
    unfold bind at 1. cbn [lift get_prop confidenceOf].
    unfold bind at 1. unfold gets at 1.
    unfold bind at 1. unfold new_Date, gets.
    destruct (castParsedData (calls st') (JObj fs)) as [kept | validationError].
    + reflexivity.
    + unfold try_catch, bind, Proposal_save_modified, throw.
      now rewrite set_proposals_same.
  - reflexivity.
Qed.

Lemma rejection_of_throw pr e : fst pr = Throw e -> rejection pr = None.
Proof. unfold rejection. now intros ->. Qed.


Lemma rejection_of_rejected pr pd e :
  fst pr = Ok pd -> castParsedData (calls (snd pr)) pd = Throw e -> rejection pr = Some e.
Proof. unfold rejection. now intros -> ->. Qed.

Lemma rejection_of_body b st : rejection (parseProposal (arg_of_body b) st) = None.
Proof. unfold rejection. now rewrite parseProposal_of_body. Qed.

(** [processReceivedEmail], run. *)
Lemma processReceivedEmail_run email st :
  EmailPollingService.processReceivedEmail email st =
  let c := correlationOf email st in
  if uncorrelated c then (Ok (EmailPollingService.correlation_failed c), st)
  else
    match rfpId c, vendorId c with
    | Some rid, Some vid =>
        match castOf rid with
        | None =>
            (Ok (EmailPollingService.processing_error
                   (message (castFailure "rfp_id" rid))), st)
        | Some r =>
            match find (samePair r vid) (proposals st) with
            | Some existing =>
                (Ok (EmailPollingService.duplicate_proposal (p_id existing)), st)
            | None =>
                let doc := newDoc st r vid (rawOf email) (receivedAt email st) in
                (Ok (EmailPollingService.processed (p_id doc) rid vid),
                 advanceIfSent r
                   (afterParse (arg_of_body (body email)) doc (stored st doc)))
            end
        end
    | _, _ => (Ok (EmailPollingService.correlation_failed c), st)
    end.
Proof.
  unfold EmailPollingService.processReceivedEmail.
  unfold try_catch at 1. unfold bind at 1. rewrite correlate_run.
  cbv zeta. destruct (uncorrelated (correlationOf email st)); [reflexivity |].
  destruct (rfpId (correlationOf email st)) as [rid |]; [| reflexivity].
  destruct (vendorId (correlationOf email st)) as [vid |]; [| reflexivity].
  unfold Proposal_findOne. unfold bind at 1. unfold bind at 1. rewrite castId_run.
  destruct (castOf rid) as [r |] eqn:Hcast; [| reflexivity].
  unfold gets at 1.
  destruct (find (samePair r vid) (proposals st)) as [ex |]; [reflexivity |].
  unfold bind at 1. unfold new_Date at 1. unfold gets at 1.
  unfold bind at 1. unfold new_Proposal. unfold bind at 1. rewrite castId_run, Hcast.
  unfold bind at 1. unfold Proposal_insert at 1. unfold modify at 1.
  unfold bind at 1. rewrite parseAndStore_run, rejection_of_body.
  unfold bind at 1. unfold RFP_findById. unfold bind at 1. rewrite castId_run, Hcast.
  unfold gets at 1.
  unfold advanceIfSent, afterParse, stored, newDoc, receivedAt, set_proposals.
  cbn [rfps vendors proposals next_oid now calls slept p_id].
  match goal with |- context [find ?f ?l] => destruct (find f l) as [x |] end;
    [| reflexivity].
  destruct (rfp_status x); reflexivity.
Qed.

(** [receiveProposal], run. *)
Lemma receiveProposal_run email st :
  proposalController.receiveProposal email st =
  if negb (truthy_str (from email)) || negb (truthy_str (subject email))
     || negb (truthy_str (body email))
  then (Throw (ValidationError "Missing required fields: from, subject, body" NoDetails), st)
  else
    let c := correlationOf email st in
    let unable :=
      ValidationError "Unable to correlate email to RFP and vendor"
        (CorrelationDetails (rfpId c) (vendorId c) (fromEmail c)) in
    if uncorrelated c then (Throw unable, st)
    else
      match rfpId c, vendorId c with
      | Some rid, Some vid =>
          match castOf rid with
          | None => (Throw (castFailure "rfp_id" rid), st)
          | Some r =>
              match find (samePair r vid) (proposals st) with
              | Some existing =>
                  (Throw (DuplicateError
                            "Proposal from this vendor for this RFP already exists"
                            (DuplicateDetails (p_id existing))), st)
              | None =>
                  let doc := newDoc st r vid (rawOf email) (now st) in
                  let st1 := stored st doc in
                  match rejection (parseProposal (ArgEmail email) st1) with
                  | Some validationError =>
                      (Throw validationError, afterParse (ArgEmail email) doc st1)
                  | None =>
                      let st4 := forceReceiving r (afterParse (ArgEmail email) doc st1) in
                      let doc' := outcomeUpdate (parseProposal (ArgEmail email) st1) doc in
                      (match find (fun v => N.eqb (vendor_id v) (p_vendor_id doc'))
                                  (vendors st4) with
                       | Some v => Ok (proposalController.mkCreated doc' v)
                       | None =>
                           Throw (Error "Cannot read properties of null (reading '_id')")
                       end, st4)
                  end
              end
          end
      | _, _ => (Throw unable, st)
      end.
Proof.
  unfold proposalController.receiveProposal.
  destruct (negb (truthy_str (from email)) || _ || _); [reflexivity |].
  unfold bind at 1. rewrite correlate_run.
  cbv zeta. destruct (uncorrelated (correlationOf email st)); [reflexivity |].
  destruct (rfpId (correlationOf email st)) as [rid |]; [| reflexivity].
  destruct (vendorId (correlationOf email st)) as [vid |]; [| reflexivity].
  unfold Proposal_findOne. unfold bind at 1. unfold bind at 1. rewrite castId_run.
  destruct (castOf rid) as [r |] eqn:Hcast; [| reflexivity].
  unfold gets at 1.
  destruct (find (samePair r vid) (proposals st)) as [ex |]; [reflexivity |].
  unfold bind at 1. unfold new_Date at 1. unfold gets at 1.
  unfold bind at 1. unfold new_Proposal. unfold bind at 1. rewrite castId_run, Hcast.
  unfold bind at 1. unfold Proposal_insert at 1. unfold modify at 1.
  unfold bind at 1. rewrite parseAndStore_run.
  fold (stored st (newDoc st r vid (rawOf email) (now st))).
  destruct (rejection _); [reflexivity |].
  unfold bind at 1. unfold RFP_findByIdAndUpdate.
  unfold bind at 1. rewrite castId_run, Hcast.
  unfold bind at 1. unfold RFP_save_status, modify. unfold gets at 1.
  unfold bind at 1. unfold Vendor_findById, gets.
  unfold forceReceiving, afterParse, stored, newDoc, set_proposals, set_rfps.
  cbn [rfps vendors proposals next_oid now calls slept p_id].
  match goal with |- context [find ?f ?l] => destruct (find f l) as [x |] end;
    reflexivity.
Qed.

End PipelineProofs.

(* ===================================================================== *)
(** * Lists of documents                                                  *)
(* ===================================================================== *)

Section ListFacts.
Import Db.

Lemma find_none_filter {A} (p : A -> bool) l : find p l = None -> filter p l = [].
Proof.
  induction l as [| x l IH]; simpl; [reflexivity |].
  destruct (p x); [discriminate | exact IH].
Qed.

(** An update that keeps [p] on every element keeps what [filter p] counts. *)
Lemma updateFirst_filter_length {A} (p hit : A -> bool) (f : A -> A) l :
  (forall x, p (f x) = p x) ->
  List.length (filter p (updateFirst hit f l)) = List.length (filter p l).
Proof.
  intros Hp. induction l as [| x l IH]; simpl; [reflexivity |].
  destruct (hit x); simpl.
  - rewrite Hp. destruct (p x); reflexivity.
  - destruct (p x); simpl; now rewrite IH.
Qed.

(** With every stored [_id] below the new one, an update by the new [_id]
    lands on the document that was appended. *)
Lemma updateFirst_appended (f : Proposal -> Proposal) l doc :
  Forall (fun p => (p_id p < p_id doc)%N) l ->
  updateFirst (fun p => N.eqb (p_id p) (p_id doc)) f (l ++ [doc]) = (l ++ [f doc])%list.
Proof.
  induction 1 as [| x l Hx Hl IH]; simpl.
  - now rewrite N.eqb_refl.
  - destruct (N.eqb_spec (p_id x) (p_id doc)) as [Heq | _]; [lia |].
    now rewrite IH.
Qed.

Lemma find_appended (l : list Proposal) d id :
  Forall (fun p => (p_id p < id)%N) l -> p_id d = id ->
  find (fun p => N.eqb (p_id p) id) (l ++ [d]) = Some d.
Proof.
  intros Hl Hd. induction Hl as [| x l Hx Hl IH]; simpl.
  - now rewrite Hd, N.eqb_refl.
  - destruct (N.eqb_spec (p_id x) id) as [Heq | _]; [lia | exact IH].
Qed.

Lemma with_status_alike s x : alike (with_status s x) x.
Proof. split; reflexivity. Qed.

Lemma alike_key a b : alike a b -> latestSentAt a = latestSentAt b.
Proof. intros [_ Hv]. unfold latestSentAt. now rewrite Hv. Qed.

Lemma alike_sentTo vid a b : alike a b -> sentTo vid a = sentTo vid b.
Proof. intros [_ Hv]. unfold sentTo. now rewrite Hv. Qed.

(** A status change of a request that is outstanding before and after does
    not change which request the fallback lookup picks. *)
Lemma firstBySentAt_updateFirst vid hit l :
  let s := receiving_proposals in
  (forall x, find hit l = Some x -> outstanding x = true) ->
  alikeOpt
    (firstBySentAt (filter (fun r => sentTo vid r && outstanding r)
                           (updateFirst hit (with_status s) l)))
    (firstBySentAt (filter (fun r => sentTo vid r && outstanding r) l)).
Proof.
  intros s. assert (Hout : forall x, outstanding (with_status s x) = true).
  { intros x. reflexivity. }
  assert (Hrefl : forall o, alikeOpt o o).
  { intros [x |]; simpl; [split; reflexivity | exact I]. }
  induction l as [| x l IH]; intros Hhit; simpl; [exact I |].
  destruct (hit x) eqn:Hx; simpl.
  - specialize (Hhit x). simpl in Hhit. rewrite Hx in Hhit.
    specialize (Hhit eq_refl).
    rewrite Hout, Hhit.
    rewrite (alike_sentTo vid (with_status_alike s x)).
    destruct (sentTo vid x); simpl; [| apply Hrefl].
    clear IH.
    destruct (firstBySentAt (filter _ l)) as [r' |]; simpl.
    + rewrite (alike_key (with_status_alike s x)).
      destruct (key_lt _ _); simpl; [split; reflexivity | apply with_status_alike].
    + apply with_status_alike.
  - assert (IH' := IH (fun y Hy => Hhit y ltac:(simpl; now rewrite Hx))).
    destruct (sentTo vid x && outstanding x); simpl; [| exact IH'].
    destruct (firstBySentAt (filter _ (updateFirst hit (with_status s) l))) as [a |],
             (firstBySentAt (filter _ l)) as [b |]; simpl in IH'; try contradiction.
    + rewrite (alike_key IH').
      destruct (key_lt _ _); simpl; [exact IH' | split; reflexivity].
    + split; reflexivity.
Qed.

Lemma alikeOpt_id a b : alikeOpt a b -> option_map rfp_id a = option_map rfp_id b.
Proof.
  destruct a, b; simpl; try contradiction; [| reflexivity].
  intros [Hid _]. now rewrite Hid.
Qed.

(** Setting the status of the first request with id [i] to
    receiving_proposals, whatever it was: when the fallback lookup picked a
    request with id [i] before, it picks one with id [i] afterwards. *)
Lemma firstBySentAt_force vid i l : forall R,
  recent vid l = Some R -> rfp_id R = i ->
  exists R',
    recent vid (updateFirst (fun y => N.eqb (rfp_id y) i)
                            (with_status receiving_proposals) l) = Some R' /\
    rfp_id R' = i /\ key_le (latestSentAt R) (latestSentAt R') = true.
Proof.
  unfold recent. induction l as [| x l IH]; intros R; [discriminate |].
  cbn [updateFirst filter].
  destruct (N.eqb_spec (rfp_id x) i) as [Hx | Hx]; cbn [filter].
  - (* the update lands on [x] *)
    assert (Hp : sentTo vid (with_status receiving_proposals x)
                 && outstanding (with_status receiving_proposals x) = sentTo vid x)
      by (unfold sentTo, outstanding; simpl; now rewrite andb_true_r).
    assert (Hk : latestSentAt (with_status receiving_proposals x) = latestSentAt x)
      by reflexivity.
    rewrite Hp. destruct (sentTo vid x); cbn [andb].
    + cbn [firstBySentAt]. rewrite Hk.
      destruct (outstanding x); cbn [firstBySentAt].
      * destruct (firstBySentAt (filter _ l)) as [r' |].
        -- destruct (key_lt (latestSentAt x) (latestSentAt r')).
           ++ intros [= <-] Hid. exists r'. auto using key_le_refl.
           ++ intros [= <-] _. eexists. split; [reflexivity |].
              split; [exact Hx | apply key_le_refl].
        -- intros [= <-] _. eexists. split; [reflexivity |].
           split; [exact Hx | apply key_le_refl].
      * intros HR Hid. rewrite HR.
        destruct (key_lt (latestSentAt x) (latestSentAt R)) eqn:Hlt.
        -- exists R. auto using key_le_refl.
        -- eexists. split; [reflexivity |]. split; [exact Hx |].
           unfold key_le. rewrite Hk. now rewrite Hlt.
    + intros HR Hid. exists R. auto using key_le_refl.
  - (* the update lands further on, if anywhere *)
    destruct (sentTo vid x && outstanding x); cbn [firstBySentAt].
    + destruct (firstBySentAt (filter _ l)) as [r' |] eqn:Hr'.
      * destruct (key_lt (latestSentAt x) (latestSentAt r')) eqn:Hlt.
        -- intros [= <-] Hid.
           destruct (IH r' eq_refl Hid) as (R' & HR' & Hid' & Hle).
           rewrite HR'. rewrite (key_lt_le_trans _ _ _ Hlt Hle). eauto.
        -- intros [= <-] Hid. contradiction.
      * intros [= <-] Hid. contradiction.
    + exact (IH R).
Qed.

End ListFacts.

(* ===================================================================== *)
(** * Create-if-absent                                                    *)
(* ===================================================================== *)

Section IdempotencyProofs.
Context {E : Env}.
Import EmailService Db AIService Inbound.

Lemma afterParse_fields arg doc st1 :
  rfps (afterParse arg doc st1) = rfps st1 /\
  vendors (afterParse arg doc st1) = vendors st1 /\
  next_oid (afterParse arg doc st1) = next_oid st1 /\
  proposals (afterParse arg doc st1) =
    updateFirst (hasId (p_id doc)) (outcomeUpdate (parseProposal arg st1)) (proposals st1).
Proof.
  destruct (parseProposal_sameDb arg st1) as (Hr & Hv & Hp & Hn).
  unfold afterParse, set_proposals. cbn [rfps vendors next_oid proposals].
  rewrite Hr, Hv, Hp, Hn. auto.
Qed.

Lemma outcomeUpdate_keeps pr x :
  p_id (outcomeUpdate pr x) = p_id x /\
  p_rfp_id (outcomeUpdate pr x) = p_rfp_id x /\
  p_vendor_id (outcomeUpdate pr x) = p_vendor_id x /\
  raw_email_content (outcomeUpdate pr x) = raw_email_content x /\
  received_at (outcomeUpdate pr x) = received_at x.
Proof.
  unfold outcomeUpdate. destruct (fst pr) as [pd | e]; [| repeat split].
  destruct (castParsedData _ pd); repeat split.
Qed.

Lemma outcomeUpdate_samePair pr r v x :
  samePair r v (outcomeUpdate pr x) = samePair r v x.
Proof.
  unfold samePair. destruct (outcomeUpdate_keeps pr x) as (_ & -> & -> & _).
  reflexivity.
Qed.

Lemma advanceIfSent_fields r st :
  vendors (advanceIfSent r st) = vendors st /\
  proposals (advanceIfSent r st) = proposals st /\
  next_oid (advanceIfSent r st) = next_oid st.
Proof.
  unfold advanceIfSent. destruct (find _ (rfps st)) as [x |]; [| auto].
  destruct (rfp_status x); auto.
Qed.

Lemma find_by_id_same (l : list RFP) r x :
  find (fun y => N.eqb (rfp_id y) r) l = Some x ->
  find (fun y => N.eqb (rfp_id y) (rfp_id x)) l = Some x.
Proof.
  intros H. pose proof (find_some _ _ H) as [_ Hid].
  apply N.eqb_eq in Hid. now rewrite Hid.
Qed.

(** The poller's status update does not change what the fallback lookup
    picks. *)
Lemma advanceIfSent_recent r st vid :
  alikeOpt (recent vid (rfps (advanceIfSent r st))) (recent vid (rfps st)).
Proof.
  assert (Hrefl : forall o, alikeOpt o o).
  { intros [x |]; simpl; [split; reflexivity | exact I]. }
  unfold advanceIfSent. destruct (find _ (rfps st)) as [x |] eqn:Hf; [| apply Hrefl].
  destruct (rfp_status x) eqn:Hs; try apply Hrefl.
  unfold set_rfps, recent. cbn [rfps].
  apply firstBySentAt_updateFirst.
  intros y Hy. rewrite (find_by_id_same _ _ Hf) in Hy. injection Hy as <-.
  unfold outstanding. now rewrite Hs.
Qed.

Lemma forceReceiving_fields r st :
  vendors (forceReceiving r st) = vendors st /\
  proposals (forceReceiving r st) = proposals st /\
  next_oid (forceReceiving r st) = next_oid st.
Proof. unfold forceReceiving. auto. Qed.

(** The correlation, spelled out. *)
Lemma correlationOf_explicit email st :
  correlationOf email st =
  match senderVendor email st with
  | Some v =>
      if truthy_id (subjectId email)
      then result (subjectId email) (Some (vendor_id v)) (from email)
      else match recent (vendor_id v) (rfps st) with
           | Some R => result (Some (IdObj (rfp_id R))) (Some (vendor_id v)) (from email)
           | None => result (subjectId email) (Some (vendor_id v)) (from email)
           end
  | None => result (subjectId email) None (from email)
  end.
Proof.
  unfold correlationOf, senderVendor, recent, correlateEmailToRFP, bind, try_catch, ret,
    findRFPCallback, findVendorCallback, RFP_findRecent, Vendor_findOne, gets.
  fold (subjectId email).
  destruct (from email) as [addr |]; [| reflexivity].
  destruct (truthy_str (Some addr)); [| reflexivity].
  cbn beta. destruct (find _ (vendors st)) as [v |]; [| reflexivity].
  destruct (truthy_id (subjectId email)); cbn [negb]; [reflexivity |].
  cbn beta. destruct (firstBySentAt _); reflexivity.
Qed.

(** The correlation depends on the vendors, and on the requests only
    through the id of what the fallback lookup finds for the sender, which
    it does not ask for when the subject has the tag. *)
Lemma correlationOf_stable email st st' :
  vendors st' = vendors st ->
  (truthy_id (subjectId email) = true \/
   forall v, senderVendor email st = Some v ->
     option_map rfp_id (recent (vendor_id v) (rfps st'))
     = option_map rfp_id (recent (vendor_id v) (rfps st))) ->
  correlationOf email st' = correlationOf email st.
Proof.
  intros Hv Hr. rewrite !correlationOf_explicit.
  assert (Hs : senderVendor email st' = senderVendor email st)
    by (unfold senderVendor; now rewrite Hv).
  rewrite Hs. destruct (senderVendor email st) as [v |]; [| reflexivity].
  destruct Hr as [Ht | Hr]; [now rewrite Ht |].
  destruct (truthy_id (subjectId email)); [reflexivity |].
  specialize (Hr v eq_refl).
  destruct (recent (vendor_id v) (rfps st')) as [a |],
           (recent (vendor_id v) (rfps st)) as [b |]; simpl in Hr;
    try discriminate; [| reflexivity].
  injection Hr as ->. reflexivity.
Qed.

(** A correlation that resolved both ids without a tag took the request
    from the dispatch history of the sender. *)
Lemma correlationOf_fallback email st rid vid :
  truthy_id (subjectId email) = false ->
  uncorrelated (correlationOf email st) = false ->
  rfpId (correlationOf email st) = Some rid ->
  vendorId (correlationOf email st) = Some vid ->
  exists v R, senderVendor email st = Some v /\ vid = vendor_id v /\
              recent vid (rfps st) = Some R /\ rid = IdObj (rfp_id R).
Proof.
  intros Ht. rewrite correlationOf_explicit.
  destruct (senderVendor email st) as [v |]; [| discriminate 3].
  rewrite Ht. destruct (recent (vendor_id v) (rfps st)) as [R |] eqn:HR.
  - cbn. intros _ [= <-] [= <-]. exists v, R. auto.
  - unfold uncorrelated. cbn. rewrite Ht. discriminate.
Qed.

Lemma countPair_stored st doc r v :
  countPair r v (stored st doc) =
  (countPair r v st + (if samePair r v doc then 1 else 0))%nat.
Proof.
  unfold countPair, stored. cbn [proposals].
  rewrite filter_app, length_app. simpl. now destruct (samePair r v doc).
Qed.

Lemma countPair_of_proposals st st' r v :
  proposals st' = proposals st -> countPair r v st' = countPair r v st.
Proof. unfold countPair. now intros ->. Qed.

Lemma countPair_afterParse arg doc st1 r v :
  countPair r v (afterParse arg doc st1) = countPair r v st1.
Proof.
  unfold countPair. destruct (afterParse_fields arg doc st1) as (_ & _ & _ & ->).
  apply updateFirst_filter_length. intros x. apply outcomeUpdate_samePair.
Qed.

Lemma samePair_newDoc st r vid raw rcv r' v' :
  samePair r' v' (newDoc st r vid raw rcv) = N.eqb r r' && N.eqb vid v'.
Proof. reflexivity. Qed.

(** The records of a pair after one run of the poller. *)
Lemma poll_count email st r' v' :
  let st' := snd (EmailPollingService.processReceivedEmail email st) in
  countPair r' v' st' = countPair r' v' st \/
  (countPair r' v' st = 0%nat /\ countPair r' v' st' = 1%nat).
Proof.
  rewrite processReceivedEmail_run. cbv zeta.
  destruct (uncorrelated _); [now left |].
  destruct (rfpId _) as [rid |]; [| now left].
  destruct (vendorId _) as [vid |]; [| now left].
  destruct (castOf rid) as [r |]; [| now left].
  destruct (find (samePair r vid) (proposals st)) as [ex |] eqn:Hf; [now left |].
  cbn [snd].
  rewrite (@countPair_of_proposals _ _ r' v' (proj1 (proj2 (advanceIfSent_fields _ _)))).
  rewrite countPair_afterParse, countPair_stored, samePair_newDoc.
  destruct (N.eqb_spec r r') as [<- | _]; [| left; simpl; lia].
  destruct (N.eqb_spec vid v') as [<- | _]; [| left; simpl; lia].
  right. apply find_none_filter in Hf. unfold countPair. rewrite Hf. simpl. auto.
Qed.

(** The records of a pair after one run of the webhook. *)
Lemma webhook_count email st r' v' :
  let st' := snd (proposalController.receiveProposal email st) in
  countPair r' v' st' = countPair r' v' st \/
  (countPair r' v' st = 0%nat /\ countPair r' v' st' = 1%nat).
Proof.
  rewrite receiveProposal_run. cbv zeta.
  destruct (negb _ || _ || _); [now left |].
  destruct (uncorrelated _); [now left |].
  destruct (rfpId _) as [rid |]; [| now left].
  destruct (vendorId _) as [vid |]; [| now left].
  destruct (castOf rid) as [r |]; [| now left].
  destruct (find (samePair r vid) (proposals st)) as [ex |] eqn:Hf; [now left |].
  destruct (rejection _); cbn [snd].
  2: rewrite (@countPair_of_proposals _ _ r' v' (proj1 (proj2 (forceReceiving_fields _ _)))).
  all: rewrite countPair_afterParse, countPair_stored, samePair_newDoc.
  all: destruct (N.eqb_spec r r') as [<- | _]; [| left; simpl; lia].
  all: destruct (N.eqb_spec vid v') as [<- | _]; [| left; simpl; lia].
  all: right; apply find_none_filter in Hf; unfold countPair; rewrite Hf; simpl; auto.
Qed.

Lemma count_one_find st r v :
  countPair r v st = 1%nat -> exists existing, find (samePair r v) (proposals st) = Some existing.
Proof.
  unfold countPair. intros H.
  destruct (find (samePair r v) (proposals st)) as [ex |] eqn:Hf; [eauto |].
  apply find_none_filter in Hf. rewrite Hf in H. discriminate.
Qed.

(** The state after the poller stored a new record. *)
Lemma poll_first_delivery email st rid vid r :
  uncorrelated (correlationOf email st) = false ->
  rfpId (correlationOf email st) = Some rid ->
  vendorId (correlationOf email st) = Some vid ->
  castOf rid = Some r ->
  find (samePair r vid) (proposals st) = None ->
  let st1 := snd (EmailPollingService.processReceivedEmail email st) in
  countPair r vid st1 = 1%nat /\ correlationOf email st1 = correlationOf email st.
Proof.
  intros Hu Hr Hv Hc Hf. rewrite processReceivedEmail_run. cbv zeta.
  rewrite Hu, Hr, Hv, Hc, Hf. cbn [snd]. split.
  - rewrite (@countPair_of_proposals _ _ r vid (proj1 (proj2 (advanceIfSent_fields _ _)))).
    rewrite countPair_afterParse, countPair_stored, samePair_newDoc, !N.eqb_refl.
    apply find_none_filter in Hf. unfold countPair. now rewrite Hf.
  - apply correlationOf_stable.
    + rewrite (proj1 (advanceIfSent_fields _ _)).
      now rewrite (proj1 (proj2 (afterParse_fields _ _ _))).
    + right. intros w _.
      pose proof (advanceIfSent_recent r
        (afterParse (arg_of_body (body email))
           (newDoc st r vid (rawOf email) (receivedAt email st))
           (stored st (newDoc st r vid (rawOf email) (receivedAt email st))))
        (vendor_id w)) as H.
      rewrite (proj1 (afterParse_fields _ _ _)) in H. now apply alikeOpt_id.
Qed.

(** The state after the webhook stored a new record. *)
Lemma webhook_first_delivery email st rid vid r :
  negb (truthy_str (from email)) || negb (truthy_str (subject email))
    || negb (truthy_str (body email)) = false ->
  uncorrelated (correlationOf email st) = false ->
  rfpId (correlationOf email st) = Some rid ->
  vendorId (correlationOf email st) = Some vid ->
  castOf rid = Some r ->
  find (samePair r vid) (proposals st) = None ->
  let st1 := snd (proposalController.receiveProposal email st) in
  countPair r vid st1 = 1%nat /\ correlationOf email st1 = correlationOf email st.
Proof.
  intros Hfields Hu Hr Hv Hc Hf. rewrite receiveProposal_run. cbv zeta.
  rewrite Hfields, Hu, Hr, Hv, Hc, Hf.
  destruct (rejection _); cbn [snd].
  { (* [save()] rejected: the record is there, the requests are untouched *)
    split.
    - rewrite countPair_afterParse, countPair_stored, samePair_newDoc, !N.eqb_refl.
      apply find_none_filter in Hf. unfold countPair. now rewrite Hf.
    - apply correlationOf_stable.
      + now rewrite (proj1 (proj2 (afterParse_fields _ _ _))).
      + right. intros w _. now rewrite (proj1 (afterParse_fields _ _ _)). }
  split.
  - rewrite (@countPair_of_proposals _ _ r vid (proj1 (proj2 (forceReceiving_fields _ _)))).
    rewrite countPair_afterParse, countPair_stored, samePair_newDoc, !N.eqb_refl.
    apply find_none_filter in Hf. unfold countPair. now rewrite Hf.
  - apply correlationOf_stable.
    + rewrite (proj1 (forceReceiving_fields _ _)).
      now rewrite (proj1 (proj2 (afterParse_fields _ _ _))).
    + destruct (truthy_id (subjectId email)) eqn:Ht; [now left | right].
      intros w Hw.
      destruct (correlationOf_fallback email st Ht Hu Hr Hv)
        as (v & R & Hsv & -> & HR & ->).
      rewrite Hsv in Hw. injection Hw as <-.
      cbn [castOf] in Hc. injection Hc as <-.
      unfold forceReceiving, set_rfps. cbn [rfps].
      rewrite (proj1 (afterParse_fields _ _ _)). cbn [stored rfps].
      destruct (@firstBySentAt_force _ _ _ _ HR eq_refl) as (R' & HR' & Hid & _).
      rewrite HR', HR. simpl. now rewrite Hid.
Qed.

(** C1. When the correlation of an inbound email resolves to a pair that
    has a Response Record, the poller returns [duplicate_proposal] with the
    record's id and the webhook throws a [DuplicateError] with it, and
    neither changes the state: no record is added and none is overwritten.
    Delivered to a state where the pair has no record, the email is stored
    once; delivered again to the state that results, it is reported as a
    duplicate, and the pair has exactly one record afterwards. *)
Theorem duplicate_delivery (email : EmailData) (st : State)
    (rid : IdVal) (vid r : ObjectId) :
  uncorrelated (correlationOf email st) = false ->
  rfpId (correlationOf email st) = Some rid ->
  vendorId (correlationOf email st) = Some vid ->
  castOf rid = Some r ->
  (forall existing, find (samePair r vid) (proposals st) = Some existing ->
     EmailPollingService.processReceivedEmail email st
       = (Ok (EmailPollingService.duplicate_proposal (p_id existing)), st) /\
     (negb (truthy_str (from email)) || negb (truthy_str (subject email))
        || negb (truthy_str (body email)) = false ->
      proposalController.receiveProposal email st
        = (Throw (DuplicateError "Proposal from this vendor for this RFP already exists"
                                 (DuplicateDetails (p_id existing))), st)))
  /\ (find (samePair r vid) (proposals st) = None ->
      let st1 := snd (EmailPollingService.processReceivedEmail email st) in
      countPair r vid st1 = 1%nat /\
      exists existing,
        find (samePair r vid) (proposals st1) = Some existing /\
        EmailPollingService.processReceivedEmail email st1
          = (Ok (EmailPollingService.duplicate_proposal (p_id existing)), st1))
  /\ (find (samePair r vid) (proposals st) = None ->
      negb (truthy_str (from email)) || negb (truthy_str (subject email))
        || negb (truthy_str (body email)) = false ->
      let st1 := snd (proposalController.receiveProposal email st) in
      countPair r vid st1 = 1%nat /\
      exists existing,
        find (samePair r vid) (proposals st1) = Some existing /\
        proposalController.receiveProposal email st1
          = (Throw (DuplicateError "Proposal from this vendor for this RFP already exists"
                                   (DuplicateDetails (p_id existing))), st1)).
Proof.
  intros Hu Hr Hv Hc. split; [| split].
  - intros existing Hf. split.
    + rewrite processReceivedEmail_run. cbv zeta. now rewrite Hu, Hr, Hv, Hc, Hf.
    + intros Hfields. rewrite receiveProposal_run. cbv zeta.
      now rewrite Hfields, Hu, Hr, Hv, Hc, Hf.
  - intros Hf.
    destruct (poll_first_delivery email st Hu Hr Hv Hc Hf) as [Hone Hsame].
    cbv zeta. split; [exact Hone |].
    destruct (count_one_find _ _ _ Hone) as (existing & Hex).
    exists existing. split; [exact Hex |].
    rewrite processReceivedEmail_run. cbv zeta.
    now rewrite Hsame, Hu, Hr, Hv, Hc, Hex.
  - intros Hf Hfields.
    destruct (webhook_first_delivery email st Hfields Hu Hr Hv Hc Hf) as [Hone Hsame].
    cbv zeta. split; [exact Hone |].
    destruct (count_one_find _ _ _ Hone) as (existing & Hex).
    exists existing. split; [exact Hex |].
    rewrite receiveProposal_run. cbv zeta.
    now rewrite Hfields, Hsame, Hu, Hr, Hv, Hc, Hex.
Qed.

(** C9, as the code has it: one delivery processed from start to finish
    keeps the invariant that a pair has at most one Response Record, with
    either entry point. *)
Theorem one_record_per_pair_sequential (email : EmailData) (st : State) :
  atMostOnePerPair st ->
  atMostOnePerPair (snd (EmailPollingService.processReceivedEmail email st)) /\
  atMostOnePerPair (snd (proposalController.receiveProposal email st)).
Proof.
  intros H. split; intros r v.
  - destruct (poll_count email st r v) as [Heq | [_ Hone]].
    + rewrite Heq. apply H.
    + rewrite Hone. lia.
  - destruct (webhook_count email st r v) as [Heq | [_ Hone]].
    + rewrite Heq. apply H.
    + rewrite Hone. lia.
Qed.

End IdempotencyProofs.

(* ===================================================================== *)
(** * The parse step and the status of the request                        *)
(* ===================================================================== *)

Section LifecycleProofs.
Context {E : Env}.
Import EmailService Db AIService Inbound.

(** With fresh ids, the stored document with the new [_id] after the parse
    step is the inserted one with the outcome written to it. *)
Lemma proposalById_afterParse arg st doc :
  freshIds st -> p_id doc = next_oid st ->
  proposalById (next_oid st) (afterParse arg doc (stored st doc))
  = Some (outcomeUpdate (parseProposal arg (stored st doc)) doc).
Proof.
  intros Hfresh Hid. unfold proposalById.
  destruct (afterParse_fields arg doc (stored st doc)) as (_ & _ & _ & ->).
  cbn [stored proposals]. unfold hasId.
  rewrite updateFirst_appended by (rewrite Hid; exact Hfresh).
  apply find_appended; [exact Hfresh |].
  rewrite <- Hid. apply outcomeUpdate_keeps.
Qed.

Lemma proposalById_of_proposals id st st' :
  proposals st' = proposals st -> proposalById id st' = proposalById id st.
Proof. unfold proposalById. now intros ->. Qed.

(** C7. Take an email that correlates to a pair with no record, in a state
    with fresh ids. If the parse attempt throws (an extraction error or a
    validation error), the entry point still returns its result: the
    poller its success record, the webhook its 201 body. The stored record
    is in status received, has [requires_review] set, and its raw email
    content is what the email carried. *)
Theorem parse_failure_is_contained (email : EmailData) (st : State)
    (rid : IdVal) (vid r : ObjectId) :
  freshIds st ->
  uncorrelated (correlationOf email st) = false ->
  rfpId (correlationOf email st) = Some rid ->
  vendorId (correlationOf email st) = Some vid ->
  castOf rid = Some r ->
  find (samePair r vid) (proposals st) = None ->
  (forall e,
     fst (parseProposal (arg_of_body (body email))
            (stored st (newDoc st r vid (rawOf email) (receivedAt email st)))) = Throw e ->
     fst (EmailPollingService.processReceivedEmail email st)
       = Ok (EmailPollingService.processed (next_oid st) rid vid) /\
     exists d,
       proposalById (next_oid st)
         (snd (EmailPollingService.processReceivedEmail email st)) = Some d /\
       p_status d = received /\ requires_review d = true /\
       raw_email_content d = rawOf email)
  /\ (forall e,
        negb (truthy_str (from email)) || negb (truthy_str (subject email))
          || negb (truthy_str (body email)) = false ->
        fst (parseProposal (ArgEmail email)
               (stored st (newDoc st r vid (rawOf email) (now st)))) = Throw e ->
        exists d v,
          fst (proposalController.receiveProposal email st)
            = Ok (proposalController.mkCreated d v) /\
          proposalById (next_oid st)
            (snd (proposalController.receiveProposal email st)) = Some d /\
          p_status d = received /\ requires_review d = true /\
          raw_email_content d = rawOf email).
Proof.
  intros Hfresh Hu Hr Hv Hc Hf. split.
  - intros e Hp. rewrite processReceivedEmail_run. cbv zeta.
    rewrite Hu, Hr, Hv, Hc, Hf. cbn [fst snd]. split; [reflexivity |].
    rewrite (@proposalById_of_proposals _ _ _ (proj1 (proj2 (advanceIfSent_fields _ _)))).
    rewrite proposalById_afterParse by (assumption || reflexivity).
    eexists. split; [reflexivity |].
    unfold outcomeUpdate. rewrite Hp. repeat split.
  - intros e Hfields Hp. rewrite receiveProposal_run. cbv zeta.
    rewrite Hfields, Hu, Hr, Hv, Hc, Hf, (rejection_of_throw _ Hp). cbn [fst snd].
    rewrite (@proposalById_of_proposals _ _ _ (proj1 (proj2 (forceReceiving_fields _ _)))).
    rewrite proposalById_afterParse by (assumption || reflexivity).
    rewrite (proj1 (forceReceiving_fields _ _)).
    rewrite (proj1 (proj2 (afterParse_fields _ _ _))). cbn [stored vendors].
    destruct (correlationOf_vendor _ _ Hv) as (v & Hvend).
    unfold outcomeUpdate. rewrite Hp. cbn [markForReview p_vendor_id newDoc].
    rewrite Hvend. eexists. exists v. repeat split.
Qed.


(** X24. The webhook when the store rejects the parsed document. Take an
    email the webhook correlates to a pair with no record, let the parse
    attempt succeed and let the store reject what was parsed. Both
    [save()] calls of the parse step then reject, the second one inside
    the catch block, so the handler throws the store's error instead of
    answering 201. By then the record had been inserted, and it is left
    as it was created: in status received, with [requires_review] false,
    not the true the catch block means to set, and with no parsed data,
    confidence or parse time. The status of the request is not advanced,
    and nothing else in the database changes. *)
Theorem store_rejection_leaves_unflagged_record (email : EmailData) (st : State)
    (rid : IdVal) (vid r : ObjectId) (pd : json) (validationError : Exn) :
  negb (truthy_str (from email)) || negb (truthy_str (subject email))
    || negb (truthy_str (body email)) = false ->
  uncorrelated (correlationOf email st) = false ->
  rfpId (correlationOf email st) = Some rid ->
  vendorId (correlationOf email st) = Some vid ->
  castOf rid = Some r ->
  find (samePair r vid) (proposals st) = None ->
  fst (parseProposal (ArgEmail email)
         (stored st (newDoc st r vid (rawOf email) (now st)))) = Ok pd ->
  castParsedData
    (calls (snd (parseProposal (ArgEmail email)
                   (stored st (newDoc st r vid (rawOf email) (now st)))))) pd
    = Throw validationError ->
  fst (proposalController.receiveProposal email st) = Throw validationError /\
  rfps (snd (proposalController.receiveProposal email st)) = rfps st /\
  vendors (snd (proposalController.receiveProposal email st)) = vendors st /\
  exists d,
    proposals (snd (proposalController.receiveProposal email st)) = (proposals st ++ [d])%list /\
    p_id d = next_oid st /\ p_rfp_id d = r /\ p_vendor_id d = vid /\
    raw_email_content d = rawOf email /\
    p_status d = received /\ requires_review d = false /\
    parsed_data d = Some noParsedData /\ parsing_confidence d = None /\
    parsed_at d = None.
Proof.
  intros Hfields Hu Hr Hv Hc Hf Hp Hk.
  pose proof (rejection_of_rejected _ Hp Hk) as Hrej.
  rewrite receiveProposal_run. cbv zeta.
  rewrite Hfields, Hu, Hr, Hv, Hc, Hf, Hrej. cbn [fst snd].
  destruct (afterParse_fields (ArgEmail email) (newDoc st r vid (rawOf email) (now st))
              (stored st (newDoc st r vid (rawOf email) (now st))))
    as (-> & -> & _ & ->).
  unfold outcomeUpdate. rewrite Hp, Hk, updateFirst_same. cbn [stored rfps vendors proposals].
  split; [reflexivity |]. split; [reflexivity |]. split; [reflexivity |].
  eexists. split; [reflexivity |]. repeat split.
Qed.

Lemma afterParse_of_body b doc st1 :
  afterParse (arg_of_body b) doc st1
  = set_proposals (updateFirst (hasId (p_id doc)) markForReview) st1.
Proof.
  unfold afterParse, outcomeUpdate. now rewrite parseProposal_of_body.
Qed.

Lemma Forall_updateFirst {A} (P : A -> Prop) hit f (l : list A) :
  (forall x, P x -> P (f x)) -> Forall P l -> Forall P (updateFirst hit f l).
Proof.
  intros Hf. induction 1 as [| x l Hx Hl IH]; simpl; [constructor |].
  destruct (hit x); constructor; auto.
Qed.

(** C10. The poller hands [emailData.body], a string, to [parseProposal],
    whose guard throws for anything but an object with a non-empty [body]:
    the parse attempt of the poller always throws, before any completion
    call. So no record reaches status parsed through the poller, and, in a
    state with fresh ids, the record a successful run creates is in status
    received with [requires_review] set, and its parsed data are what a
    new document has there, two empty lists; a run that creates no record
    leaves the state as it was. *)
Theorem poller_never_parses (email : EmailData) (st : State) :
  freshIds st ->
  (forall b st0,
     parseProposal (arg_of_body b) st0
     = (Throw (Error "Email body is required for proposal parsing"), st0))
  /\ (Forall (fun p => p_status p <> parsed) (proposals st) ->
      Forall (fun p => p_status p <> parsed)
             (proposals (snd (EmailPollingService.processReceivedEmail email st))))
  /\ match fst (EmailPollingService.processReceivedEmail email st) with
     | Ok (EmailPollingService.processed id _ _) =>
         calls (snd (EmailPollingService.processReceivedEmail email st)) = calls st /\
         exists d,
           proposalById id (snd (EmailPollingService.processReceivedEmail email st)) = Some d /\
           p_status d = received /\ requires_review d = true /\
           parsed_data d = Some noParsedData
     | _ => snd (EmailPollingService.processReceivedEmail email st) = st
     end.
Proof.
  intros Hfresh. split; [apply parseProposal_of_body |].
  rewrite processReceivedEmail_run. cbv zeta.
  destruct (uncorrelated _); [split; [auto | reflexivity] |].
  destruct (rfpId _) as [rid |]; [| split; [auto | reflexivity]].
  destruct (vendorId _) as [vid |]; [| split; [auto | reflexivity]].
  destruct (castOf rid) as [r |]; [| split; [auto | reflexivity]].
  destruct (find (samePair r vid) (proposals st)) as [ex |]; [split; [auto | reflexivity] |].
  cbn [fst snd]. split.
  - intros Hall. rewrite (proj1 (proj2 (advanceIfSent_fields _ _))).
    rewrite afterParse_of_body. cbn [set_proposals stored proposals].
    apply Forall_updateFirst; [intros x Hx; exact Hx |].
    apply Forall_app. split; [exact Hall |]. repeat constructor. discriminate.
  - split.
    + unfold advanceIfSent. rewrite afterParse_of_body.
      cbn [set_proposals stored rfps].
      destruct (find _ (rfps st)) as [x |]; [| reflexivity].
      destruct (rfp_status x); reflexivity.
    + rewrite (@proposalById_of_proposals _ _ _ (proj1 (proj2 (advanceIfSent_fields _ _)))).
      change (p_id (newDoc st r vid (rawOf email) (receivedAt email st)))
        with (next_oid st).
      rewrite proposalById_afterParse by (assumption || reflexivity).
      unfold outcomeUpdate. rewrite parseProposal_of_body.
      eexists. split; [reflexivity |]. repeat split.
Qed.

Lemma find_updateFirst_status (l : list RFP) i j s :
  find (fun y => N.eqb (rfp_id y) i)
       (updateFirst (fun y => N.eqb (rfp_id y) j) (with_status s) l)
  = if N.eqb i j
    then option_map (with_status s) (find (fun y => N.eqb (rfp_id y) i) l)
    else find (fun y => N.eqb (rfp_id y) i) l.
Proof.
  induction l as [| x l IH]; simpl; [now destruct (N.eqb i j) |].
  destruct (N.eqb_spec (rfp_id x) j) as [Hj | Hj]; simpl.
  - destruct (N.eqb_spec i j) as [Hi | Hi].
    + subst. now rewrite N.eqb_refl.
    + destruct (N.eqb_spec (rfp_id x) i); [congruence | reflexivity].
  - destruct (N.eqb_spec (rfp_id x) i) as [Hi | Hi].
    + destruct (N.eqb_spec i j); [congruence | reflexivity].
    + exact IH.
Qed.

(** The poller moves the status of a request only from sent to
    receiving_proposals. *)
Lemma poller_status_step email st id x :
  rfpById id st = Some x ->
  exists x', rfpById id (snd (EmailPollingService.processReceivedEmail email st)) = Some x' /\
             (rfp_status x' = rfp_status x \/
              (rfp_status x = sent /\ rfp_status x' = receiving_proposals)).
Proof.
  intros Hx. rewrite processReceivedEmail_run. cbv zeta.
  destruct (uncorrelated _); [eauto |].
  destruct (rfpId _) as [rid |]; [| eauto].
  destruct (vendorId _) as [vid |]; [| eauto].
  destruct (castOf rid) as [r |]; [| eauto].
  destruct (find (samePair r vid) (proposals st)) as [ex |]; [eauto |].
  cbn [snd]. unfold advanceIfSent. rewrite (proj1 (afterParse_fields _ _ _)).
  cbn [stored rfps].
  destruct (find (fun y => N.eqb (rfp_id y) r) (rfps st)) as [y |] eqn:Hy.
  - destruct (rfp_status y) eqn:Hs;
      try (unfold rfpById; rewrite (proj1 (afterParse_fields _ _ _)); cbn [stored rfps]; eauto).
    unfold rfpById, set_rfps. cbn [rfps]. rewrite (proj1 (afterParse_fields _ _ _)).
    cbn [stored rfps]. rewrite find_updateFirst_status.
    pose proof (find_some _ _ Hy) as [_ Hid]. apply N.eqb_eq in Hid.
    destruct (N.eqb_spec id (rfp_id y)) as [He | He].
    + unfold rfpById in Hx. rewrite Hx. simpl. eexists. split; [reflexivity |].
      right. split; [| reflexivity].
      assert (x = y) by (rewrite He, Hid in Hx; congruence). now subst.
    + eauto.
  - unfold rfpById. rewrite (proj1 (afterParse_fields _ _ _)). cbn [stored rfps]. eauto.
Qed.

(** So the poller never moves a status backward. *)
Lemma poller_status_forward email st id x :
  rfpById id st = Some x ->
  exists x', rfpById id (snd (EmailPollingService.processReceivedEmail email st)) = Some x' /\
             (rank (rfp_status x) <= rank (rfp_status x'))%nat.
Proof.
  intros Hx. destruct (poller_status_step email _ _ Hx) as (x' & Hx' & [Heq | [Hs Hs']]).
  - exists x'. split; [exact Hx' |]. rewrite Heq. lia.
  - exists x'. split; [exact Hx' |]. rewrite Hs, Hs'. simpl. lia.
Qed.

End LifecycleProofs.

(** C2, where the code departs from it. The webhook sets the status of the
    tagged request to receiving_proposals whatever it was: a draft that was
    never sent and a closed request both end up in receiving_proposals.
    The poller, on the same input, leaves both as they were. *)
Lemma webhook_status_update_is_unconditional :
  let status_after (st : State) := option_map rfp_status (rfpById Fixtures.R1 st) in
  let webhook r := snd (@proposalController.receiveProposal (Fixtures.scripted [])
                          Fixtures.taggedEmail (Fixtures.dbOf r)) in
  let poller r := snd (@EmailPollingService.processReceivedEmail (Fixtures.scripted [])
                         Fixtures.taggedEmail (Fixtures.dbOf r)) in
  status_after (webhook Fixtures.draftR1) = Some receiving_proposals /\
  status_after (webhook (Fixtures.rfpR1 closed)) = Some receiving_proposals /\
  status_after (poller Fixtures.draftR1) = Some draft /\
  status_after (poller (Fixtures.rfpR1 closed)) = Some closed /\
  status_after (poller (Fixtures.rfpR1 sent)) = Some receiving_proposals.
Proof. vm_compute. repeat split. Qed.

(** C9, as stated, fails: two deliveries of one message whose database
    calls interleave both find no record and both insert one; the same two
    deliveries one after the other leave one record. *)
Lemma interleaved_deliveries_store_twice :
  let E := Fixtures.scripted [] in
  let interleaved :=
    Interleaving.run [false; true; false; true]
                     Fixtures.delivery Fixtures.delivery (Fixtures.db sent []) in
  let sequential :=
    Interleaving.run [false; false; true; true]
                     Fixtures.delivery Fixtures.delivery (Fixtures.db sent []) in
  fst interleaved = (Interleaving.Saved 1000%N, Interleaving.Saved 1001%N) /\
  countPair Fixtures.R1 Fixtures.V1 (snd interleaved) = 2%nat /\
  fst sequential = (Interleaving.Saved 1000%N, Interleaving.Duplicate 1000%N) /\
  countPair Fixtures.R1 Fixtures.V1 (snd sequential) = 1%nat.
Proof. vm_compute. repeat split. Qed.

(* ===================================================================== *)
(** * Comparison                                                          *)
(* ===================================================================== *)

Section ComparisonProofs.
Context {E : Env}.
Import Db AIService proposalController.

Lemma fixList_obj k fs : exists fs', fixList k (JObj fs) = JObj fs'.
Proof. simpl. destruct (isArray (assoc k fs)); eauto. Qed.

Lemma fixList_isArray k fs : isArray (prop (fixList k (JObj fs)) k) = true.
Proof.
  simpl. destruct (isArray (assoc k fs)) eqn:H; simpl; [exact H |].
  now rewrite assoc_set_same.
Qed.

Lemma fixList_other k k' fs :
  String.eqb k' k = false -> prop (fixList k (JObj fs)) k' = assoc k' fs.
Proof.
  intros Hne. simpl. destruct (isArray (assoc k fs)); simpl; [reflexivity |].
  now apply assoc_set_other.
Qed.

Lemma repairList_obj fs k : repairList (JObj fs) k = Ok (fixList k (JObj fs)).
Proof.
  unfold repairList. cbn [get_prop rbind fixList].
  destruct (isArray (assoc k fs)); reflexivity.
Qed.

Lemma repairEntry_lists fs : listsAreArrays (repairEntry (JObj fs)).
Proof.
  unfold repairEntry, listsAreArrays.
  destruct (fixList_obj "strengths" fs) as (fs1 & H1).
  pose proof (fixList_isArray "strengths" fs) as A1. rewrite H1 in *.
  destruct (fixList_obj "weaknesses" fs1) as (fs2 & H2).
  pose proof (fixList_isArray "weaknesses" fs1) as A2.
  pose proof (@fixList_other "weaknesses" "strengths" fs1 eq_refl) as B2.
  rewrite H2 in *.
  pose proof (fixList_isArray "red_flags" fs2) as A3.
  pose proof (@fixList_other "red_flags" "strengths" fs2 eq_refl) as B3.
  pose proof (@fixList_other "red_flags" "weaknesses" fs2 eq_refl) as C3.
  simpl in A1, A2, B2. rewrite B3, C3. simpl. rewrite A2, B2, A1. auto.
Qed.

(** One round of the [forEach]: an entry passes exactly when it names its
    vendor and has scores, and it comes out with its three lists repaired. *)
Lemma checkAnalysis_run a i :
  (entryOk a = true -> checkAnalysis a i = Ok (repairEntry a)) /\
  (forall a', checkAnalysis a i = Ok a' -> entryOk a = true).
Proof.
  unfold checkAnalysis, entryOk.
  destruct a as [| b | x | s | xs | fs]; cbn [get_prop rbind prop truthy andb negb orb];
    try (split; [discriminate | discriminate]).
  destruct (truthy (assoc "vendor_id" fs)); cbn [negb orb andb];
    [| split; [discriminate | discriminate]].
  destruct (truthy (assoc "vendor_name" fs)); cbn [negb orb andb];
    [| split; [discriminate | discriminate]].
  destruct (truthy (assoc "scores" fs)); cbn [negb orb andb];
    [| split; [discriminate | discriminate]].
  split; [| reflexivity]. intros _.
  unfold repairEntry. rewrite repairList_obj. cbn [rbind].
  destruct (fixList_obj "strengths" fs) as (fs1 & ->).
  rewrite repairList_obj. cbn [rbind].
  destruct (fixList_obj "weaknesses" fs1) as (fs2 & ->).
  apply repairList_obj.
Qed.

Lemma checkAnalyses_run es : forall i,
  (forallb entryOk es = true -> checkAnalyses es i = Ok (map repairEntry es)) /\
  (forall es', checkAnalyses es i = Ok es' -> forallb entryOk es = true).
Proof.
  induction es as [| a es IH]; intros i; simpl; [split; reflexivity |].
  destruct (checkAnalysis_run a i) as [Hok Hback].
  destruct (IH (S i)) as [IHok IHback].
  split.
  - intros H. apply andb_true_iff in H as [Ha Hes].
    rewrite (Hok Ha). cbn [rbind]. rewrite (IHok Hes). reflexivity.
  - intros es'. destruct (checkAnalysis a i) as [a' |] eqn:Hc; [| discriminate].
    cbn [rbind]. destruct (checkAnalyses es (S i)) as [r |] eqn:Hr; [| discriminate].
    intros _. rewrite (Hback _ eq_refl), (IHback _ eq_refl). reflexivity.
Qed.

Ltac rejected :=
  cbn [rbind truthy negb orb andb]; rewrite ?orb_true_r, ?andb_false_r;
  cbn [rbind andb]; split; [discriminate | intros ? ?; discriminate].

(** The validation of [compareProposals], run. *)
Lemma validateComparison_run j :
  (accepted j = true ->
   exists fs', validateComparison j = Ok (JObj fs') /\
     assoc "proposal_analysis" fs' = Some (JArr (map repairEntry (entriesOf j))) /\
     assoc "summary" fs' = prop j "summary") /\
  (forall out, validateComparison j = Ok out -> accepted j = true).
Proof.
  unfold validateComparison, accepted, entriesOf.
  destruct j as [| b | x | s | xs | fs]; cbn [get_prop rbind prop isArray];
    try rejected.
  destruct (assoc "proposal_analysis" fs) as [[| | | | es |] |] eqn:Hpa;
    cbn [isArray]; try rejected.
  destruct (assoc "recommendation" fs) as [r |] eqn:Hrec;
    cbn [propOf]; [| rejected].
  destruct r as [| b | x | s | xs | rfs]; cbn [prop get_prop];
    [ rejected
    | destruct b; rejected
    | cbn [truthy]; destruct (negb (PrimFloat.eqb x 0) && PrimFloat.eqb x x); rejected
    | cbn [truthy]; destruct (negb (String.eqb s "")); rejected
    | rejected
    | ].
  cbn [truthy negb orb andb rbind].
  destruct (truthy (assoc "vendor_id" rfs)); cbn [negb orb andb];
    [| rejected].
  destruct (truthy (assoc "summary" fs)) eqn:Hsum; cbn [negb orb andb];
    [| rejected].
  destruct (checkAnalyses_run es 0) as [Hok Hback].
  split.
  - intros Hall. rewrite (Hok Hall). cbn [rbind set_prop get_prop].
    destruct (invalidConfidence (assoc "confidence" rfs)); cbn [rbind set_prop].
    + eexists. split; [reflexivity |].
      split; repeat (rewrite assoc_set_other by reflexivity);
        rewrite ?assoc_set_same; reflexivity.
    + eexists. split; [reflexivity |].
      split; repeat (rewrite assoc_set_other by reflexivity);
        rewrite ?assoc_set_same; reflexivity.
  - intros out. destruct (checkAnalyses es 0) as [es' |] eqn:Hc; [| discriminate].
    intros _. exact (Hback _ eq_refl).
Qed.

Lemma validateComparison_lists j out :
  validateComparison j = Ok out ->
  prop out "proposal_analysis" = Some (JArr (map repairEntry (entriesOf j))) /\
  Forall listsAreArrays (map repairEntry (entriesOf j)).
Proof.
  intros Hv. destruct (validateComparison_run j) as [Hok Hback].
  pose proof (Hback _ Hv) as Hacc.
  destruct (Hok Hacc) as (fs' & Hrun & Hpa & _).
  rewrite Hrun in Hv. injection Hv as <-. split; [exact Hpa |].
  unfold accepted in Hacc. apply andb_true_iff in Hacc as [_ Hall].
  apply Forall_map. rewrite forallb_forall in Hall. apply Forall_forall.
  intros a Ha. specialize (Hall a Ha).
  destruct a as [| b | x | s | xs | fs]; try discriminate Hall.
  apply repairEntry_lists.
Qed.

(** What [compareProposals] returns is the validated document of the
    oracle's answer. *)
Lemma compareProposals_ok rfp ps st out :
  fst (compareProposals rfp ps st) = Ok out ->
  exists text j,
    fst (makeCompletionRequest (ComparePrompt rfp ps) st) = Ok text /\
    JSON_parse text = Some j /\ validateComparison j = Ok out.
Proof.
  unfold compareProposals.
  cbn [structured_data truthy negb].
  destruct (Nat.eqb (List.length ps) 0); [discriminate |].
  unfold bind, lift.
  destruct (makeCompletionRequest (ComparePrompt rfp ps) st) as [[text | e] st'];
    [| discriminate].
  unfold parseJSONResponse. destruct (JSON_parse text) as [j |] eqn:Hj; [| discriminate].
  cbn [rbind fst]. intros Hv. exists text, j. auto.
Qed.

(** [getComparison], run. *)
Lemma getComparison_run id st :
  getComparison id st =
  match castObjectId id with
  | None => (Throw (CastError "_id" id), st)
  | Some o =>
      match rfpById o st with
      | None => (Throw (NotFoundError "RFP"), st)
      | Some rfp =>
          let ps := populated o st in
          if Nat.eqb (List.length ps) 0
          then (Ok (mkComparison id (rfp_title rfp) 0 [] None None
                                 (Some (JStr noProposalsSummary)) None), st)
          else
            let run := compareProposals rfp ps st in
            (match views ps with
             | Throw e => Throw e
             | Ok vs =>
                 match fst run with
                 | Throw _ =>
                     Ok (mkComparison id (rfp_title rfp) (List.length ps) vs None None
                                      (Some (JStr unavailableSummary))
                                      (Some "AI service error"))
                 | Ok out =>
                     Ok (mkComparison id (rfp_title rfp) (List.length ps) vs
                                      (prop out "proposal_analysis")
                                      (prop out "recommendation")
                                      (prop out "summary") None)
                 end
             end, snd run)
      end
  end.
Proof.
  unfold getComparison, RFP_findById, Proposal_find_populated.
  unfold bind at 1. unfold bind at 1. rewrite castId_run. cbn [castOf].
  destruct (castObjectId id) as [o |] eqn:Hcast; [| reflexivity].
  unfold gets at 1. unfold rfpById.
  destruct (find (fun r => N.eqb (rfp_id r) o) (rfps st)) as [rfp |]; [| reflexivity].
  unfold bind at 1. unfold bind at 1. rewrite castId_run. cbn [castOf]. rewrite Hcast.
  unfold gets at 1. fold (populated o st). cbv zeta.
  destruct (Nat.eqb (List.length (populated o st)) 0); [reflexivity |].
  unfold bind at 1. unfold try_catch, bind at 1.
  destruct (compareProposals rfp (populated o st) st) as [[out | e] st'] eqn:Hrun;
    cbn [fst snd].
  - assert (Hout : fst (compareProposals rfp (populated o st) st) = Ok out)
      by now rewrite Hrun.
    destruct (compareProposals_ok _ _ _ Hout) as (text & j & _ & _ & Hv).
    destruct (validateComparison_run j) as [Hok Hback].
    destruct (Hok (Hback _ Hv)) as (fs' & Hrun' & _).
    rewrite Hrun' in Hv. injection Hv as <-.
    unfold ret, bind, lift. destruct (views (populated o st)); reflexivity.
  - unfold ret, bind, lift. destruct (views (populated o st)); reflexivity.
Qed.

(** C8, as the code has it. The comparison validation accepts a document
    exactly when its analysis list is an array, its recommendation names a
    vendor, its summary is truthy, and every analysis entry names its
    vendor and has scores. In an accepted document, a [strengths],
    [weaknesses] or [red_flags] that is no array is replaced by the empty
    list; these never enter the acceptance test. When no record exists for
    the request, the endpoint returns the no-proposals body. When records
    exist and the comparison throws, for a rejected document as for any
    other failure, and every record's vendor is still there, the endpoint
    returns all records with [analysis] and [recommendation] null; the
    analysis of an accepted document is returned whole. *)
Theorem comparison_validation_and_fallback :
  (forall j, (exists out, validateComparison j = Ok out) <-> accepted j = true)
  /\ (forall j out, validateComparison j = Ok out ->
        prop out "proposal_analysis" = Some (JArr (map repairEntry (entriesOf j))) /\
        Forall listsAreArrays (map repairEntry (entriesOf j)))
  /\ (forall rfp ps st out,
        fst (compareProposals rfp ps st) = Ok out ->
        exists text j,
          fst (makeCompletionRequest (ComparePrompt rfp ps) st) = Ok text /\
          JSON_parse text = Some j /\ validateComparison j = Ok out)
  /\ (forall id st o rfp,
        castObjectId id = Some o -> rfpById o st = Some rfp ->
        (populated o st = [] ->
         getComparison id st =
         (Ok (mkComparison id (rfp_title rfp) 0 [] None None
                           (Some (JStr noProposalsSummary)) None), st)) /\
        (forall vs, populated o st <> [] -> views (populated o st) = Ok vs ->
         match fst (compareProposals rfp (populated o st) st) with
         | Throw _ =>
             fst (getComparison id st) =
             Ok (mkComparison id (rfp_title rfp) (List.length (populated o st)) vs
                              None None (Some (JStr unavailableSummary))
                              (Some "AI service error"))
         | Ok out =>
             fst (getComparison id st) =
             Ok (mkComparison id (rfp_title rfp) (List.length (populated o st)) vs
                              (prop out "proposal_analysis") (prop out "recommendation")
                              (prop out "summary") None)
         end)).
Proof.
  split; [| split; [| split]].
  - intros j. destruct (validateComparison_run j) as [Hok Hback]. split.
    + intros (out & Hv). eapply Hback; eassumption.
    + intros Hacc. destruct (Hok Hacc) as (fs' & Hrun & _). eauto.
  - apply validateComparison_lists.
  - apply compareProposals_ok.
  - intros id st o rfp Hcast Hrfp. split.
    + intros Hnone. rewrite getComparison_run, Hcast, Hrfp. cbv zeta.
      now rewrite Hnone.
    + intros vs Hsome Hviews. rewrite getComparison_run, Hcast, Hrfp. cbv zeta.
      destruct (populated o st) as [| p ps] eqn:Hps; [contradiction |].
      cbn [List.length Nat.eqb fst]. rewrite Hviews.
      destruct (fst (compareProposals rfp (p :: ps) st)); reflexivity.
Qed.

End ComparisonProofs.

(** C8, as stated, fails: a document that has its analysis list, its
    recommendation's vendor id and its summary is rejected all the same when
    an entry has no scores. An entry without the three lists is accepted
    and gets them as empty lists. *)
Lemma entry_without_scores_is_rejected :
  let E := Fixtures.scripted [] in
  let unscored := Fixtures.comparisonJson [Fixtures.unscoredEntry] in
  let bare := Fixtures.comparisonJson [Fixtures.bareEntry] in
  isArray (prop unscored "proposal_analysis") = true /\
  truthy (propOf (prop unscored "recommendation") "vendor_id") = true /\
  truthy (prop unscored "summary") = true /\
  AIService.validateComparison unscored
    = Throw (Error "Proposal analysis at index 0 is missing required fields") /\
  match AIService.validateComparison bare with
  | Ok out =>
      prop out "proposal_analysis"
      = Some (JArr [JObj [("vendor_id", JStr "v1"); ("vendor_name", JStr "Vendor One");
                          ("scores", Fixtures.scores); ("strengths", JArr []);
                          ("weaknesses", JArr []); ("red_flags", JArr [])]])
  | Throw _ => False
  end.
Proof. vm_compute. repeat split. Qed.

(* ===================================================================== *)
(** * The theorems at concrete inputs                                     *)
(* ===================================================================== *)

(** A reply to R1 with the tag, from V1, delivered twice to a database
    that has R1 in status sent and no record yet. *)
Lemma duplicate_delivery_witness :
  let E := Fixtures.scripted [] in
  let st := Fixtures.db sent [] in
  let email := Fixtures.taggedEmail in
  Inbound.uncorrelated (correlationOf email st) = false /\
  EmailService.rfpId (correlationOf email st)
    = Some (IdStr "0000000000000000000000a1") /\
  EmailService.vendorId (correlationOf email st) = Some Fixtures.V1 /\
  castOf (IdStr "0000000000000000000000a1") = Some Fixtures.R1 /\
  let st1 := snd (EmailPollingService.processReceivedEmail email st) in
  countPair Fixtures.R1 Fixtures.V1 st1 = 1%nat /\
  exists existing,
    find (Db.samePair Fixtures.R1 Fixtures.V1) (proposals st1) = Some existing /\
    EmailPollingService.processReceivedEmail email st1
      = (Ok (EmailPollingService.duplicate_proposal (p_id existing)), st1).
Proof.
  cbv zeta.
  split; [reflexivity |]. split; [reflexivity |].
  split; [reflexivity |]. split; [reflexivity |].
  apply (proj1 (proj2
    (@duplicate_delivery (Fixtures.scripted []) Fixtures.taggedEmail
       (Fixtures.db sent []) (IdStr "0000000000000000000000a1")
       Fixtures.V1 Fixtures.R1 eq_refl eq_refl eq_refl eq_refl))).
  reflexivity.
Defined.

(** The same delivery, one run of each entry point. *)
Lemma one_record_per_pair_sequential_witness :
  let E := Fixtures.scripted [] in
  let st := Fixtures.db sent [] in
  atMostOnePerPair st /\
  atMostOnePerPair (snd (EmailPollingService.processReceivedEmail Fixtures.taggedEmail st)) /\
  atMostOnePerPair (snd (proposalController.receiveProposal Fixtures.taggedEmail st)).
Proof.
  cbv zeta.
  assert (H : atMostOnePerPair (Fixtures.db sent [])).
  { intros r v. unfold countPair. simpl. lia. }
  split; [exact H |].
  exact (@one_record_per_pair_sequential (Fixtures.scripted [])
           Fixtures.taggedEmail (Fixtures.db sent []) H).
Defined.

(** The oracle refuses the connection: the webhook still answers, and the
    record stays in received, flagged for review. *)
Lemma parse_failure_is_contained_witness :
  let E := Fixtures.scripted [] in
  let st := Fixtures.db sent [] in
  let email := Fixtures.taggedEmail in
  freshIds st /\
  find (Db.samePair Fixtures.R1 Fixtures.V1) (proposals st) = None /\
  fst (AIService.parseProposal (AIService.ArgEmail email)
         (stored st (newDoc st Fixtures.R1 Fixtures.V1 (Inbound.rawOf email) (now st))))
    = Throw (Error "AI service error: connect ECONNREFUSED") /\
  exists d v,
    fst (proposalController.receiveProposal email st)
      = Ok (proposalController.mkCreated d v) /\
    proposalById (next_oid st) (snd (proposalController.receiveProposal email st)) = Some d /\
    p_status d = received /\ requires_review d = true /\
    raw_email_content d = Inbound.rawOf email.
Proof.
  cbv zeta.
  split; [constructor |]. split; [reflexivity |]. split; [reflexivity |].
  apply (proj2
    (@parse_failure_is_contained (Fixtures.scripted []) Fixtures.taggedEmail
       (Fixtures.db sent []) (IdStr "0000000000000000000000a1")
       Fixtures.V1 Fixtures.R1 (Forall_nil _) eq_refl eq_refl eq_refl eq_refl eq_refl)
    (Error "AI service error: connect ECONNREFUSED")).
  - reflexivity.
  - reflexivity.
Defined.


(** The poller on the same delivery: the record stays in received. *)
Lemma poller_never_parses_witness :
  let E := Fixtures.scripted [Content "proposal at 0.7"] in
  let st := Fixtures.db sent [] in
  let email := Fixtures.taggedEmail in
  freshIds st /\
  fst (EmailPollingService.processReceivedEmail email st)
    = Ok (EmailPollingService.processed 1000%N (IdStr "0000000000000000000000a1")
                                        Fixtures.V1) /\
  calls (snd (EmailPollingService.processReceivedEmail email st)) = calls st /\
  exists d,
    proposalById 1000%N (snd (EmailPollingService.processReceivedEmail email st)) = Some d /\
    p_status d = received /\ requires_review d = true /\
    parsed_data d = Some noParsedData.
Proof.
  cbv zeta.
  split; [constructor |]. split; [reflexivity |].
  exact (proj2 (proj2
    (@poller_never_parses (Fixtures.scripted [Content "proposal at 0.7"])
       Fixtures.taggedEmail (Fixtures.db sent []) (Forall_nil _)))).
Defined.

(** The oracle answers with a proposal whose delivery timeline is an
    object, which the store rejects: the webhook throws, and the record it
    had inserted stays in status received and is not flagged. *)
Lemma store_rejection_leaves_unflagged_record_witness :
  let E := Fixtures.scripted [Content "proposal, timeline an object"] in
  let st := Fixtures.db sent [] in
  let email := Fixtures.taggedEmail in
  fst (AIService.parseProposal (AIService.ArgEmail email)
         (stored st (newDoc st Fixtures.R1 Fixtures.V1 (Inbound.rawOf email) (now st))))
    = Ok (JObj [("line_items", JArr [Fixtures.lineItem]);
                ("total_price", JNum 200%float);
                ("confidence", JNum 0.5%float);
                ("delivery_timeline", JObj [("weeks", JNum 2%float)]);
                ("special_conditions", JArr []);
                ("requires_review", JBool true)]) /\
  fst (proposalController.receiveProposal email st)
    = Throw (Error "Proposal validation failed") /\
  rfps (snd (proposalController.receiveProposal email st)) = [Fixtures.rfpR1 sent] /\
  exists d,
    proposals (snd (proposalController.receiveProposal email st)) = [d] /\
    p_status d = received /\ requires_review d = false.
Proof.
  cbv zeta.
  split; [reflexivity |].
  destruct
    (@store_rejection_leaves_unflagged_record
       (Fixtures.scripted [Content "proposal, timeline an object"])
       Fixtures.taggedEmail (Fixtures.db sent []) (IdStr "0000000000000000000000a1")
       Fixtures.V1 Fixtures.R1
       (JObj [("line_items", JArr [Fixtures.lineItem]);
              ("total_price", JNum 200%float);
              ("confidence", JNum 0.5%float);
              ("delivery_timeline", JObj [("weeks", JNum 2%float)]);
              ("special_conditions", JArr []);
              ("requires_review", JBool true)])
       (Error "Proposal validation failed")
       eq_refl eq_refl eq_refl eq_refl eq_refl eq_refl eq_refl eq_refl)
    as (Hthrow & Hrfps & _ & d & Hd & _ & _ & _ & _ & Hs & Hflag & _).
  split; [exact Hthrow |]. split; [exact Hrfps |].
  exists d. split; [exact Hd |]. split; [exact Hs | exact Hflag].
Defined.

(** A reply tagged with R1 from a vendor whose latest outstanding dispatch
    is R2: the correlation names R1 whatever the fallback callback is, and
    the callback of the entry points, asked about that vendor, leaves the
    state alone. *)
Lemma correlation_precedence_witness :
  let email := Fixtures.taggedEmail in
  let st := Fixtures.twoRequests in
  let h := "0000000000000000000000a1" in
  subject email = Some ("Re: Office chairs " ++ "[RFP-" ++ h ++ String "]" "") /\
  bracketFree "Re: Office chairs " = true /\
  (forall cb1 cb2 fv,
     EmailService.correlateEmailToRFP email cb1 fv st
       = EmailService.correlateEmailToRFP email cb2 fv st /\
     exists c st',
       EmailService.correlateEmailToRFP email cb1 fv st = (Ok c, st') /\
       EmailService.rfpId c = Some (IdStr h)) /\
  snd (Inbound.findRFPCallback Fixtures.V1 st) = st.
Proof.
  cbv zeta.
  assert (Hne : "0000000000000000000000a1" <> EmptyString) by discriminate.
  destruct (@correlation_precedence Fixtures.taggedEmail
              Fixtures.twoRequests "Re: Office chairs " "[RFP-"
              "0000000000000000000000a1" "" eq_refl eq_refl eq_refl Hne eq_refl)
    as (Htag & _ & Hcb).
  split; [reflexivity |]. split; [reflexivity |]. split; [exact Htag |].
  exact (proj1 (Hcb Fixtures.V1)).
Defined.

(** The tag names R1 while the sender's latest outstanding dispatch is R2:
    the tag wins. Without the tag the dispatch history decides. *)
Example tag_beats_dispatch_history :
  let E := Fixtures.scripted [] in
  correlationOf Fixtures.taggedEmail Fixtures.twoRequests
    = EmailService.result (Some (IdStr "0000000000000000000000a1"))
                          (Some Fixtures.V1) (Some "V1@X.com") /\
  correlationOf Fixtures.untaggedEmail Fixtures.twoRequests
    = EmailService.result (Some (IdObj Fixtures.R2))
                          (Some Fixtures.V1) (Some "V1@X.com").
Proof. split; reflexivity. Qed.

(** Two 429s and then an answer: three calls, waits of 1000 and 2000 ms,
    and a clock that moved by the waits and by the 2 ms each call took.
    A 401: one call, no wait. *)
Example rate_limited_twice_then_answer :
  let busy := Fail (Fixtures.upstream 429 "Too Many Requests") in
  let denied := Fail (Fixtures.upstream 401 "Unauthorized") in
  let st := Fixtures.db sent [] in
  @AIService.makeCompletionRequest
     (Fixtures.scripted [busy; busy; Content "proposal at 0.7"]) Fixtures.emptyPrompt st
    = (Ok "proposal at 0.7",
       mkState (rfps st) (vendors st) (proposals st) (next_oid st)
               8006%Z 3 [1000; 2000]%Z) /\
  @AIService.makeCompletionRequest (Fixtures.scripted [denied]) Fixtures.emptyPrompt st
    = (Throw (Error AIService.msg_invalid_key),
       mkState (rfps st) (vendors st) (proposals st) (next_oid st) 5002%Z 1 []).
Proof. split; reflexivity. Qed.

(* ===================================================================== *)
(** * The validation of the oracle's documents                            *)
(* ===================================================================== *)

Section ValidationProofs.
Context {E : Env}.
Import AIService RFPStructuring Text.

Lemma get_prop_prop j k :
  get_prop j k = match j with
                 | JNull => Throw (Error ("Cannot read properties of null (reading " ++ k ++ ")"))
                 | _ => Ok (prop j k)
                 end.
Proof. destruct j; reflexivity. Qed.

Lemma checkLineItems_run items : forall i,
  match checkLineItems items i with
  | Ok _ => forallb lineItemOk items = true
  | Throw _ => forallb lineItemOk items = false
  end.
Proof.
  induction items as [| item rest IH]; intros i; [reflexivity |].
  cbn [checkLineItems forallb].
  assert (Hi : lineItemOk item =
               truthy (prop item "item_name") && isNumber (prop item "unit_price")
               && isNumber (prop item "quantity") && isNumber (prop item "total_price"))
    by reflexivity.
  rewrite Hi, !get_prop_prop. clear Hi.
  destruct item as [| b | x | s | xs | fs]; cbn [rbind prop truthy isNumber andb negb orb];
    try reflexivity.
  destruct (truthy (assoc "item_name" fs)); cbn [negb orb andb]; [| reflexivity].
  destruct (isNumber (assoc "unit_price" fs)); cbn [negb orb andb]; [| reflexivity].
  destruct (isNumber (assoc "quantity" fs)); cbn [negb orb andb]; [| reflexivity].
  destruct (isNumber (assoc "total_price" fs)); cbn [negb orb andb]; [| reflexivity].
  apply IH.
Qed.

(** X1. The validation of a parsed proposal, in closed form: a document
    passes exactly when [line_items] is a non-empty array whose every
    element names its item and has a numeric unit price, quantity and
    total, [total_price] is a number and [confidence] is a number that is
    neither below 0 nor above 1. What passes is returned with
    [special_conditions] replaced by the empty list unless it is an array,
    and with [requires_review] set to whether the confidence is below
    0.7; nothing else is changed, and no arithmetic between the prices is
    checked. *)
Theorem proposal_validation_closed_form (j : json) :
  match validateProposal j with
  | Ok out => acceptedProposal j = true /\ out = flagged j
  | Throw _ => acceptedProposal j = false
  end.
Proof.
  unfold validateProposal, acceptedProposal, flagged, itemsAt.
  rewrite !get_prop_prop.
  destruct j as [| b | x | s | xs | fs]; cbn [rbind prop truthy isArray negb orb andb];
    try reflexivity.
  destruct (assoc "line_items" fs) as [[| b | x | s | items | fs'] |] eqn:Hl;
    cbn [truthy isArray negb orb andb rbind List.length Nat.eqb]; try reflexivity.
  - destruct b; reflexivity.
  - destruct (negb _ && _); reflexivity.
  - destruct (negb (s =? "")%string); reflexivity.
  - destruct items as [| item rest]; [reflexivity |].
    cbn [List.length Nat.eqb negb orb andb].
    destruct (isNumber (assoc "total_price" fs)); cbn [negb andb]; [| reflexivity].
    unfold invalidConfidence, confidenceInRange.
    destruct (assoc "confidence" fs) as [[| b | c | s | ys | fs'] |] eqn:Hc;
      cbn [isNumber negb orb andb num toNumber]; try reflexivity.
    destruct (PrimFloat.ltb c 0); cbn [negb orb andb]; [reflexivity |].
    destruct (PrimFloat.ltb 1 c); cbn [negb orb andb]; [reflexivity |].
    pose proof (checkLineItems_run (item :: rest) 0) as Hitems.
    destruct (checkLineItems (item :: rest) 0); [| exact Hitems].
    cbn [rbind]. unfold fixList.
    destruct (isArray (assoc "special_conditions" fs)); cbn [negb set_prop rbind];
      (split; [exact Hitems | reflexivity]).
Qed.

Lemma checkItems_run items : forall i,
  match checkItems items i with
  | Ok _ => forallb itemOk items = true
  | Throw _ => forallb itemOk items = false
  end.
Proof.
  induction items as [| item rest IH]; intros i; [reflexivity |].
  cbn [checkItems forallb].
  assert (Hi : itemOk item =
               truthy (prop item "name") && truthy (prop item "description")
               && isNumber (prop item "quantity")) by reflexivity.
  rewrite Hi, !get_prop_prop. clear Hi.
  destruct item as [| b | x | s | xs | fs]; cbn [rbind prop truthy isNumber andb negb orb];
    try reflexivity.
  destruct (truthy (assoc "name" fs)); cbn [negb orb andb]; [| reflexivity].
  destruct (truthy (assoc "description" fs)); cbn [negb orb andb]; [| reflexivity].
  destruct (isNumber (assoc "quantity" fs)); cbn [negb orb andb]; [| reflexivity].
  apply IH.
Qed.

Lemma validateStructure_run j :
  match validateStructure j with
  | Ok out => acceptedStructure j = true /\ out = fixList "special_conditions" j
  | Throw _ => acceptedStructure j = false
  end.
Proof.
  unfold validateStructure, acceptedStructure, itemsAt.
  rewrite !get_prop_prop.
  destruct j as [| b | x | s | xs | fs]; cbn [rbind prop truthy isArray negb orb andb];
    try reflexivity.
  destruct (truthy (assoc "title" fs)); cbn [negb orb andb]; [| reflexivity].
  destruct (assoc "items" fs) as [[| b | x | s | items | fs'] |] eqn:Hl;
    cbn [truthy isArray negb orb andb rbind List.length Nat.eqb forallb]; try reflexivity.
  - destruct b; reflexivity.
  - destruct (negb _ && _); reflexivity.
  - destruct (negb (s =? "")%string); reflexivity.
  - destruct items as [| item rest]; [reflexivity |].
    cbn [List.length Nat.eqb negb orb andb].
    pose proof (checkItems_run (item :: rest) 0) as Hitems.
    destruct (checkItems (item :: rest) 0); [| exact Hitems].
    cbn [rbind]. unfold fixList.
    destruct (isArray (assoc "special_conditions" fs)); cbn [negb set_prop];
      (split; [exact Hitems | reflexivity]).
Qed.

Lemma trimStart_blank s :
  trimStart s = EmptyString <-> allChars isWhiteSpace s = true.
Proof.
  induction s as [| c s IH]; cbn [trimStart allChars]; [tauto |].
  destruct (isWhiteSpace c); cbn [andb]; [exact IH |].
  split; discriminate.
Qed.

Lemma trimStart_head s :
  match trimStart s with
  | EmptyString => True
  | String c _ => isWhiteSpace c = false
  end.
Proof.
  induction s as [| c s IH]; cbn [trimStart]; [exact I |].
  destruct (isWhiteSpace c) eqn:Hc; [exact IH | exact Hc].
Qed.

Lemma trimEnd_blank s :
  trimEnd s = EmptyString <-> allChars isWhiteSpace s = true.
Proof.
  induction s as [| c s IH]; cbn [trimEnd allChars]; [tauto |].
  destruct (trimEnd s) as [| c' t].
  - destruct (isWhiteSpace c); cbn [andb].
    + split; [intros _; now apply IH | reflexivity].
    + split; discriminate.
  - split; [discriminate |].
    intros H. apply andb_true_iff in H as [_ H]. apply IH in H. discriminate.
Qed.

(** [s.trim().length === 0] says that [s] is white space throughout. *)
Lemma trim_blank s :
  Nat.eqb (String.length (trim s)) 0 = allChars isWhiteSpace s.
Proof.
  unfold trim.
  destruct (allChars isWhiteSpace s) eqn:Hb.
  - apply trimStart_blank in Hb. rewrite Hb. reflexivity.
  - destruct (trimEnd (trimStart s)) as [| c t] eqn:Ht; [| reflexivity].
    exfalso. apply trimEnd_blank in Ht.
    pose proof (trimStart_head s) as Hh.
    destruct (trimStart s) as [| c t] eqn:Hs.
    + apply trimStart_blank in Hs. congruence.
    + cbn [allChars] in Ht. rewrite Hh in Ht. discriminate.
Qed.

Lemma createWith_create {Str : Structurer} d p :
  createWith (fun k => completeStructure k d) = @create (structuringEnv d) p.
Proof. reflexivity. Qed.

(** X2. [structureRFP]. A document passes its validation exactly when
    [title] is truthy and [items] is a non-empty array whose every element
    has a truthy name, a truthy description and a numeric quantity (zero
    and negative quantities pass); what passes is returned unchanged but
    for [special_conditions], which becomes the empty list unless it is an
    array. A description that is absent, empty or white space throughout
    is refused before any completion call. Otherwise the request makes
    [k + 1] calls for some [k <= 3] and leaves the database alone, and the
    result is decided by the last call alone: its failure mapped by
    [handleError], or its text parsed and validated, with no further call
    when the text is no JSON or fails the validation. *)
Theorem structure_request_checks {Str : Structurer}
    (description : option string) (st : State) :
  (forall j,
     match validateStructure j with
     | Ok out => acceptedStructure j = true /\ out = fixList "special_conditions" j
     | Throw _ => acceptedStructure j = false
     end)
  /\ (match description with
      | Some d => allChars isWhiteSpace d = true
      | None => True
      end ->
      structureRFP description st = (Throw (Error "RFP description cannot be empty"), st))
  /\ (forall d, description = Some d -> allChars isWhiteSpace d = false ->
      exists k, (k <= 3)%nat /\
        calls (snd (structureRFP description st)) = (calls st + k + 1)%nat /\
        sameDb st (snd (structureRFP description st)) /\
        match completeStructure (calls st + k) d with
        | Content text =>
            fst (structureRFP description st) =
            match JSON_parse text with
            | Some j => validateStructure j
            | None => Throw (Error
                        "Failed to parse AI response. The response was not valid JSON.")
            end
        | Fail e => fst (structureRFP description st) = Throw (handleError e)
        end).
Proof.
  split; [exact validateStructure_run |]. split.
  - destruct description as [d |]; [| reflexivity].
    intros Hb. unfold structureRFP. rewrite trim_blank, Hb.
    now rewrite orb_true_r.
  - intros d -> Hb. unfold structureRFP. rewrite trim_blank, Hb.
    assert (Hne : truthy_str (Some d) = true) by (destruct d; [discriminate | reflexivity]).
    rewrite Hne. cbn [negb orb].
    rewrite (createWith_create d Fixtures.emptyPrompt).
    destruct (@retryWithBackoff_spec (structuringEnv d) Fixtures.emptyPrompt maxRetries st)
      as (k & Hk & Hcalls & _ & Hdb & _ & Hlast).
    change (@complete (structuringEnv d) (calls st + k) Fixtures.emptyPrompt)
      with (completeStructure (calls st + k) d) in Hlast.
    exists k. split; [exact Hk |].
    unfold bind, lift.
    destruct (retryWithBackoff _ maxRetries st) as [[text | e] st1] eqn:Hrun;
      cbn [fst snd] in *.
    + split; [exact Hcalls |]. split; [exact Hdb |].
      destruct (completeStructure (calls st + k) d) as [e | text'].
      * destruct Hlast as [Hl _]. discriminate Hl.
      * injection Hlast as <-. unfold parseJSONResponse.
        destruct (JSON_parse text); reflexivity.
    + split; [exact Hcalls |]. split; [exact Hdb |].
      destruct (completeStructure (calls st + k) d) as [e' | text'].
      * destruct Hlast as [Hl _]. injection Hl as ->. reflexivity.
      * discriminate Hlast.
Qed.

End ValidationProofs.

(* ===================================================================== *)
(** * The cost of an operation of the adapter                             *)
(* ===================================================================== *)

Section BudgetProofs.
Context {E : Env}.
Import AIService.

Lemma waited_app st st' ds :
  slept st' = (slept st ++ ds)%list -> waited st st' = totalWait ds.
Proof.
  intros H. unfold waited. rewrite H, skipn_app, skipn_all, Nat.sub_diag. reflexivity.
Qed.

Lemma waited_refl st : waited st st = 0%Z.
Proof. apply (@waited_app st st []). now rewrite app_nil_r. Qed.

Lemma request_budget p st :
  (calls st < calls (snd (makeCompletionRequest p st)) <= calls st + 4)%nat /\
  sameDb st (snd (makeCompletionRequest p st)) /\
  In (waited st (snd (makeCompletionRequest p st))) [0; 1000; 3000; 7000]%Z.
Proof.
  unfold makeCompletionRequest.
  destruct (retryWithBackoff_spec p maxRetries st)
    as (k & Hk & Hcalls & Hslept & Hdb & _ & _).
  rewrite (@waited_app _ _ _ Hslept).
  split; [rewrite Hcalls; unfold maxRetries in Hk; lia |].
  split; [exact Hdb |].
  unfold maxRetries in Hk.
  destruct k as [| [| [| [| k]]]]; try lia; cbn; auto.
Qed.

Lemma first_answer p st text :
  complete (calls st) p = Content text ->
  makeCompletionRequest p st = (Ok text, called st).
Proof.
  intros Hc. unfold makeCompletionRequest. cbn [maxRetries retryWithBackoff].
  unfold try_catch at 1. rewrite create_run, Hc. reflexivity.
Qed.

Lemma budget_refl st :
  (calls st <= calls st + 4)%nat /\ sameDb st st /\
  In (waited st st) [0; 1000; 3000; 7000]%Z.
Proof.
  rewrite waited_refl. split; [lia |]. split; [apply sameDb_refl | now left].
Qed.

(** X3. The cost of a parse or a comparison. Either operation makes at
    most four completion calls and leaves the database alone, and the
    waits it asks for add up to 0, 1, 3 or 7 seconds. When the first call
    answers, its text alone decides the outcome: it is parsed and
    validated, and neither a text that is no JSON nor a document that
    fails the validation leads to another call. When the guard of the
    operation fails, nothing is called at all: for the parse that is an
    argument which is no object with a body, for the comparison an empty
    list of proposals. The other guard of the comparison, on the
    structured data of the request, never fires for a request read from
    the store: with a proposal at hand the oracle is always called. *)
Theorem one_request_per_operation
    (arg : ParseArg) (rfp : RFP) (ps : list Populated) (st : State) :
  let within (st' : State) :=
    (calls st' <= calls st + 4)%nat /\ sameDb st st' /\
    In (waited st st') [0; 1000; 3000; 7000]%Z in
  within (snd (parseProposal arg st))
  /\ within (snd (compareProposals rfp ps st))
  /\ (forall text,
        arg_truthy arg = true -> truthy_str (arg_body arg) = true ->
        complete (calls st) (promptOf arg) = Content text ->
        parseProposal arg st = (parsedFrom text, called st))
  /\ (forall text,
        ps <> [] ->
        complete (calls st) (ComparePrompt rfp ps) = Content text ->
        compareProposals rfp ps st = (comparedFrom text, called st))
  /\ (arg_truthy arg && truthy_str (arg_body arg) = false ->
        snd (parseProposal arg st) = st)
  /\ (ps = [] -> snd (compareProposals rfp ps st) = st)
  /\ (ps <> [] -> (calls st < calls (snd (compareProposals rfp ps st)))%nat).
Proof.
  cbv zeta. split; [| split; [| split; [| split; [| split; [| split]]]]].
  - unfold parseProposal.
    destruct (negb (arg_truthy arg) || _); [apply budget_refl |].
    unfold bind, lift.
    pose proof (request_budget (promptOf arg) st) as (Hc & Hrest). fold (promptOf arg).
    destruct (makeCompletionRequest (promptOf arg) st) as [[t | e] st'];
      (split; [cbn [snd] in *; lia | exact Hrest]).
  - unfold compareProposals. cbn [structured_data truthy negb].
    destruct (Nat.eqb (List.length ps) 0); [apply budget_refl |].
    unfold bind, lift.
    pose proof (request_budget (ComparePrompt rfp ps) st) as (Hc & Hrest).
    destruct (makeCompletionRequest (ComparePrompt rfp ps) st) as [[t | e] st'];
      (split; [cbn [snd] in *; lia | exact Hrest]).
  - intros text Ha Hb Hc. unfold parseProposal. rewrite Ha, Hb. cbn [negb orb].
    fold (promptOf arg). unfold bind. rewrite (@first_answer _ _ _ Hc). reflexivity.
  - intros text Hps Hc. unfold compareProposals. cbn [structured_data truthy negb].
    destruct ps as [| x ps']; [now elim Hps |]. cbn [List.length Nat.eqb].
    unfold bind. rewrite (@first_answer _ _ _ Hc). reflexivity.
  - intros Hg. unfold parseProposal.
    destruct (arg_truthy arg); cbn [negb orb andb] in *; [| reflexivity].
    rewrite Hg. reflexivity.
  - intros ->. reflexivity.
  - intros Hps. unfold compareProposals. cbn [structured_data truthy negb].
    destruct ps as [| x ps']; [now elim Hps |]. cbn [List.length Nat.eqb].
    unfold bind, lift.
    pose proof (request_budget (ComparePrompt rfp (x :: ps')) st) as (Hc & _).
    destruct (makeCompletionRequest _ st) as [[t | e] st']; cbn [snd] in *; lia.
Qed.

End BudgetProofs.

(* ===================================================================== *)
(** * Correlation with lookups that fail                                  *)
(* ===================================================================== *)

Section RobustnessProofs.
Context {E : Env}.
Import EmailService.

(** X4. [correlateEmailToRFP] with arbitrary callbacks. It never throws,
    whatever the callbacks do; its [fromEmail] is the sender as given and
    its [success] says that a request id and a responder are both there.
    With no sender, an empty sender or no responder callback, no callback
    runs and no responder is resolved. A responder lookup that throws
    counts as one that found nothing, and the request lookup is then not
    run. A request lookup that throws counts as one that found nothing,
    and the responder found before it is kept. Once the responder lookup
    found a vendor, the correlation names that vendor whatever the
    request lookup does. *)
Theorem lookup_failures_are_contained (email : EmailData)
    (findRFP : option (ObjectId -> M (option RFP)))
    (findVendor : option (string -> M (option Vendor))) (st : State) :
  exists c st',
    correlateEmailToRFP email findRFP findVendor st = (Ok c, st')
    /\ fromEmail c = from email
    /\ success c = truthy_id (rfpId c) && isSome (vendorId c)
    /\ (truthy_str (from email) = false \/ findVendor = None ->
         c = result (subjectId email) None (from email) /\ st' = st)
    /\ (forall fv addr e st1,
         findVendor = Some fv -> from email = Some addr -> truthy_str (Some addr) = true ->
         fv addr st = (Throw e, st1) ->
         c = result (subjectId email) None (Some addr) /\ st' = st1)
    /\ (forall fv addr v st1,
         findVendor = Some fv -> from email = Some addr -> truthy_str (Some addr) = true ->
         fv addr st = (Ok (Some v), st1) ->
         vendorId c = Some (vendor_id v) /\
         forall cb e st2,
           findRFP = Some cb -> subjectId email = None ->
           cb (vendor_id v) st1 = (Throw e, st2) ->
           c = result None (Some (vendor_id v)) (Some addr) /\ st' = st2).
Proof.
  unfold correlateEmailToRFP, bind, try_catch, ret. fold (subjectId email).
  destruct (from email) as [addr |] eqn:Hfrom.
  2:{ do 2 eexists. split; [reflexivity |]. repeat split; try discriminate. }
  destruct findVendor as [fv |].
  2:{ do 2 eexists. split; [reflexivity |]. repeat split; try discriminate. }
  destruct (truthy_str (Some addr)) eqn:Haddr.
  2:{ do 2 eexists. split; [reflexivity |]. repeat split; try discriminate;
      intros; congruence. }
  destruct (fv addr st) as [[[v |] | e] st1] eqn:Hfv.
  - (* the responder was found *)
    destruct findRFP as [cb |].
    + destruct (truthy_id (subjectId email)) eqn:Hid; cbn [negb].
      * do 2 eexists. split; [reflexivity |]. split; [reflexivity |].
        split; [reflexivity |]. split; [intros [H | H]; discriminate |].
        split; [intros fv' addr' e' st1' [= <-] [= <-] _ H; congruence |].
        intros fv' addr' v' st1' [= <-] [= <-] _ H. rewrite Hfv in H.
        injection H as <- <-. split; [reflexivity |].
        intros cb' e st2 _ Hnone. rewrite Hnone in Hid. discriminate.
      * destruct (cb (vendor_id v) st1) as [[[r |] | e] st2] eqn:Hcb.
        all: do 2 eexists; (split; [reflexivity |]); (split; [reflexivity |]);
          (split; [reflexivity |]); (split; [intros [H | H]; discriminate |]);
          (split; [intros fv' addr' e' st1' [= <-] [= <-] _ H; congruence |]);
          intros fv' addr' v' st1' [= <-] [= <-] _ H; rewrite Hfv in H;
          injection H as <- <-; (split; [reflexivity |]);
          intros cb' e' st2' [= <-] Hnone Hcb'; rewrite Hcb in Hcb';
          try discriminate Hcb'.
        injection Hcb' as <- <-. rewrite Hnone. split; reflexivity.
    + do 2 eexists. split; [reflexivity |]. split; [reflexivity |].
      split; [reflexivity |]. split; [intros [H | H]; discriminate |].
      split; [intros fv' addr' e' st1' [= <-] [= <-] _ H; congruence |].
      intros fv' addr' v' st1' [= <-] [= <-] _ H. rewrite Hfv in H.
      injection H as <- <-. split; [reflexivity |]. discriminate.
  - do 2 eexists. split; [reflexivity |]. split; [reflexivity |].
    split; [reflexivity |]. split; [intros [H | H]; discriminate |].
    split; intros fv' addr' ? st1' [= <-] [= <-] _ H; congruence.
  - do 2 eexists. split; [reflexivity |]. split; [reflexivity |].
    split; [reflexivity |]. split; [intros [H | H]; discriminate |].
    split.
    + intros fv' addr' e' st1' [= <-] [= <-] _ H. rewrite Hfv in H.
      injection H as <- <-. split; reflexivity.
    + intros fv' addr' ? st1' [= <-] [= <-] _ H; congruence.
Qed.

End RobustnessProofs.

(* ===================================================================== *)
(** * The tag of a dispatched request in the subject of a reply           *)
(* ===================================================================== *)

Section TagProofs.
Import EmailService EmailSending Text.

Lemma hexRun_app rest t :
  snd (hexRun rest) <> EmptyString \/
  match t with String c _ => isHexDigit c = false | EmptyString => True end ->
  hexRun (rest ++ t) = (fst (hexRun rest), snd (hexRun rest) ++ t).
Proof.
  induction rest as [| c rest IH]; intros H.
  - destruct H as [H | H]; [now elim H |].
    destruct t as [| c t]; [reflexivity |]. cbn [append hexRun]. rewrite H. reflexivity.
  - cbn [append hexRun] in *. destruct (isHexDigit c) eqn:Hc.
    + destruct (hexRun rest) as [run after] eqn:Hr. cbn [fst snd] in *.
      rewrite IH by exact H. reflexivity.
    + reflexivity.
Qed.

Lemma prefix_ci_app lit : forall s rest t,
  prefix_ci lit s = Some rest -> prefix_ci lit (s ++ t) = Some (rest ++ t).
Proof.
  induction lit as [| a lit IH]; intros s rest t.
  - cbn. now intros [= ->].
  - destruct s as [| b s]; [discriminate |]. cbn [append prefix_ci].
    destruct (Ascii.eqb (lowerAscii a) (lowerAscii b)); [apply IH | discriminate].
Qed.

Lemma prefix_ci_space lit : forall s r,
  allChars (fun a => negb (Ascii.eqb (lowerAscii a) " ")) lit = true ->
  prefix_ci lit s = None -> prefix_ci lit (s ++ String " " r) = None.
Proof.
  induction lit as [| a lit IH]; intros s r Hlit; [discriminate |].
  cbn [allChars] in Hlit. apply andb_true_iff in Hlit as [Ha Hlit].
  destruct s as [| b s]; cbn [append prefix_ci].
  - intros _. change (lowerAscii " ") with " "%char.
    apply negb_true_iff in Ha. now rewrite Ha.
  - destruct (Ascii.eqb (lowerAscii a) (lowerAscii b)); [now apply IH | reflexivity].
Qed.

Lemma matchAt_app s t id : matchAt s = Some id -> matchAt (s ++ t) = Some id.
Proof.
  unfold matchAt. destruct (prefix_ci "[RFP-" s) as [rest |] eqn:Hp; [| discriminate].
  rewrite (prefix_ci_app _ _ t Hp).
  destruct (hexRun rest) as [run after] eqn:Hr.
  destruct run as [| c run]; [discriminate |].
  destruct after as [| a after]; [discriminate |].
  rewrite hexRun_app by (left; rewrite Hr; discriminate).
  rewrite Hr. cbn [fst snd append]. trivial.
Qed.

Lemma matchAt_space s r : matchAt s = None -> matchAt (s ++ String " " r) = None.
Proof.
  unfold matchAt. destruct (prefix_ci "[RFP-" s) as [rest |] eqn:Hp.
  - rewrite (prefix_ci_app _ _ (String " " r) Hp).
    rewrite hexRun_app by (right; reflexivity).
    destruct (hexRun rest) as [run after]. cbn [fst snd].
    destruct run as [| c run]; [reflexivity |].
    destruct after as [| a after]; [reflexivity |].
    cbn [append]. trivial.
  - intros _. rewrite prefix_ci_space; [reflexivity | reflexivity | exact Hp].
Qed.

Lemma hexChar_digit d : (d < 16)%N -> isHexDigit (hexChar d) = true.
Proof.
  intros H.
  assert (Hd : In d [0; 1; 2; 3; 4; 5; 6; 7; 8; 9; 10; 11; 12; 13; 14; 15]%N).
  { destruct d as [| p]; [now left |].
    do 4 (destruct p as [p | p |]; try lia; cbn; auto 20). }
  cbn in Hd. repeat (destruct Hd as [<- | Hd]; [reflexivity |]). destruct Hd.
Qed.

Lemma hexDigits_all k : forall n acc,
  allChars isHexDigit acc = true -> allChars isHexDigit (hexDigits k n acc) = true.
Proof.
  induction k as [| k IH]; intros n acc Hacc; [exact Hacc |].
  cbn [hexDigits]. apply IH. cbn [allChars]. rewrite Hacc, hexChar_digit; [reflexivity |].
  apply N.mod_lt. discriminate.
Qed.

Lemma hexDigits_nonempty k : forall n acc,
  acc <> EmptyString \/ k <> 0%nat -> hexDigits k n acc <> EmptyString.
Proof.
  induction k as [| k IH]; intros n acc H.
  - destruct H as [H | H]; [exact H | now elim H].
  - cbn [hexDigits]. apply IH. left. discriminate.
Qed.

Lemma hexRun_all h t :
  allChars isHexDigit h = true ->
  hexRun (h ++ String "]" t) = (h, String "]" t).
Proof.
  induction h as [| c h IH]; intros H; [reflexivity |].
  cbn [allChars] in H. apply andb_true_iff in H as [Hc Hh].
  cbn [append hexRun]. rewrite Hc, IH by exact Hh. reflexivity.
Qed.

Lemma matchAt_tag h t :
  allChars isHexDigit h = true -> h <> EmptyString ->
  matchAt ("[RFP-" ++ h ++ String "]" t) = Some h.
Proof.
  intros Hh Hne. unfold matchAt. cbn [append prefix_ci].
  rewrite !Ascii.eqb_refl.
  rewrite hexRun_all by exact Hh.
  destruct h; [now elim Hne | reflexivity].
Qed.

Lemma matchRfpId_tagged h t : forall s,
  allChars isHexDigit h = true -> h <> EmptyString ->
  matchRfpId (s ++ String " " ("[RFP-" ++ h ++ String "]" t)) =
  match matchRfpId s with
  | Some other => Some other
  | None => Some h
  end.
Proof.
  intros s Hh Hne.
  pose proof (matchAt_tag t Hh Hne) as Htag.
  set (tag := "[RFP-" ++ h ++ String "]" t) in *.
  assert (Hhead : matchRfpId tag = Some h).
  { destruct tag; [discriminate Htag |]. cbn [matchRfpId]. now rewrite Htag. }
  clearbody tag.
  induction s as [| c s IH].
  - cbn [append]. cbn [matchRfpId].
    change (matchAt (String " " tag)) with (@None string).
    rewrite Hhead. reflexivity.
  - change (String c s ++ String " " tag) with (String c (s ++ String " " tag)).
    cbn [matchRfpId].
    change (String c (s ++ String " " tag)) with (String c s ++ String " " tag).
    destruct (matchAt (String c s)) as [id |] eqn:Hm.
    + rewrite (@matchAt_app _ _ _ Hm). reflexivity.
    + rewrite (@matchAt_space _ _ Hm). exact IH.
Qed.

Lemma append_assoc' (a b c : string) : ((a ++ b) ++ c = a ++ (b ++ c))%string.
Proof. induction a as [| x a IH]; cbn [append]; [reflexivity | now rewrite IH]. Qed.

Lemma subjectFor_match (rfp : RFP) (before after : string) :
  matchRfpId (before ++ subjectFor rfp ++ after) =
  match matchRfpId (before ++ "Request for Proposal - " ++ rfp_title rfp) with
  | Some other => Some other
  | None => Some (toHexString (rfp_id rfp))
  end.
Proof.
  unfold subjectFor.
  assert (Hall : allChars isHexDigit (toHexString (rfp_id rfp)) = true)
    by (apply hexDigits_all; reflexivity).
  assert (Hne : toHexString (rfp_id rfp) <> EmptyString)
    by (apply hexDigits_nonempty; right; discriminate).
  rewrite <- (matchRfpId_tagged after _ Hall Hne).
  f_equal. rewrite !append_assoc'. reflexivity.
Qed.

(** X5. The subject [sendRFPToVendor] writes and the pattern
    [correlateEmailToRFP] reads fit together. In any subject that contains
    the dispatched subject, with whatever text before and after it, the
    pattern finds the 24 hex digits of the request's id, unless the text
    before it or the request's own title already holds a tag: the match
    is the leftmost one, so that earlier tag is then what the correlation
    takes for the request id. Without such an earlier tag, the
    correlation of a mail with that subject returns, with any callbacks
    and in any state, the request id as those hex digits, and the
    callback that looks for a recent request makes no difference to the
    run. *)
Theorem reply_subject_round_trip (rfp : RFP) (before after : string) :
  matchRfpId (before ++ subjectFor rfp ++ after) =
  match matchRfpId (before ++ "Request for Proposal - " ++ rfp_title rfp) with
  | Some other => Some other
  | None => Some (toHexString (rfp_id rfp))
  end /\
  (matchRfpId (before ++ "Request for Proposal - " ++ rfp_title rfp) = None ->
   forall email cb fv st,
     subject email = Some (before ++ subjectFor rfp ++ after) ->
     correlateEmailToRFP email cb fv st = correlateEmailToRFP email None fv st /\
     exists c st',
       correlateEmailToRFP email cb fv st = (Ok c, st') /\
       rfpId c = Some (IdStr (toHexString (rfp_id rfp)))).
Proof.
  pose proof (subjectFor_match rfp before after) as Hm.
  split; [exact Hm |].
  intros Hnone email cb fv st Hsubject. rewrite Hnone in Hm.
  assert (Hs : subjectId email = Some (IdStr (toHexString (rfp_id rfp)))).
  { unfold subjectId. rewrite Hsubject, Hm. reflexivity. }
  destruct (@tag_wins email _ cb None fv st Hs) as [Hsame Hid].
  split; [exact Hsame |].
  destruct (correlate_total email cb fv st) as (c & st' & Hrun).
  exists c, st'. split; [exact Hrun |]. exact (Hid c st' Hrun).
Qed.

End TagProofs.

(* ===================================================================== *)
(** * Sending a request to vendors                                        *)
(* ===================================================================== *)

Section SendingProofs.
Context {Mlr : Mailer}.
Import EmailSending Text.

Lemma plainRun_spec s :
  s = (fst (plainRun s) ++ snd (plainRun s))%string /\
  allChars plainChar (fst (plainRun s)) = true /\
  match snd (plainRun s) with
  | EmptyString => True
  | String c _ => plainChar c = false
  end.
Proof.
  induction s as [| c s IH]; [repeat split |].
  cbn [plainRun]. destruct (plainChar c) eqn:Hc.
  - destruct (plainRun s) as [run rest]. cbn [fst snd] in *.
    destruct IH as (Hs & Hall & Hrest).
    split; [cbn [append]; now rewrite <- Hs |].
    split; [cbn [allChars]; now rewrite Hc, Hall | exact Hrest].
  - repeat split. exact Hc.
Qed.

Lemma plainRun_app run rest :
  allChars plainChar run = true ->
  match rest with EmptyString => True | String c _ => plainChar c = false end ->
  plainRun (run ++ rest) = (run, rest).
Proof.
  intros Hall Hrest. induction run as [| c run IH].
  - destruct rest as [| c rest]; [reflexivity |]. cbn [append plainRun].
    now rewrite Hrest.
  - cbn [allChars] in Hall. apply andb_true_iff in Hall as [Hc Hall].
    cbn [append plainRun]. now rewrite Hc, IH.
Qed.

Lemma dotThenPlain_split d :
  dotThenPlain d = true <->
  exists b c, d = (b ++ String "." c)%string /\ c <> EmptyString /\
              allChars plainChar b = true /\ allChars plainChar c = true.
Proof.
  induction d as [| x d IH]; cbn [dotThenPlain].
  - split; [discriminate |]. intros (b & c & H & _). destruct b; discriminate.
  - split.
    + intros H. apply andb_true_iff in H as [Hx H]. apply orb_true_iff in H as [H | H].
      * apply andb_true_iff in H as [H Hall]. apply andb_true_iff in H as [Hdot Hne].
        apply Ascii.eqb_eq in Hdot. subst x.
        exists EmptyString, d. repeat split; try assumption.
        intros ->. discriminate.
      * apply IH in H as (b & c & -> & Hne & Hb & Hc).
        exists (String x b), c. repeat split; try assumption.
        cbn [allChars]. now rewrite Hx, Hb.
    + intros (b & c & Heq & Hne & Hb & Hc). destruct b as [| y b].
      * cbn [append] in Heq. injection Heq as -> ->.
        rewrite Hc. cbn. destruct c; [now elim Hne | reflexivity].
      * cbn [append] in Heq. injection Heq as -> ->.
        cbn [allChars] in Hb. apply andb_true_iff in Hb as [Hy Hb].
        rewrite Hy. cbn [andb].
        assert (H : dotThenPlain (b ++ String "." c) = true).
        { apply IH. exists b, c. repeat split; assumption. }
        rewrite H. apply orb_true_r.
Qed.

Lemma validateEmails_fold emails : forall acc,
  fold_left (fun acc email =>
               if validateEmail email
               then (fst acc ++ [email], snd acc)%list
               else (fst acc, snd acc ++ [email])%list) emails acc
  = ((fst acc ++ filter validateEmail emails)%list,
     (snd acc ++ filter (fun e => negb (validateEmail e)) emails)%list).
Proof.
  induction emails as [| e l IH]; intros [a b].
  - cbn. now rewrite !app_nil_r.
  - cbn [fold_left filter]. rewrite IH.
    destruct (validateEmail e); cbn [fst snd negb]; rewrite <- ?app_assoc; reflexivity.
Qed.

(** X6. [validateEmail], the pattern [/^[^\s@]+@[^\s@]+\.[^\s@]+$/] read
    as a predicate: an address passes exactly when it is a local part, an
    at-sign, a domain, a dot and an ending, the three parts non-empty and
    free of white space and at-signs (dots are allowed in all three).
    [validateEmails] splits a list into the addresses that pass and those
    that do not, each in the order of the list. *)
Theorem validateEmail_shape (email : string) :
  (validateEmail email = true <->
   exists local domain ending,
     email = (local ++ String "@" (domain ++ String "." ending))%string /\
     local <> EmptyString /\ domain <> EmptyString /\ ending <> EmptyString /\
     allChars plainChar local = true /\ allChars plainChar domain = true /\
     allChars plainChar ending = true)
  /\ forall emails,
       validateEmails emails
       = (filter validateEmail emails, filter (fun e => negb (validateEmail e)) emails).
Proof.
  split; [| intros emails; unfold validateEmails; now rewrite validateEmails_fold].
  unfold validateEmail. split.
  - pose proof (plainRun_spec email) as (Heq & Hall & _).
    destruct (plainRun email) as [run rest]. cbn [fst snd] in *.
    destruct run as [| a run]; [discriminate |].
    destruct rest as [| x rest]; [discriminate |].
    destruct (Ascii.eqb_spec x "@"); [subst x |
      destruct x as [[] [] [] [] [] [] [] []]; try discriminate; now elim n].
    destruct rest as [| c d]; [discriminate |].
    intros H. apply andb_true_iff in H as [Hc Hd].
    apply dotThenPlain_split in Hd as (b & e & -> & Hne & Hb & He).
    exists (String a run), (String c b), e.
    split; [exact Heq |]. repeat split; try assumption; try discriminate.
    cbn [allChars]. now rewrite Hc, Hb.
  - intros (l & d & e & -> & Hl & Hd & He & Hal & Had & Hae).
    rewrite plainRun_app; [| exact Hal | reflexivity].
    destruct l as [| a l]; [now elim Hl |].
    destruct d as [| c d]; [now elim Hd |].
    cbn [append allChars] in *. apply andb_true_iff in Had as [Hc Had].
    rewrite Hc. cbn [andb]. apply dotThenPlain_split.
    exists d, e. repeat split; assumption.
Qed.

Lemma sendEmail_run m :
  sendEmail m =
  Ok (match (if validateEmail (mail_to m) then sendMail m
             else Throw (Error ("Invalid recipient email: " ++ mail_to m))) with
      | Ok messageId => Delivered messageId (mail_to m)
      | Throw e => NotDelivered (message e) (mail_to m)
      end).
Proof.
  unfold sendEmail, rcatch. destruct (validateEmail (mail_to m)); cbn [negb rbind].
  - destruct (sendMail m); reflexivity.
  - reflexivity.
Qed.

Lemma sendRFPToVendor_run rfp v :
  sendRFPToVendor rfp v =
  Ok (mkVendorOutcome
        (match deliveryTo rfp v with
         | Ok messageId => Delivered messageId (vendor_email v)
         | Throw e => NotDelivered (message e) (vendor_email v)
         end) (vendor_id v) (vendor_name v)).
Proof.
  unfold sendRFPToVendor, deliveryTo, rcatch.
  destruct (formatRFPForEmail rfp) as [emailBody | e]; cbn [rbind]; [| reflexivity].
  rewrite sendEmail_run. cbn [rbind mail_to].
  destruct (validateEmail (vendor_email v)); [| reflexivity].
  destruct (sendMail _); reflexivity.
Qed.

Lemma record_fold rfp vendors : forall acc,
  fold_left record (combine (map (fun v => sendRFPToVendor rfp v) vendors) vendors) acc =
  mkSendResults (total acc)
    (successful acc ++ flat_map (sentEntry rfp) vendors)
    (failed acc ++ flat_map (notSentEntry rfp) vendors)
    (errors acc ++ flat_map (errorEntry rfp) vendors).
Proof.
  induction vendors as [| v vendors IH]; intros acc.
  - cbn. rewrite !app_nil_r. destruct acc; reflexivity.
  - cbn [map combine fold_left flat_map]. rewrite IH.
    rewrite sendRFPToVendor_run.
    unfold sentEntry at 2, notSentEntry at 2, errorEntry at 2.
    destruct (deliveryTo rfp v) as [messageId | e];
      cbn [record vo_result total successful failed errors];
      rewrite <- ?app_assoc; reflexivity.
Qed.

Lemma successful_ids rfp vendors :
  map s_vendorId (flat_map (sentEntry rfp) vendors)
  = map vendor_id (filter (delivered rfp) vendors).
Proof.
  induction vendors as [| v l IH]; [reflexivity |].
  cbn [flat_map filter]. rewrite map_app, IH.
  assert (Hd : delivered rfp v = match deliveryTo rfp v with
                                 | Ok _ => true | Throw _ => false end) by reflexivity.
  rewrite Hd. unfold sentEntry. destruct (deliveryTo rfp v); reflexivity.
Qed.

Lemma sendRFPToVendors_run rfp vendors :
  sendRFPToVendors rfp vendors =
  mkSendResults (List.length vendors) (flat_map (sentEntry rfp) vendors)
    (flat_map (notSentEntry rfp) vendors) (flat_map (errorEntry rfp) vendors).
Proof. unfold sendRFPToVendors. rewrite record_fold. reflexivity. Qed.

(** X7. [sendRFPToVendors] in closed form. It never throws. Every vendor
    ends up in exactly one of the two lists, in the order of the
    argument: in [successful], with the message id, when the body could
    be rendered, the address is well-formed and the transport accepted
    the mail; in [failed] otherwise, with one entry of [errors] that
    carries the message of what went wrong. So the two lists add up to
    [total], and there are as many errors as failures. A vendor whose
    address is malformed is reported with "Invalid recipient email: "
    and the address, whatever the transport would have done with it. *)
Theorem send_results_partition (rfp : RFP) (vendors : list Vendor) :
  let results := sendRFPToVendors rfp vendors in
  total results = List.length vendors
  /\ successful results = flat_map (sentEntry rfp) vendors
  /\ failed results = flat_map (notSentEntry rfp) vendors
  /\ errors results = flat_map (errorEntry rfp) vendors
  /\ map s_vendorId (successful results)
       = map vendor_id (filter (delivered rfp) vendors)
  /\ map f_vendorId (failed results)
       = map vendor_id (filter (fun v => negb (delivered rfp v)) vendors)
  /\ (List.length (successful results) + List.length (failed results))%nat
       = total results
  /\ List.length (errors results) = List.length (failed results)
  /\ (forall v emailBody,
        In v vendors -> formatRFPForEmail rfp = Ok emailBody ->
        validateEmail (vendor_email v) = false ->
        In (mkSendError (vendor_name v) (vendor_email v)
              (Some ("Invalid recipient email: " ++ vendor_email v)))
           (errors results)).
Proof.
  cbv zeta. rewrite sendRFPToVendors_run.
  cbn [total successful failed errors app].
  split; [reflexivity |]. split; [reflexivity |]. split; [reflexivity |].
  split; [reflexivity |].
  pose proof (successful_ids rfp vendors) as Hs.
  assert (Hf : map f_vendorId (flat_map (notSentEntry rfp) vendors)
               = map vendor_id (filter (fun v => negb (delivered rfp v)) vendors)).
  { clear Hs. induction vendors as [| v l IH]; [reflexivity |].
    cbn [flat_map filter]. rewrite map_app, IH.
    assert (Hd : delivered rfp v = match deliveryTo rfp v with
                                   | Ok _ => true | Throw _ => false end) by reflexivity.
    rewrite Hd. unfold notSentEntry. destruct (deliveryTo rfp v); reflexivity. }
  split; [exact Hs |]. split; [exact Hf |].
  split; [| split].
  - clear Hs Hf. induction vendors as [| v l IH]; [reflexivity |].
    cbn [flat_map List.length]. rewrite !length_app, <- IH.
    assert (H1 : (List.length (sentEntry rfp v) + List.length (notSentEntry rfp v) = 1)%nat)
      by (unfold sentEntry, notSentEntry; destruct (deliveryTo rfp v); reflexivity).
    lia.
  - clear Hs Hf. induction vendors as [| v l IH]; [reflexivity |].
    cbn [flat_map]. rewrite !length_app, IH.
    assert (H1 : List.length (errorEntry rfp v) = List.length (notSentEntry rfp v))
      by (unfold errorEntry, notSentEntry; destruct (deliveryTo rfp v); reflexivity).
    now rewrite H1.
  - intros v emailBody Hin Hbody Hbad. apply in_flat_map. exists v.
    split; [exact Hin |]. unfold errorEntry, deliveryTo. rewrite Hbody, Hbad.
    cbn. now left.
Qed.

End SendingProofs.

(* ===================================================================== *)
(** * The dispatch of a request                                           *)
(* ===================================================================== *)

Section DispatchProofs.
Context {E : Env} {Mlr : Mailer}.
Import Db EmailSending rfpController.

Lemma castIds_run ids st :
  castIds ids st =
  (match castAll ids with
   | Some os => Ok os
   | None => Throw (CastError "_id" (uncastable ids))
   end, st).
Proof.
  induction ids as [| s ids IH]; [reflexivity |].
  cbn [castIds castAll uncastable]. unfold bind at 1. rewrite castId_run.
  cbn [castOf castFailure].
  destruct (castObjectId s) as [o |]; [| reflexivity].
  unfold bind at 1. rewrite IH. destruct (castAll ids); reflexivity.
Qed.

Lemma sendRFP_run id ids st :
  sendRFP id ids st =
  match ids with
  | None | Some [] => (Throw (ValidationError "Missing required field" NoDetails), st)
  | Some (i :: l) =>
      match castObjectId id with
      | None => (Throw (CastError "_id" id), st)
      | Some o =>
          match rfpById o st with
          | None => (Throw (NotFoundError "RFP"), st)
          | Some rfp =>
              match castAll (i :: l) with
              | None => (Throw (CastError "_id" (uncastable (i :: l))), st)
              | Some os =>
                  match selected os st with
                  | [] => (Throw (NotFoundError "No valid vendors found with provided IDs"),
                           st)
                  | v :: vs =>
                      (Ok (reportOf rfp (v :: vs) (now st)),
                       afterDispatch rfp (v :: vs) st)
                  end
              end
          end
      end
  end.
Proof.
  unfold sendRFP. destruct ids as [[| i l] |]; try reflexivity.
  unfold RFP_findById. unfold bind at 1. unfold bind at 1. rewrite castId_run.
  cbn [castOf]. destruct (castObjectId id) as [o |]; [| reflexivity].
  unfold gets at 1. fold (rfpById o st).
  destruct (rfpById o st) as [rfp |]; [| reflexivity].
  unfold bind at 1. unfold Vendor_find_in. unfold bind at 1. rewrite castIds_run.
  destruct (castAll (i :: l)) as [os |]; [| reflexivity].
  unfold gets at 1. fold (selected os st).
  destruct (selected os st) as [| v vs] eqn:Hsel; [reflexivity |].
  cbn [List.length Nat.eqb].
  unfold bind at 1, new_Date, gets. unfold bind at 1, RFP_save_dispatch, modify, ret.
  unfold reportOf, afterDispatch, stamped, notified.
  rewrite sendRFPToVendors_run. cbn [successful failed errors total].
  rewrite <- successful_ids, !map_map. unfold statusAfterDispatch.
  destruct (rfp_status rfp); reflexivity.
Qed.

Lemma upsert_new l e : In e (upsert l e).
Proof.
  destruct e as [vid t]. induction l as [| v l IH]; cbn [upsert ve_vendor_id ve_sent_at].
  - now left.
  - destruct (N.eqb_spec (ve_vendor_id v) vid) as [-> | _]; [now left | now right].
Qed.

Lemma upsert_old l e x : In x (upsert l e) -> In x l \/ x = e.
Proof.
  destruct e as [vid t]. induction l as [| v l IH]; cbn [upsert ve_vendor_id ve_sent_at].
  - intros [<- | []]. now right.
  - destruct (N.eqb_spec (ve_vendor_id v) vid) as [<- | _].
    + intros [<- | H]; [now right | left; now right].
    + intros [<- | H]; [left; now left |].
      destruct (IH H) as [H' | H']; [left; now right | now right].
Qed.

Lemma upsert_keeps l e x :
  In x l -> ve_vendor_id x <> ve_vendor_id e \/ ve_sent_at x = ve_sent_at e ->
  In x (upsert l e).
Proof.
  intros Hin Hx. induction l as [| v l IH]; [destruct Hin |].
  cbn [upsert]. destruct (N.eqb_spec (ve_vendor_id v) (ve_vendor_id e)) as [Heq | Hne].
  - destruct Hin as [-> | Hin]; [| now right].
    destruct Hx as [Hx | Hx]; [now elim Hx |].
    left. destruct x as [vid t]. cbn in *. now subst.
  - destruct Hin as [-> | Hin]; [now left | right; now apply IH].
Qed.

Lemma upsert_ids l e :
  map ve_vendor_id (upsert l e) =
  if existsb (N.eqb (ve_vendor_id e)) (map ve_vendor_id l)
  then map ve_vendor_id l
  else (map ve_vendor_id l ++ [ve_vendor_id e])%list.
Proof.
  induction l as [| v l IH]; [reflexivity |].
  cbn [upsert map existsb]. rewrite (N.eqb_sym (ve_vendor_id e)).
  destruct (N.eqb (ve_vendor_id v) (ve_vendor_id e)); cbn [orb map ve_vendor_id].
  - reflexivity.
  - rewrite IH. destruct (existsb _ _); reflexivity.
Qed.

Lemma upsert_NoDup l e :
  NoDup (map ve_vendor_id l) -> NoDup (map ve_vendor_id (upsert l e)).
Proof.
  intros H. rewrite upsert_ids.
  destruct (existsb _ _) eqn:Hex; [exact H |].
  apply NoDup_app; [exact H | repeat constructor; intros [] |].
  intros y Hy [<- | []].
  assert (Hc : existsb (N.eqb (ve_vendor_id e)) (map ve_vendor_id l) = true).
  { apply existsb_exists. exists (ve_vendor_id e). split; [exact Hy | apply N.eqb_refl]. }
  congruence.
Qed.

Lemma stamped_cons t vid vids old :
  stamped t (vid :: vids) old = stamped t vids (upsert old (mkVendorEntry vid t)).
Proof. reflexivity. Qed.

Lemma stamped_keeps t vids : forall old x,
  In x old -> ~ In (ve_vendor_id x) vids \/ ve_sent_at x = t ->
  In x (stamped t vids old).
Proof.
  induction vids as [| vid vids IH]; intros old x Hin Hx; [exact Hin |].
  rewrite stamped_cons. apply IH.
  - apply upsert_keeps; [exact Hin |].
    destruct Hx as [Hx | Hx]; [left | now right].
    intros Heq. apply Hx. left. now rewrite Heq.
  - destruct Hx as [Hx | Hx]; [left | now right].
    intros H. apply Hx. now right.
Qed.

Lemma stamped_new t vids : forall old vid,
  In vid vids -> In (mkVendorEntry vid t) (stamped t vids old).
Proof.
  induction vids as [| v0 vids IH]; intros old vid Hin; [destruct Hin |].
  rewrite stamped_cons. destruct Hin as [-> | Hin].
  - apply stamped_keeps; [apply upsert_new | now right].
  - now apply IH.
Qed.

Lemma stamped_old t vids : forall old x,
  In x (stamped t vids old) ->
  In x old \/ (ve_sent_at x = t /\ In (ve_vendor_id x) vids).
Proof.
  induction vids as [| v0 vids IH]; intros old x Hin; [now left |].
  rewrite stamped_cons in Hin. destruct (IH _ _ Hin) as [H | [Ht Hv]].
  - destruct (upsert_old _ _ _ H) as [H' | ->]; [now left |].
    right. split; [reflexivity | now left].
  - right. split; [exact Ht | now right].
Qed.

Lemma stamped_NoDup t vids : forall old,
  NoDup (map ve_vendor_id old) -> NoDup (map ve_vendor_id (stamped t vids old)).
Proof.
  induction vids as [| v0 vids IH]; intros old H; [exact H |].
  rewrite stamped_cons. apply IH. now apply upsert_NoDup.
Qed.

Lemma rfpById_updateFirst (l : list RFP) i j f :
  (forall r, rfp_id (f r) = rfp_id r) ->
  find (fun r => N.eqb (rfp_id r) j) (updateFirst (fun r => N.eqb (rfp_id r) i) f l) =
  if N.eqb i j then option_map f (find (fun r => N.eqb (rfp_id r) j) l)
  else find (fun r => N.eqb (rfp_id r) j) l.
Proof.
  intros Hf. induction l as [| r l IH]; cbn [updateFirst find].
  - destruct (N.eqb i j); reflexivity.
  - destruct (N.eqb_spec (rfp_id r) i) as [Hi | Hi]; cbn [find].
    + rewrite Hf. subst i. destruct (N.eqb (rfp_id r) j); reflexivity.
    + destruct (N.eqb_spec (rfp_id r) j) as [Hj | Hj].
      * destruct (N.eqb_spec i j); [congruence | reflexivity].
      * exact IH.
Qed.

Lemma In_updateFirst {A} (hit : A -> bool) f (l : list A) x :
  In x (updateFirst hit f l) -> In x l \/ exists y, In y l /\ hit y = true /\ x = f y.
Proof.
  induction l as [| y l IH]; cbn [updateFirst]; [intros [] |].
  destruct (hit y) eqn:Hy.
  - intros [<- | H]; [right; exists y; split; [now left | auto] | left; now right].
  - intros [<- | H]; [left; now left |].
    destruct (IH H) as [H' | (z & Hz & Hh & ->)]; [left; now right |].
    right. exists z. split; [now right | auto].
Qed.

Lemma find_In_updateFirst {A} (hit : A -> bool) f (l : list A) y :
  find hit l = Some y -> In (f y) (updateFirst hit f l).
Proof.
  induction l as [| z l IH]; cbn [find updateFirst]; [discriminate |].
  destruct (hit z); [intros [= ->]; now left | intros H; right; now apply IH].
Qed.

Lemma sentIds_reportOf rfp vs t : sentIds (reportOf rfp vs t) = notified rfp vs.
Proof.
  unfold sentIds, reportOf, notified. cbn [sent_to].
  rewrite sendRFPToVendors_run. cbn [successful].
  rewrite map_map. cbn [f_vendorId]. apply successful_ids.
Qed.

(** What a dispatch that returns leaves behind. *)
Lemma sendRFP_ok id ids st report st' :
  sendRFP id ids st = (Ok report, st') ->
  exists o x vs,
    castObjectId id = Some o /\ rfpById o st = Some x /\ vs <> [] /\
    report = reportOf x vs (now st) /\ st' = afterDispatch x vs st /\
    rfp_id x = o /\
    rfpById o st' =
      Some (mkRFP (rfp_id x) (rfp_title x) (rfp_structured_data x)
                  (statusAfterDispatch (rfp_status x))
                  (stamped (now st) (notified x vs) (rfp_vendors x))).
Proof.
  rewrite sendRFP_run. destruct ids as [[| i l] |]; try discriminate.
  destruct (castObjectId id) as [o |]; [| discriminate].
  destruct (rfpById o st) as [x |] eqn:Hx; [| discriminate].
  destruct (castAll (i :: l)) as [os |]; [| discriminate].
  destruct (selected os st) as [| v vs]; [discriminate |].
  intros [= <- <-]. exists o, x, (v :: vs).
  pose proof (find_some _ _ Hx) as [_ Hid]. apply N.eqb_eq in Hid.
  subst o.
  repeat split; try reflexivity; try discriminate; try assumption.
  unfold rfpById, afterDispatch, set_rfps. cbn [rfps].
  rewrite rfpById_updateFirst by reflexivity.
  rewrite N.eqb_refl. unfold rfpById in Hx. rewrite Hx. reflexivity.
Qed.

(** X8. What [sendRFP] records. When the handler returns, the request it
    found has, for every vendor of the [sent_to] list, a dispatch entry
    stamped with the time of the call; every entry of the request is
    either such an entry or one it had before; the entries of vendors
    that are not in [sent_to], those whose mail failed among them, are
    kept as they were; and the vendor ids of the entries stay pairwise
    distinct if they were. The count in the response is the number of
    entries, the successes and failures add up to the total, and no other
    request, no vendor and no proposal is touched. *)
Theorem dispatch_is_recorded (id : string) (ids : option (list string))
    (st st' : State) (report : SendReport) :
  sendRFP id ids st = (Ok report, st') ->
  exists o x x',
    castObjectId id = Some o /\ rfpById o st = Some x /\ rfpById o st' = Some x' /\
    rfp_id x' = rfp_id x /\ rfp_title x' = rfp_title x /\
    rfp_structured_data x' = rfp_structured_data x /\
    (forall vid, In vid (sentIds report) ->
       In (mkVendorEntry vid (now st)) (rfp_vendors x')) /\
    (forall e, In e (rfp_vendors x') ->
       In e (rfp_vendors x) \/
       (ve_sent_at e = now st /\ In (ve_vendor_id e) (sentIds report))) /\
    (forall e, In e (rfp_vendors x) -> ~ In (ve_vendor_id e) (sentIds report) ->
       In e (rfp_vendors x')) /\
    (NoDup (map ve_vendor_id (rfp_vendors x)) ->
     NoDup (map ve_vendor_id (rfp_vendors x'))) /\
    vendors_count report = List.length (rfp_vendors x') /\
    (rep_successful report + rep_failed report)%nat = rep_total report /\
    proposals st' = proposals st /\ vendors st' = vendors st /\
    (forall o', o' <> o -> rfpById o' st' = rfpById o' st).
Proof.
  intros Hrun.
  destruct (sendRFP_ok _ _ _ Hrun) as (o & x & vs & Hc & Hx & Hvs & -> & -> & Hid & Hx').
  exists o, x. eexists. split; [exact Hc |]. split; [exact Hx |]. split; [exact Hx' |].
  rewrite sentIds_reportOf. cbn [rfp_id rfp_title rfp_structured_data rfp_vendors].
  split; [reflexivity |]. split; [reflexivity |]. split; [reflexivity |].
  split; [intros vid Hin; now apply stamped_new |].
  split; [intros e Hin; now apply stamped_old |].
  split; [intros e Hin Hn; apply stamped_keeps; [exact Hin | now left] |].
  split; [apply stamped_NoDup |].
  split; [reflexivity |].
  split.
  - unfold reportOf. cbn [rep_successful rep_failed rep_total].
    rewrite sendRFPToVendors_run. cbn [successful failed total].
    clear. induction vs as [| v l IH]; [reflexivity |].
    cbn [flat_map List.length]. rewrite !length_app, <- IH.
    assert (H1 : (List.length (sentEntry x v) + List.length (notSentEntry x v) = 1)%nat)
      by (unfold sentEntry, notSentEntry; destruct (deliveryTo x v); reflexivity).
    lia.
  - split; [reflexivity |]. split; [reflexivity |].
    intros o' Hne. unfold rfpById, afterDispatch, set_rfps. cbn [rfps].
    rewrite rfpById_updateFirst by reflexivity.
    rewrite Hid. destruct (N.eqb_spec o o'); [congruence | reflexivity].
Qed.

Lemma sendRFP_throw id ids st e st' :
  sendRFP id ids st = (Throw e, st') -> st' = st.
Proof.
  rewrite sendRFP_run. destruct ids as [[| i l] |]; try (now intros [= _ <-]).
  destruct (castObjectId id) as [o |]; [| now intros [= _ <-]].
  destruct (rfpById o st) as [x |]; [| now intros [= _ <-]].
  destruct (castAll (i :: l)) as [os |]; [| now intros [= _ <-]].
  destruct (selected os st) as [| v vs]; [now intros [= _ <-] | discriminate].
Qed.

(** X9. The status [sendRFP] leaves. When the handler returns, the
    request is [sent] if it was a draft and has the status it had
    otherwise, so it never moves backward and is no draft any more; the
    response reports that status. This does not depend on the mail:
    once the request and one of the vendors are found the handler
    returns its 200 body, and when no mail went out at all the request
    still leaves [draft], with its dispatch entries unchanged. When the
    handler throws, the state is unchanged. *)
Theorem dispatch_status (id : string) (ids : option (list string)) (st : State) :
  match sendRFP id ids st with
  | (Ok report, st') =>
      exists o x x',
        castObjectId id = Some o /\ rfpById o st = Some x /\ rfpById o st' = Some x' /\
        rfp_status x' = statusAfterDispatch (rfp_status x) /\
        rep_status report = rfp_status x' /\
        (rank (rfp_status x) <= rank (rfp_status x'))%nat /\
        rfp_status x' <> draft /\
        (rep_successful report = 0%nat -> rfp_vendors x' = rfp_vendors x)
  | (Throw _, st') => st' = st
  end
  /\ (forall i l o x os v vs,
        ids = Some (i :: l) -> castObjectId id = Some o -> rfpById o st = Some x ->
        castAll (i :: l) = Some os -> selected os st = v :: vs ->
        exists report,
          fst (sendRFP id ids st) = Ok report /\
          rep_total report = List.length (v :: vs)).
Proof.
  split.
  - destruct (sendRFP id ids st) as [[report | e] st'] eqn:Hrun.
    + destruct (sendRFP_ok _ _ _ Hrun)
        as (o & x & vs & Hc & Hx & Hvs & -> & -> & Hid & Hx').
      exists o, x. eexists. split; [exact Hc |]. split; [exact Hx |].
      split; [exact Hx' |]. cbn [rfp_status rfp_vendors].
      split; [reflexivity |]. split; [reflexivity |].
      split; [destruct (rfp_status x); cbn; lia |].
      split; [destruct (rfp_status x); discriminate |].
      unfold reportOf. cbn [rep_successful]. rewrite sendRFPToVendors_run.
      cbn [successful]. intros Hz. unfold notified.
      rewrite <- successful_ids.
      destruct (flat_map (sentEntry x) vs); [reflexivity | discriminate Hz].
    + eapply sendRFP_throw; eassumption.
  - intros i l o x os v vs -> Hc Hx Hos Hsel. rewrite sendRFP_run, Hc, Hx, Hos, Hsel.
    eexists. split; [reflexivity |]. unfold reportOf. cbn [rep_total].
    rewrite sendRFPToVendors_run. reflexivity.
Qed.

Lemma latestSentAt_ge r e :
  In e (rfp_vendors r) -> key_le (Some (ve_sent_at e)) (latestSentAt r) = true.
Proof.
  unfold latestSentAt, key_le. induction (rfp_vendors r) as [| a l IH]; [intros [] |].
  cbn [fold_right]. intros [-> | Hin].
  - destruct (fold_right _ None l); cbn; rewrite negb_true_iff, Z.ltb_ge; lia.
  - specialize (IH Hin). destruct (fold_right _ None l) as [m |]; [| discriminate IH].
    cbn in *. rewrite negb_true_iff, Z.ltb_ge in *. lia.
Qed.

(** X10. Dispatch and the fallback lookup of the inbound pipeline fit
    together. After [sendRFP] returned for a request that is not closed,
    the lookup both entry points use for a mail without a tag finds, for
    every vendor of the [sent_to] list, a request with the id of the one
    just dispatched, provided every other outstanding request sent to
    that vendor was last dispatched before the time of the call. A mail
    without a tag whose sender resolves to that vendor is therefore
    correlated to the dispatched request. *)
Theorem untagged_reply_after_dispatch (id : string) (ids : option (list string))
    (st st' : State) (report : SendReport) (o vid : ObjectId) (x : RFP) :
  sendRFP id ids st = (Ok report, st') ->
  castObjectId id = Some o -> rfpById o st = Some x ->
  rfp_status x <> closed ->
  In vid (sentIds report) ->
  (forall y, In y (rfps st) -> rfp_id y <> o ->
     sentTo vid y = true -> outstanding y = true ->
     key_lt (latestSentAt y) (Some (now st)) = true) ->
  exists r,
    Inbound.findRFPCallback vid st' = (Ok (Some r), st') /\ rfp_id r = o /\
    forall email v,
      subjectId email = None -> senderVendor email st' = Some v -> vendor_id v = vid ->
      correlationOf email st' = EmailService.result (Some (IdObj o)) (Some vid) (from email).
Proof.
  intros Hrun Hc Hx Hopen Hin Hearlier.
  destruct (sendRFP_ok _ _ _ Hrun) as (o0 & x0 & vs & Hc0 & Hx0 & Hvs & -> & -> & Hid & _).
  rewrite Hc in Hc0. injection Hc0 as <-. rewrite Hx in Hx0. injection Hx0 as <-.
  rewrite sentIds_reportOf in Hin.
  set (x' := mkRFP (rfp_id x) (rfp_title x) (rfp_structured_data x)
                   (statusAfterDispatch (rfp_status x))
                   (stamped (now st) (notified x vs) (rfp_vendors x))).
  set (st' := afterDispatch x vs st).
  assert (Hx' : In x' (rfps st')).
  { unfold st', afterDispatch, set_rfps. cbn [rfps].
    apply (find_In_updateFirst (fun r => N.eqb (rfp_id r) (rfp_id x))
             (fun r => mkRFP (rfp_id r) (rfp_title r) (rfp_structured_data r)
                             (statusAfterDispatch (rfp_status x))
                             (stamped (now st) (notified x vs) (rfp_vendors x)))).
    unfold rfpById in Hx. now rewrite Hid. }
  assert (Hentry : In (mkVendorEntry vid (now st)) (rfp_vendors x'))
    by (now apply stamped_new).
  assert (Hsent : sentTo vid x' = true).
  { unfold sentTo. apply existsb_exists. eexists. split; [exact Hentry |]. apply N.eqb_refl. }
  assert (Hout : outstanding x' = true).
  { unfold outstanding, x'. cbn [rfp_status].
    destruct (rfp_status x); try reflexivity. now elim Hopen. }
  assert (Hkey : key_le (Some (now st)) (latestSentAt x') = true)
    by (apply (latestSentAt_ge x' _ Hentry)).
  pose proof (firstBySentAt_max
                (filter (fun r => sentTo vid r && outstanding r) (rfps st'))) as Hmax.
  assert (Hcand : In x' (filter (fun r => sentTo vid r && outstanding r) (rfps st'))).
  { apply filter_In. split; [exact Hx' | now rewrite Hsent, Hout]. }
  destruct (firstBySentAt _) as [r |] eqn:Hr; [| rewrite Hmax in Hcand; destruct Hcand].
  destruct Hmax as [Hrin Hrmax]. apply filter_In in Hrin as [Hrin Hrok].
  apply andb_true_iff in Hrok as [Hrs Hro].
  assert (Hrid : rfp_id r = o).
  { destruct (N.eq_dec (rfp_id r) o) as [Heq | Hne]; [exact Heq |]. exfalso.
    unfold st', afterDispatch, set_rfps in Hrin. cbn [rfps] in Hrin.
    apply In_updateFirst in Hrin as [Hold | (y & Hy & Hhit & ->)].
    - pose proof (Hearlier r Hold Hne Hrs Hro) as Hlt.
      pose proof (key_le_trans _ _ _ Hkey (Hrmax x' Hcand)) as Hle.
      unfold key_le in Hle. rewrite Hlt in Hle. discriminate.
    - cbn [rfp_id] in Hne. apply N.eqb_eq in Hhit. congruence. }
  exists r. split; [| split; [exact Hrid |]].
  - unfold Inbound.findRFPCallback, RFP_findRecent, gets. now rewrite Hr.
  - intros email v Hnone Hv <-. rewrite correlationOf_explicit, Hv, Hnone.
    cbn [truthy_id]. unfold recent. rewrite Hr, Hrid. reflexivity.
Qed.

End DispatchProofs.

(* ===================================================================== *)
(** * Listing the proposals of a request                                  *)
(* ===================================================================== *)

Section ListingProofs.
Context {E : Env}.
Import Db proposalController proposalListing.

Lemma getProposalsByRFP_run id st :
  getProposalsByRFP id st =
  match castObjectId id with
  | None => (Throw (CastError "_id" id), st)
  | Some o =>
      match rfpById o st with
      | None => (Throw (NotFoundError "RFP"), st)
      | Some rfp =>
          (match listing (sortByReceivedAt (populated o st)) with
           | Ok ls => Ok (mkProposalList id (rfp_title rfp)
                            (List.length (sortByReceivedAt (populated o st))) ls)
           | Throw e => Throw e
           end, st)
      end
  end.
Proof.
  unfold getProposalsByRFP, RFP_findById, Proposal_find_populated.
  unfold bind at 1. unfold bind at 1. rewrite castId_run. cbn [castOf].
  destruct (castObjectId id) as [o |] eqn:Hcast; [| reflexivity].
  unfold gets at 1. unfold rfpById.
  destruct (find (fun r => N.eqb (rfp_id r) o) (rfps st)) as [rfp |]; [| reflexivity].
  unfold bind at 1. unfold bind at 1. rewrite castId_run. cbn [castOf]. rewrite Hcast.
  unfold gets at 1. fold (populated o st).
  unfold bind, lift, ret. destruct (listing _); reflexivity.
Qed.

Lemma insert_perm p l : Permutation (insertByReceivedAt p l) (p :: l).
Proof.
  induction l as [| q l IH]; cbn [insertByReceivedAt]; [reflexivity |].
  destruct (received_at (fst q) <? received_at (fst p))%Z; [reflexivity |].
  rewrite IH. apply perm_swap.
Qed.

Lemma sort_perm l : Permutation (sortByReceivedAt l) l.
Proof.
  induction l as [| p l IH]; [reflexivity |].
  cbn [sortByReceivedAt fold_right]. fold (sortByReceivedAt l).
  rewrite insert_perm. now constructor.
Qed.

Lemma insert_sorted p l :
  latestFirst (map (fun q => received_at (fst q)) l) ->
  latestFirst (map (fun q => received_at (fst q)) (insertByReceivedAt p l)).
Proof.
  unfold latestFirst. induction l as [| q l IH]; intros Hs.
  - cbn. repeat constructor.
  - cbn [insertByReceivedAt]. cbn [map] in Hs.
    apply StronglySorted_inv in Hs as [Hs Hall].
    destruct (Z.ltb_spec (received_at (fst q)) (received_at (fst p))) as [Hlt | Hge].
    + cbn [map]. constructor.
      * constructor; assumption.
      * constructor; [lia |]. eapply Forall_impl; [| exact Hall]. cbn. intros; lia.
    + cbn [map]. constructor; [now apply IH |].
      apply (Permutation_Forall
               (Permutation_sym
                  (Permutation_map (fun q => received_at (fst q)) (insert_perm p l)))).
      cbn [map]. constructor; [lia | exact Hall].
Qed.

Lemma sort_sorted l :
  latestFirst (map (fun q => received_at (fst q)) (sortByReceivedAt l)).
Proof.
  induction l as [| p l IH]; [constructor |].
  cbn [sortByReceivedAt fold_right]. fold (sortByReceivedAt l). now apply insert_sorted.
Qed.

Lemma listing_run l :
  match listing l with
  | Ok ls =>
      map (fun x => view_id (listed x)) ls = map (fun q => p_id (fst q)) l /\
      map (fun x => view_received_at (listed x)) ls = map (fun q => received_at (fst q)) l /\
      List.length ls = List.length l /\ existsb vendorGone l = false
  | Throw e => existsb vendorGone l = true /\ e = vendorTypeError
  end.
Proof.
  induction l as [| [p [v |]] l IH]; cbn [listing view fst snd rbind existsb vendorGone].
  - repeat split.
  - destruct (listing l) as [ls | e]; cbn [rbind orb map List.length fst].
    + destruct IH as (H1 & H2 & H3 & H4). cbn [listed view_id view_received_at].
      now rewrite H1, H2, H3.
    + exact IH.
  - split; reflexivity.
Qed.

Lemma existsb_perm {A} (f : A -> bool) l l' :
  Permutation l l' -> existsb f l = existsb f l'.
Proof.
  intros Hp. destruct (existsb f l') eqn:H'.
  - apply existsb_exists in H' as (x & Hin & Hx). apply existsb_exists.
    exists x. split; [| exact Hx]. eapply Permutation_in; [symmetry; exact Hp | exact Hin].
  - destruct (existsb f l) eqn:H; [| reflexivity].
    apply existsb_exists in H as (x & Hin & Hx).
    assert (Hc : existsb f l' = true).
    { apply existsb_exists. exists x. split; [| exact Hx].
      eapply Permutation_in; [exact Hp | exact Hin]. }
    congruence.
Qed.

(** X11. [getProposalsByRFP]. The handler never changes the state. When
    it returns, the listed records are exactly the stored records of the
    request, each once, ordered by the time they were received, latest
    first, and the count is their number. It throws in three cases only:
    the id is no ObjectId, no request has it, or some record of the
    request refers to a vendor that is no longer stored, where reading
    the vendor's id is a TypeError. *)
Theorem proposals_listed_latest_first (id : string) (st : State) :
  match getProposalsByRFP id st with
  | (Ok body, st') =>
      st' = st /\
      exists o x,
        castObjectId id = Some o /\ rfpById o st = Some x /\
        list_rfp_title body = rfp_title x /\
        Permutation (listedIds body) (recordIds o st) /\
        latestFirst (listedDates body) /\
        list_count body = List.length (list_proposals body) /\
        dangling o st = false
  | (Throw e, st') =>
      st' = st /\
      forall o x, castObjectId id = Some o -> rfpById o st = Some x ->
                  dangling o st = true /\ e = vendorTypeError
  end.
Proof.
  rewrite getProposalsByRFP_run.
  destruct (castObjectId id) as [o |]; [| split; [reflexivity | intros; discriminate]].
  destruct (rfpById o st) as [x |] eqn:Hx.
  2:{ split; [reflexivity |]. intros o' x' [= <-] Hx'. congruence. }
  pose proof (listing_run (sortByReceivedAt (populated o st))) as Hl.
  rewrite (existsb_perm vendorGone (sort_perm (populated o st))) in Hl.
  fold (dangling o st) in Hl.
  destruct (listing _) as [ls | e].
  - destruct Hl as (Hids & Hdates & Hlen & Hgone).
    split; [reflexivity |]. exists o, x. split; [reflexivity |]. split; [exact Hx |].
    split; [reflexivity |].
    unfold listedIds, listedDates. cbn [list_proposals list_count].
    rewrite Hids, Hdates, Hlen. split.
    + rewrite (Permutation_map (fun q => p_id (fst q)) (sort_perm (populated o st))).
      unfold populated, recordIds. rewrite map_map. reflexivity.
    + split; [apply sort_sorted |]. split; [reflexivity | exact Hgone].
  - split; [reflexivity |]. intros o' x' [= <-] _. exact Hl.
Qed.

Lemma views_run l :
  match views l with
  | Ok vs => existsb vendorGone l = false
  | Throw e => existsb vendorGone l = true /\ e = vendorTypeError
  end.
Proof.
  induction l as [| [p [v |]] l IH]; cbn [views view fst snd rbind existsb vendorGone].
  - reflexivity.
  - destruct (views l) as [vs | e]; cbn [rbind orb]; exact IH.
  - split; reflexivity.
Qed.

(** X12. [getComparison] only reads. Whatever the oracle answers, the
    handler leaves requests, vendors and proposals as they are and makes
    at most four completion calls. It makes none when the request has no
    proposal, and at least one when it has: a request read from the store
    has an object as its structured data, so the guard of
    [compareProposals] on it does not stand in the way. When a record of
    the request refers to a vendor that is no longer stored, the handler
    throws the TypeError of reading that vendor's id, after the oracle
    was asked. *)
Theorem comparison_is_read_only (id : string) (st : State) :
  sameDb st (snd (getComparison id st))
  /\ (calls (snd (getComparison id st)) <= calls st + 4)%nat
  /\ (forall o x, castObjectId id = Some o -> rfpById o st = Some x ->
        (populated o st = [] -> snd (getComparison id st) = st)
        /\ (populated o st <> [] ->
            (calls st < calls (snd (getComparison id st)))%nat)
        /\ (dangling o st = true ->
            fst (getComparison id st) = Throw vendorTypeError /\
            snd (getComparison id st)
              = snd (AIService.compareProposals x (populated o st) st))).
Proof.
  rewrite getComparison_run.
  destruct (castObjectId id) as [o |].
  2:{ split; [apply sameDb_refl |]. split; [cbn; lia |]. intros; discriminate. }
  destruct (rfpById o st) as [x |] eqn:Hx.
  2:{ split; [apply sameDb_refl |]. split; [cbn; lia |]. intros o' x' [= <-] Hx'.
      congruence. }
  cbv zeta.
  assert (Hcmp : populated o st <> [] ->
                 sameDb st (snd (AIService.compareProposals x (populated o st) st)) /\
                 (calls st < calls (snd (AIService.compareProposals x (populated o st) st))
                  <= calls st + 4)%nat).
  { intros Hne. unfold AIService.compareProposals. cbn [structured_data truthy negb].
    destruct (populated o st) as [| p ps]; [now elim Hne |].
    cbn [List.length Nat.eqb]. unfold bind, lift.
    pose proof (request_budget (ComparePrompt x (p :: ps)) st) as (Hc & Hdb & _).
    destruct (AIService.makeCompletionRequest _ st) as [[t | e] st1]; cbn [snd] in *;
      split; assumption. }
  destruct (Nat.eqb (List.length (populated o st)) 0) eqn:Hlen.
  - cbn [snd fst]. split; [apply sameDb_refl |]. split; [lia |].
    intros o' x' [= <-] Hx'. rewrite Hx in Hx'. injection Hx' as <-.
    split; [reflexivity |].
    destruct (populated o st) eqn:Hp; [| discriminate Hlen].
    split; [intros Hne; now elim Hne |].
    intros Hd. unfold dangling in Hd. rewrite Hp in Hd. discriminate Hd.
  - assert (Hne : populated o st <> []) by (intros Hnil; now rewrite Hnil in Hlen).
    destruct (Hcmp Hne) as [Hdb Hcalls].
    cbn [snd fst]. split; [exact Hdb |]. split; [lia |].
    intros o' x' [= <-] Hx'. rewrite Hx in Hx'. injection Hx' as <-.
    split; [intros Hnil; now elim Hne |]. split; [intros _; lia |].
    intros Hd. split; [| reflexivity].
    pose proof (views_run (populated o st)) as Hv. unfold dangling in Hd.
    destruct (views (populated o st)) as [vs | e]; [congruence |].
    destruct Hv as [_ ->]. reflexivity.
Qed.

End ListingProofs.

(* ===================================================================== *)
(** * Deleting a vendor                                                   *)
(* ===================================================================== *)

Section VendorProofs.
Context {E : Env}.
Import Db vendorController proposalController proposalListing.

Lemma removeFirst_none {A} (hit : A -> bool) l : find hit l = None -> removeFirst hit l = l.
Proof.
  induction l as [| x l IH]; cbn [find removeFirst]; [reflexivity |].
  destruct (hit x); [discriminate | intros H; now rewrite IH].
Qed.

Lemma find_removeFirst_other (l : list Vendor) o o' :
  o' <> o ->
  find (fun v => N.eqb (vendor_id v) o') (removeFirst (fun v => N.eqb (vendor_id v) o) l)
  = find (fun v => N.eqb (vendor_id v) o') l.
Proof.
  intros Hne. induction l as [| x l IH]; cbn [find removeFirst]; [reflexivity |].
  destruct (N.eqb_spec (vendor_id x) o) as [Ho | Ho].
  - destruct (N.eqb_spec (vendor_id x) o'); [congruence | reflexivity].
  - cbn [find]. destruct (N.eqb (vendor_id x) o'); [reflexivity | exact IH].
Qed.

Lemma find_removeFirst_same (l : list Vendor) o :
  NoDup (map vendor_id l) ->
  find (fun v => N.eqb (vendor_id v) o) (removeFirst (fun v => N.eqb (vendor_id v) o) l)
  = None.
Proof.
  induction l as [| x l IH]; cbn [find removeFirst map]; [reflexivity |].
  intros Hnd. apply NoDup_cons_iff in Hnd as [Hx Hnd].
  destruct (N.eqb_spec (vendor_id x) o) as [Ho | Ho].
  - destruct (find (fun v => N.eqb (vendor_id v) o) l) as [y |] eqn:Hy; [| reflexivity].
    exfalso. apply find_some in Hy as [Hin Hid]. apply N.eqb_eq in Hid.
    apply Hx. rewrite Ho, <- Hid. now apply in_map.
  - cbn [find]. destruct (N.eqb_spec (vendor_id x) o); [congruence | now apply IH].
Qed.

(** X13. [deleteVendor] removes the vendor and nothing else: the
    proposals of the vendor and the dispatch entries that name it stay.
    When the handler throws, the state is unchanged. When it returns and
    vendor ids are unique, the vendor can no longer be found, every
    request that has a proposal of the vendor has a record whose vendor is
    gone, and listing the proposals of such a request then fails with the
    TypeError of reading the vendor's id. *)
Theorem vendor_deletion_leaves_its_proposals (id : string) (st : State) :
  match deleteVendor id st with
  | (Ok v, st') =>
      castObjectId id = Some (vendor_id v) /\ In v (vendors st) /\
      rfps st' = rfps st /\ proposals st' = proposals st /\
      (forall o', o' <> vendor_id v ->
         find (fun w => N.eqb (vendor_id w) o') (vendors st')
         = find (fun w => N.eqb (vendor_id w) o') (vendors st)) /\
      (NoDup (map vendor_id (vendors st)) ->
         find (fun w => N.eqb (vendor_id w) (vendor_id v)) (vendors st') = None /\
         forall p, In p (proposals st) -> p_vendor_id p = vendor_id v ->
           dangling (p_rfp_id p) st' = true /\
           forall rid x,
             castObjectId rid = Some (p_rfp_id p) -> rfpById (p_rfp_id p) st = Some x ->
             fst (getProposalsByRFP rid st') = Throw vendorTypeError)
  | (Throw _, st') => st' = st
  end.
Proof.
  unfold deleteVendor, Vendor_findByIdAndDelete.
  unfold bind at 1. unfold bind at 1. rewrite castId_run. cbn [castOf].
  destruct (castObjectId id) as [o |]; [| reflexivity].
  destruct (find (fun v => N.eqb (vendor_id v) o) (vendors st)) as [v |] eqn:Hv.
  - cbn [ret]. pose proof (find_some _ _ Hv) as [Hin Hid]. apply N.eqb_eq in Hid.
    subst o. cbn [rfps proposals vendors].
    split; [reflexivity |]. split; [exact Hin |]. split; [reflexivity |].
    split; [reflexivity |].
    split; [intros o' Hne; now apply find_removeFirst_other |].
    intros Hnd. pose proof (@find_removeFirst_same _ (vendor_id v) Hnd) as Hgone.
    split; [exact Hgone |]. intros p Hp Hpv.
    assert (Hd : dangling (p_rfp_id p)
                   (mkState (rfps st)
                      (removeFirst (fun w => N.eqb (vendor_id w) (vendor_id v)) (vendors st))
                      (proposals st) (next_oid st) (now st) (calls st) (slept st)) = true).
    { unfold dangling, populated. cbn [vendors proposals].
      apply existsb_exists. eexists. split.
      - apply in_map. apply filter_In. split; [exact Hp | apply N.eqb_refl].
      - unfold vendorGone. cbn [snd]. rewrite Hpv, Hgone. reflexivity. }
    split; [exact Hd |]. intros rid x Hc Hx.
    rewrite getProposalsByRFP_run, Hc. unfold rfpById in *. cbn [rfps]. rewrite Hx.
    cbn [fst].
    match goal with |- context [listing ?l] => pose proof (listing_run l) as Hl end.
    rewrite (existsb_perm vendorGone (sort_perm _)) in Hl.
    unfold dangling in Hd.
    destruct (listing _) as [ls | e]; [destruct Hl as (_ & _ & _ & Hl); congruence |].
    destruct Hl as [_ ->]. reflexivity.
  - cbn [throw]. rewrite (@removeFirst_none _ _ _ Hv). destruct st; reflexivity.
Qed.

End VendorProofs.

(* ===================================================================== *)
(** * What the inbound entry points refuse, and what they do not check    *)
(* ===================================================================== *)

Section InboundEdgeProofs.
Context {E : Env}.
Import EmailService Db AIService Inbound.

Lemma complete_fields_guard email :
  negb (truthy_str (from email)) || negb (truthy_str (subject email))
    || negb (truthy_str (body email)) = negb (complete_fields email).
Proof.
  unfold complete_fields.
  destruct (truthy_str (from email)), (truthy_str (subject email)),
    (truthy_str (body email)); reflexivity.
Qed.

Lemma uncorrelated_result rid vid f :
  uncorrelated (result rid vid f) = negb (truthy_id rid && isSome vid).
Proof.
  unfold uncorrelated, result. cbn [success rfpId vendorId].
  destruct (truthy_id rid), (isSome vid); reflexivity.
Qed.

(** X14. What the two inbound entry points refuse, each time without
    changing the state. The webhook answers 400 when [from], [subject] or
    [body] is missing or empty. A mail whose sender is missing, empty or
    no stored vendor's address (the lookup takes the sender in lower
    case and without the white space around it) is not correlated,
    whatever tag its subject carries: the poller reports
    [correlation_failed], the webhook answers 400 with the partial
    correlation. The same happens to a mail without tag from a vendor
    that has no outstanding request. A tag whose digits are no ObjectId
    is not replaced by a look at the dispatch history: the database cast
    fails with the CastError of the path [rfp_id] and those digits, whose
    message the poller reports as [processing_error] and which the
    webhook passes on. *)
Theorem inbound_rejections (email : EmailData) (st : State) :
  (complete_fields email = false ->
     proposalController.receiveProposal email st
     = (Throw (ValidationError "Missing required fields: from, subject, body" NoDetails),
        st))
  /\ (senderVendor email st = None ->
      EmailPollingService.processReceivedEmail email st
      = (Ok (EmailPollingService.correlation_failed
               (result (subjectId email) None (from email))), st)
      /\ (complete_fields email = true ->
          proposalController.receiveProposal email st
          = (Throw (ValidationError "Unable to correlate email to RFP and vendor"
                      (CorrelationDetails (subjectId email) None (from email))), st)))
  /\ (forall v,
      senderVendor email st = Some v -> subjectId email = None ->
      recent (vendor_id v) (rfps st) = None ->
      EmailPollingService.processReceivedEmail email st
      = (Ok (EmailPollingService.correlation_failed
               (result None (Some (vendor_id v)) (from email))), st)
      /\ (complete_fields email = true ->
          proposalController.receiveProposal email st
          = (Throw (ValidationError "Unable to correlate email to RFP and vendor"
                      (CorrelationDetails None (Some (vendor_id v)) (from email))), st)))
  /\ (forall v s,
      senderVendor email st = Some v -> subjectId email = Some (IdStr s) ->
      castObjectId s = None ->
      EmailPollingService.processReceivedEmail email st
      = (Ok (EmailPollingService.processing_error (message (CastError "rfp_id" s))), st)
      /\ (complete_fields email = true ->
          proposalController.receiveProposal email st
          = (Throw (CastError "rfp_id" s), st))).
Proof.
  split; [| split; [| split]].
  - intros Hf. rewrite receiveProposal_run, complete_fields_guard, Hf. reflexivity.
  - intros Hv. split.
    + rewrite processReceivedEmail_run, correlationOf_explicit, Hv. cbv zeta.
      rewrite uncorrelated_result. cbn [isSome]. now rewrite andb_false_r.
    + intros Hf. rewrite receiveProposal_run, complete_fields_guard, Hf.
      cbn [negb]. rewrite correlationOf_explicit, Hv. cbv zeta.
      rewrite uncorrelated_result. cbn [isSome]. now rewrite andb_false_r.
  - intros v Hv Hs Hr. split.
    + rewrite processReceivedEmail_run, correlationOf_explicit, Hv, Hs, Hr. reflexivity.
    + intros Hf. rewrite receiveProposal_run, complete_fields_guard, Hf.
      cbn [negb]. rewrite correlationOf_explicit, Hv, Hs, Hr. reflexivity.
  - intros v s Hv Hs Hc. pose proof (subjectId_truthy _ Hs) as Ht. split.
    + rewrite processReceivedEmail_run, correlationOf_explicit, Hv, Hs, Ht. cbv zeta.
      rewrite uncorrelated_result, Ht. cbn [isSome andb negb result rfpId vendorId castOf].
      rewrite Hc. reflexivity.
    + intros Hf. rewrite receiveProposal_run, complete_fields_guard, Hf.
      cbn [negb]. rewrite correlationOf_explicit, Hv, Hs, Ht. cbv zeta.
      rewrite uncorrelated_result, Ht. cbn [isSome andb negb result rfpId vendorId castOf].
      rewrite Hc. reflexivity.
Qed.

Lemma tagged_correlation email st v s :
  senderVendor email st = Some v -> subjectId email = Some (IdStr s) ->
  correlationOf email st = result (Some (IdStr s)) (Some (vendor_id v)) (from email) /\
  uncorrelated (correlationOf email st) = false.
Proof.
  intros Hv Hs. pose proof (subjectId_truthy _ Hs) as Ht.
  rewrite correlationOf_explicit, Hv, Hs, Ht. split; [reflexivity |].
  rewrite uncorrelated_result, Ht. reflexivity.
Qed.

Lemma senderVendor_stored email st v :
  senderVendor email st = Some v ->
  exists w, find (fun w => N.eqb (vendor_id w) (vendor_id v)) (vendors st) = Some w.
Proof.
  unfold senderVendor. destruct (from email) as [addr |]; [| discriminate].
  destruct (truthy_str (Some addr)); [| discriminate].
  intros Hf. apply find_some in Hf as [Hin _].
  destruct (find (fun w => N.eqb (vendor_id w) (vendor_id v)) (vendors st)) as [w |] eqn:Hw;
    [eauto |].
  exfalso. eapply find_none in Hw; [| exact Hin]. cbn in Hw. now rewrite N.eqb_refl in Hw.
Qed.

(** X15. What a tag is not checked against. A mail from a stored vendor
    whose subject carries a tag that casts to an ObjectId is stored as a
    proposal for that id as soon as the pair has no record: neither entry
    point looks up whether a request with that id exists, nor whether the
    request was ever dispatched to the sender. When no request has the
    id, the poller stores the record and leaves the requests as they
    are. The webhook stores the record as well and answers 201 with it,
    unless the store rejects the document the parse returned: the record
    is stored then, too, and the webhook passes the error of the store
    on. *)
Theorem tag_is_not_checked_against_requests
    (email : EmailData) (st : State) (v : Vendor) (s : string) (r : ObjectId) :
  senderVendor email st = Some v ->
  subjectId email = Some (IdStr s) ->
  castObjectId s = Some r ->
  find (samePair r (vendor_id v)) (proposals st) = None ->
  fst (EmailPollingService.processReceivedEmail email st)
    = Ok (EmailPollingService.processed (next_oid st) (IdStr s) (vendor_id v))
  /\ countPair r (vendor_id v) (snd (EmailPollingService.processReceivedEmail email st))
       = 1%nat
  /\ (rfpById r st = None ->
      rfps (snd (EmailPollingService.processReceivedEmail email st)) = rfps st)
  /\ (complete_fields email = true ->
      countPair r (vendor_id v) (snd (proposalController.receiveProposal email st)) = 1%nat
      /\ match rejection (parseProposal (ArgEmail email)
                            (stored st (newDoc st r (vendor_id v) (rawOf email) (now st))))
         with
         | None =>
             exists created,
               fst (proposalController.receiveProposal email st) = Ok created /\
               p_rfp_id (proposalController.created_proposal created) = r /\
               p_vendor_id (proposalController.created_proposal created) = vendor_id v
         | Some validationError =>
             fst (proposalController.receiveProposal email st) = Throw validationError
         end).
Proof.
  intros Hv Hs Hc Hnone.
  destruct (tagged_correlation _ _ Hv Hs) as [Hcorr Hu].
  assert (Hrid : rfpId (correlationOf email st) = Some (IdStr s)) by now rewrite Hcorr.
  assert (Hvid : vendorId (correlationOf email st) = Some (vendor_id v))
    by now rewrite Hcorr.
  assert (Hcast : castOf (IdStr s) = Some r) by exact Hc.
  split; [| split; [| split]].
  - rewrite processReceivedEmail_run. cbv zeta. rewrite Hu, Hrid, Hvid, Hcast, Hnone.
    reflexivity.
  - apply (poll_first_delivery email st Hu Hrid Hvid Hcast Hnone).
  - intros Hr. rewrite processReceivedEmail_run. cbv zeta.
    rewrite Hu, Hrid, Hvid, Hcast, Hnone. cbn [snd]. unfold advanceIfSent.
    rewrite (proj1 (afterParse_fields _ _ _)). cbn [stored rfps].
    unfold rfpById in Hr. rewrite Hr.
    rewrite (proj1 (afterParse_fields _ _ _)). reflexivity.
  - intros Hf.
    assert (Hg : negb (truthy_str (from email)) || negb (truthy_str (subject email))
                 || negb (truthy_str (body email)) = false)
      by (rewrite complete_fields_guard, Hf; reflexivity).
    split; [apply (webhook_first_delivery email st Hg Hu Hrid Hvid Hcast Hnone) |].
    rewrite receiveProposal_run, Hg. cbv zeta. rewrite Hu, Hrid, Hvid, Hcast, Hnone.
    destruct (rejection _); [reflexivity |].
    cbn [fst].
    rewrite (proj1 (forceReceiving_fields _ _)).
    rewrite (proj1 (proj2 (afterParse_fields _ _ _))). cbn [stored vendors].
    destruct (outcomeUpdate_keeps
                (parseProposal (ArgEmail email)
                   (stored st (newDoc st r (vendor_id v) (rawOf email) (now st))))
                (newDoc st r (vendor_id v) (rawOf email) (now st)))
      as (_ & Hkr & Hkv & _).
    rewrite Hkv. cbn [newDoc p_vendor_id].
    destruct (senderVendor_stored _ _ Hv) as (w & Hw). rewrite Hw.
    eexists. split; [reflexivity |]. cbn [proposalController.created_proposal].
    rewrite Hkr, Hkv. split; reflexivity.
Qed.

End InboundEdgeProofs.

(* ===================================================================== *)
(** * Earlier records under a delivery                                    *)
(* ===================================================================== *)

Section PriorRecordsProofs.
Context {E : Env}.
Import EmailService Db AIService Inbound.

Lemma sameButStatus_refl l : sameButStatus l l.
Proof. reflexivity. Qed.

Lemma sameButStatus_updateFirst hit s l :
  sameButStatus l (updateFirst hit (with_status s) l).
Proof.
  unfold sameButStatus. induction l as [| x l IH]; [reflexivity |].
  cbn [updateFirst]. destruct (hit x); cbn [map]; [reflexivity | now rewrite IH].
Qed.

Lemma keepsPrior_refl email st : freshIds st -> keepsPrior email st st.
Proof.
  intros H. split; [exact H |]. split; [reflexivity |].
  split; [apply sameButStatus_refl | now left].
Qed.

(** The state after a record was stored and the parse step ran on it. *)
Lemma stored_then_parsed email arg st r vid rcv st' :
  freshIds st ->
  proposals st' = proposals (afterParse arg (newDoc st r vid (rawOf email) rcv)
                               (stored st (newDoc st r vid (rawOf email) rcv))) ->
  vendors st' = vendors st -> next_oid st' = N.succ (next_oid st) ->
  sameButStatus (rfps st) (rfps st') ->
  keepsPrior email st st'.
Proof.
  intros Hfresh Hp Hv Hn Hr.
  set (doc := newDoc st r vid (rawOf email) rcv) in *.
  destruct (afterParse_fields arg doc (stored st doc)) as (_ & _ & _ & Hps).
  rewrite Hps in Hp. cbn [stored proposals] in Hp. unfold hasId in Hp.
  rewrite updateFirst_appended in Hp by exact Hfresh.
  destruct (outcomeUpdate_keeps (parseProposal arg (stored st doc)) doc)
    as (Hid & _ & _ & Hraw & _).
  split; [| split; [exact Hv | split; [exact Hr |]]].
  - unfold freshIds. rewrite Hp, Hn. apply Forall_app. split.
    + eapply Forall_impl; [| exact Hfresh]. cbn. intros; lia.
    + repeat constructor. rewrite Hid. cbn. lia.
  - right. eexists. split; [exact Hp |]. split; [exact Hid |].
    split; [exact Hn | exact Hraw].
Qed.

(** X16. Earlier records are out of reach of a delivery. In a state where
    every stored id was generated before the next one, either entry
    point leaves every record that was there exactly as it was: it
    either changes nothing at all, or appends one record with the next
    id and the raw content of the mail, and what the parse step writes
    lands on that record alone. Vendors are never written, requests
    change in status at most, and the ids stay fresh. *)
Theorem delivery_keeps_prior_records (email : EmailData) (st : State) :
  freshIds st ->
  keepsPrior email st (snd (EmailPollingService.processReceivedEmail email st))
  /\ keepsPrior email st (snd (proposalController.receiveProposal email st)).
Proof.
  intros Hfresh. split.
  - rewrite processReceivedEmail_run. cbv zeta.
    destruct (uncorrelated _); [now apply keepsPrior_refl |].
    destruct (rfpId _) as [rid |]; [| now apply keepsPrior_refl].
    destruct (vendorId _) as [vid |]; [| now apply keepsPrior_refl].
    destruct (castOf rid) as [r |]; [| now apply keepsPrior_refl].
    destruct (find (samePair r vid) (proposals st)); [now apply keepsPrior_refl |].
    cbn [snd].
    destruct (advanceIfSent_fields r
                (afterParse (arg_of_body (body email))
                   (newDoc st r vid (rawOf email) (receivedAt email st))
                   (stored st (newDoc st r vid (rawOf email) (receivedAt email st)))))
      as (Hv & Hp & Hn).
    destruct (afterParse_fields (arg_of_body (body email))
                (newDoc st r vid (rawOf email) (receivedAt email st))
                (stored st (newDoc st r vid (rawOf email) (receivedAt email st))))
      as (Hr1 & Hv1 & Hn1 & _).
    eapply stored_then_parsed; [exact Hfresh | exact Hp | | |].
    + now rewrite Hv, Hv1.
    + now rewrite Hn, Hn1.
    + unfold advanceIfSent. rewrite Hr1. cbn [stored rfps].
      destruct (find _ (rfps st)) as [x |]; [| rewrite Hr1; apply sameButStatus_refl].
      destruct (rfp_status x); try (rewrite Hr1; apply sameButStatus_refl).
      unfold set_rfps. cbn [rfps]. rewrite Hr1. apply sameButStatus_updateFirst.
  - rewrite receiveProposal_run. cbv zeta.
    destruct (negb _ || _ || _); [now apply keepsPrior_refl |].
    destruct (uncorrelated _); [now apply keepsPrior_refl |].
    destruct (rfpId _) as [rid |]; [| now apply keepsPrior_refl].
    destruct (vendorId _) as [vid |]; [| now apply keepsPrior_refl].
    destruct (castOf rid) as [r |]; [| now apply keepsPrior_refl].
    destruct (find (samePair r vid) (proposals st)); [now apply keepsPrior_refl |].
    destruct (afterParse_fields (ArgEmail email)
                (newDoc st r vid (rawOf email) (now st))
                (stored st (newDoc st r vid (rawOf email) (now st))))
      as (Hr1 & Hv1 & Hn1 & _).
    destruct (rejection _); cbn [snd].
    { eapply stored_then_parsed; [exact Hfresh | reflexivity | exact Hv1 | exact Hn1 |].
      rewrite Hr1. apply sameButStatus_refl. }
    eapply stored_then_parsed; [exact Hfresh | reflexivity | | |].
    + unfold forceReceiving, set_rfps. cbn [vendors]. exact Hv1.
    + unfold forceReceiving, set_rfps. cbn [next_oid]. exact Hn1.
    + unfold forceReceiving, set_rfps. cbn [rfps]. rewrite Hr1.
      apply sameButStatus_updateFirst.
Qed.

End PriorRecordsProofs.

(* ===================================================================== *)
(** * The reparse script                                                  *)
(* ===================================================================== *)

Section ReparseProofs.
Context {E : Env}.
Import EmailService Db AIService Inbound reparseScript.

Lemma reparseOne_run p st :
  reparseOne p st =
  (Ok tt,
   if hasBody p
   then set_proposals (updateFirst (hasId (p_id p)) (scriptUpdate (reparseOf p st)))
                      (snd (reparseOf p st))
   else st).
Proof.
  unfold reparseOne, hasBody, reparseOf, scriptUpdate, try_catch.
  destruct (truthy_str (raw_body (raw_email_content p))); cbn [negb]; [| reflexivity].
  unfold bind at 1.
  destruct (parseProposal _ st) as [[pd | e] st1] eqn:Hp; cbn [fst snd].
  - destruct (parseProposal_ok _ _ Hp) as (fs & c & -> & _).
    unfold bind at 1. cbn [lift get_prop confidenceOf].
    unfold bind at 1. unfold gets at 1.
    unfold bind at 1. unfold new_Date, gets.
    destruct (castParsedData (calls st1) (JObj fs)) as [kept | validationError].
    + reflexivity.
    + cbn [Proposal_save_modified throw ret]. now rewrite set_proposals_same.
  - cbn [ret]. now rewrite set_proposals_same.
Qed.







Lemma markParsed_carries arg st pd st1 kept at_ x :
  parseProposal arg st = (Ok pd, st1) ->
  carries (markParsed kept (confidenceOf pd) at_ x)
          (match confidenceOf pd with Some (JNum c) => c | _ => 0%float end).
Proof.
  intros Hp. destruct (parseProposal_ok _ _ Hp) as (fs & c & -> & Hc & Hlo & Hhi & _).
  cbn [confidenceOf]. rewrite Hc. repeat split; assumption.
Qed.

Lemma markParsed_reparsed arg st pd st1 kept at_ x :
  parseProposal arg st = (Ok pd, st1) ->
  reparsedFrom x (markParsed kept (confidenceOf pd) at_ x).
Proof.
  intros Hp. split; [repeat split |]. split; [reflexivity |].
  eexists kept, _, at_. split; [reflexivity |].
  split; [eapply markParsed_carries; exact Hp | reflexivity].
Qed.








(** The state in which the poller leaves a mail it stored. *)
Lemma poller_stored email st id rid vid :
  freshIds st ->
  fst (EmailPollingService.processReceivedEmail email st)
    = Ok (EmailPollingService.processed id rid vid) ->
  exists r,
    id = next_oid st /\
    proposals (snd (EmailPollingService.processReceivedEmail email st))
    = (proposals st
       ++ [markForReview (newDoc st r vid (rawOf email) (receivedAt email st))])%list.
Proof.
  intros Hfresh. rewrite processReceivedEmail_run. cbv zeta.
  destruct (uncorrelated _); [discriminate |].
  destruct (rfpId _) as [rid' |]; [| discriminate].
  destruct (vendorId _) as [vid' |]; [| discriminate].
  destruct (castOf rid') as [r |]; [| discriminate].
  destruct (find (samePair r vid') (proposals st)); [discriminate |].
  cbn [fst snd]. intros [= <- <- <-]. exists r. split; [reflexivity |].
  rewrite (proj1 (proj2 (advanceIfSent_fields _ _))).
  rewrite afterParse_of_body. cbn [set_proposals stored proposals]. unfold hasId.
  apply updateFirst_appended. exact Hfresh.
Qed.

(** X18. The script completes what the poller leaves undone. A mail the
    poller stored, in a state with fresh ids, is a record in status
    [received] that the script selects. For it the script calls
    [parseProposal] with an email record rebuilt from the stored raw
    content, which passes the guard the poller's own call fails, as long
    as the mail had a body. When that parse returns and the store keeps
    the parsed document, the stored record becomes parsed: it holds what
    the store kept, and its confidence and review flag are those of the
    parse. When the parse throws or the store rejects the document, the
    records are left as they are, and when the mail had no body nothing
    happens at all. *)
Theorem script_parses_what_the_poller_stored
    (email : EmailData) (st : State) (id : ObjectId) (rid : IdVal) (vid : ObjectId) :
  freshIds st ->
  fst (EmailPollingService.processReceivedEmail email st)
    = Ok (EmailPollingService.processed id rid vid) ->
  exists d,
    proposalById id (snd (EmailPollingService.processReceivedEmail email st)) = Some d /\
    p_status d = received /\ needsReparsing d = true /\
    raw_email_content d = rawOf email /\
    hasBody d = truthy_str (body email) /\
    (hasBody d = false ->
       snd (reparseOne d (snd (EmailPollingService.processReceivedEmail email st)))
       = snd (EmailPollingService.processReceivedEmail email st)) /\
    (hasBody d = true ->
       let st1 := snd (EmailPollingService.processReceivedEmail email st) in
       let unchanged := proposals (snd (reparseOne d st1)) = proposals st1 in
       match reparseOf d st1 with
       | (Ok pd, st2) =>
           match castParsedData (calls st2) pd with
           | Ok kept =>
               exists d' c,
                 proposalById id (snd (reparseOne d st1)) = Some d' /\
                 reparsedFrom d d' /\ parsed_data d' = Some kept /\
                 confidenceOf pd = Some (JNum c) /\ carries d' c
           | Throw _ => unchanged
           end
       | (Throw _, _) => unchanged
       end).
Proof.
  intros Hfresh Hrun.
  destruct (@poller_stored _ _ _ _ _ Hfresh Hrun) as (r & -> & Hps).
  set (st1 := snd (EmailPollingService.processReceivedEmail email st)) in *.
  set (d := markForReview (newDoc st r vid (rawOf email) (receivedAt email st))) in *.
  exists d.
  assert (Hd : proposalById (next_oid st) st1 = Some d).
  { unfold proposalById. rewrite Hps. apply find_appended; [exact Hfresh | reflexivity]. }
  split; [exact Hd |]. split; [reflexivity |]. split; [reflexivity |].
  split; [reflexivity |]. split; [reflexivity |].
  cbv zeta. rewrite reparseOne_run. cbn [snd]. split.
  - intros Hb. now rewrite Hb.
  - intros Hb. rewrite Hb.
    pose proof (parseProposal_sameDb (ArgEmail (emailDataOf (raw_email_content d))) st1)
      as (_ & _ & Hp & _).
    unfold reparseOf, scriptUpdate.
    destruct (parseProposal _ st1) as [[pd | e] st2] eqn:Hparse; cbn [fst snd] in *.
    + destruct (castParsedData (calls st2) pd) as [kept | validationError] eqn:Hk.
      * destruct (parseProposal_ok _ _ Hparse) as (fs & c & -> & Hc & _).
        exists (markParsed kept (confidenceOf (JObj fs)) (now st2) d), c.
        split; [| split; [eapply markParsed_reparsed; exact Hparse |]].
        -- unfold proposalById, set_proposals. cbn [proposals]. rewrite Hp, Hps.
           unfold hasId. rewrite updateFirst_appended by exact Hfresh.
           apply find_appended; [exact Hfresh | reflexivity].
        -- split; [reflexivity |]. split; [exact Hc |].
           pose proof (@markParsed_carries _ _ _ _ kept (now st2) d Hparse) as Hcar.
           cbn [confidenceOf] in Hcar. rewrite Hc in Hcar.
           cbn [confidenceOf]. rewrite Hc. exact Hcar.
      * cbn [set_proposals proposals]. now rewrite updateFirst_same.
    + cbn [set_proposals proposals]. now rewrite updateFirst_same.
Qed.

End ReparseProofs.

(* ===================================================================== *)
(** * From dispatch to the stored reply                                   *)
(* ===================================================================== *)

Section RoundTripProofs.
Context {E : Env} {Mlr : Mailer}.
Import EmailService Db AIService Inbound EmailSending rfpController Text.

(** X19. Dispatch, reply, record. Take a request that [sendRFP] just
    dispatched, and a mail whose subject contains the dispatched subject
    (a reply keeps it after "Re: "), sent from the address of a stored
    vendor, when the driver's cast reads the 24 hex digits back as the id
    and neither the title nor the text before it holds a tag of its own.
    Then the poller stores the mail as the one record of the request and
    that vendor, and the request, which the dispatch had moved from
    [draft] to [sent] if it was a draft, is now [receiving_proposals],
    unless it was closed, in which case it stays closed. Its dispatch
    entries are those the dispatch left. *)
Theorem dispatched_request_collects_its_reply
    (id : string) (ids : option (list string)) (st st' : State) (report : SendReport)
    (o : ObjectId) (x : RFP) (email : EmailData) (v : Vendor) (before after : string) :
  sendRFP id ids st = (Ok report, st') ->
  castObjectId id = Some o -> rfpById o st = Some x ->
  castObjectId (toHexString o) = Some o ->
  subject email = Some (before ++ subjectFor x ++ after) ->
  matchRfpId (before ++ "Request for Proposal - " ++ rfp_title x) = None ->
  senderVendor email st = Some v ->
  find (samePair o (vendor_id v)) (proposals st) = None ->
  fst (EmailPollingService.processReceivedEmail email st')
    = Ok (EmailPollingService.processed (next_oid st) (IdStr (toHexString o)) (vendor_id v))
  /\ countPair o (vendor_id v) (snd (EmailPollingService.processReceivedEmail email st'))
       = 1%nat
  /\ exists x' x'',
       rfpById o st' = Some x' /\
       rfpById o (snd (EmailPollingService.processReceivedEmail email st')) = Some x'' /\
       rfp_status x'' = match rfp_status x with
                        | closed => closed
                        | _ => receiving_proposals
                        end /\
       rfp_vendors x'' = rfp_vendors x'.
Proof.
  intros Hrun Hc Hx Hhex Hsubj Htitle Hv Hnone.
  destruct (sendRFP_ok _ _ _ Hrun) as (o0 & x0 & vs & Hc0 & Hx0 & Hvs & -> & -> & Hid & Hx').
  rewrite Hc in Hc0. injection Hc0 as <-. rewrite Hx in Hx0. injection Hx0 as <-.
  subst o.
  set (o := rfp_id x) in *.
  set (st' := afterDispatch x vs st) in *.
  assert (Hs : subjectId email = Some (IdStr (toHexString o))).
  { unfold subjectId. rewrite Hsubj, subjectFor_match, Htitle. reflexivity. }
  assert (Hv' : senderVendor email st' = Some v) by exact Hv.
  assert (Hnone' : find (samePair o (vendor_id v)) (proposals st') = None) by exact Hnone.
  destruct (tagged_correlation _ _ Hv' Hs) as [Hcorr Hu].
  assert (Hrid : rfpId (correlationOf email st') = Some (IdStr (toHexString o)))
    by now rewrite Hcorr.
  assert (Hvid : vendorId (correlationOf email st') = Some (vendor_id v))
    by now rewrite Hcorr.
  assert (Hcast : castOf (IdStr (toHexString o)) = Some o) by exact Hhex.
  split; [| split].
  - rewrite processReceivedEmail_run. cbv zeta. rewrite Hu, Hrid, Hvid, Hcast, Hnone'.
    reflexivity.
  - apply (poll_first_delivery email st' Hu Hrid Hvid Hcast Hnone').
  - eexists.
    exists (with_status (match rfp_status x with
                         | closed => closed
                         | _ => receiving_proposals
                         end)
              (mkRFP (rfp_id x) (rfp_title x) (rfp_structured_data x)
                     (statusAfterDispatch (rfp_status x))
                     (stamped (now st) (notified x vs) (rfp_vendors x)))).
    split; [exact Hx' |].
    split; [| split; reflexivity].
    rewrite processReceivedEmail_run. cbv zeta. rewrite Hu, Hrid, Hvid, Hcast, Hnone'.
    cbn [snd]. unfold advanceIfSent. rewrite (proj1 (afterParse_fields _ _ _)).
    cbn [stored rfps]. unfold rfpById in Hx'. rewrite Hx'. cbn [rfp_status rfp_id].
    destruct (rfp_status x) eqn:Hst; cbn [statusAfterDispatch].
    1,2: unfold rfpById, set_rfps; cbn [rfps];
         rewrite (proj1 (afterParse_fields _ _ _)); cbn [stored rfps];
         rewrite find_updateFirst_status, N.eqb_refl, Hx'; reflexivity.
    all: unfold rfpById; rewrite (proj1 (afterParse_fields _ _ _)); cbn [stored rfps];
         rewrite Hx'; reflexivity.
Qed.

End RoundTripProofs.

(* ===================================================================== *)
(** * The review flag of parsed records                                   *)
(* ===================================================================== *)

Section FlagProofs.
Context {E : Env} {Mlr : Mailer}.
Import EmailService Db AIService Inbound reparseScript.







End FlagProofs.

(* ===================================================================== *)
(** * The detail view of a request                                        *)
(* ===================================================================== *)

Section DetailProofs.
Context {E : Env} {Mlr : Mailer}.
Import Db rfpDetails proposalListing.

Lemma getRFPById_run id st :
  getRFPById id st =
  match castObjectId id with
  | None => (Throw (CastError "_id" id), st)
  | Some o =>
      match rfpById o st with
      | None => (Throw (NotFoundError "RFP"), st)
      | Some rfp =>
          (Ok (mkDetail (rfp_id rfp) (rfp_title rfp) (structured_data rfp)
                        (rfp_status rfp)
                        (map (dispatchView (vendors st)) (rfp_vendors rfp))
                        (List.length (filter (fun p => N.eqb (p_rfp_id p) (rfp_id rfp))
                                             (proposals st)))), st)
      end
  end.
Proof.
  unfold getRFPById, RFP_findById.
  unfold bind at 1. unfold bind at 1. rewrite castId_run. cbn [castOf].
  destruct (castObjectId id) as [o |]; [| reflexivity].
  unfold gets at 1. unfold rfpById.
  destruct (find (fun r => N.eqb (rfp_id r) o) (rfps st)) as [rfp |]; reflexivity.
Qed.

(** X21. [getRFPById]. The handler never changes the state and throws
    only when the id is no ObjectId or names no request. Its body shows
    one element for every dispatch entry, in order, with the entry's
    time; the element names the vendor when the vendor is stored, and
    has no vendor id, name or address when the vendor is gone, which
    does not make the handler fail. The proposal count is the number of
    stored records of the request, and so equals the count
    [getProposalsByRFP] reports whenever that handler returns. After a
    dispatch returned, the detail view shows the status and the number
    of entries the dispatch reported. *)
Theorem request_detail_view (id : string) (st : State) :
  match getRFPById id st with
  | (Ok body, st') =>
      st' = st /\
      exists o x,
        castObjectId id = Some o /\ rfpById o st = Some x /\
        detail_status body = rfp_status x /\
        map dv_sent_at (detail_vendors body) = map ve_sent_at (rfp_vendors x) /\
        map dv_vendor_id (detail_vendors body)
          = map (fun e => option_map vendor_id
                            (find (fun w => N.eqb (vendor_id w) (ve_vendor_id e))
                                  (vendors st)))
                (rfp_vendors x) /\
        detail_proposal_count body = List.length (recordIds o st) /\
        (forall listed, fst (getProposalsByRFP id st) = Ok listed ->
                        list_count listed = detail_proposal_count body)
  | (Throw _, st') =>
      st' = st /\ (castObjectId id = None \/
                   exists o, castObjectId id = Some o /\ rfpById o st = None)
  end
  /\ (forall ids report st1,
        rfpController.sendRFP id ids st = (Ok report, st1) ->
        exists body,
          getRFPById id st1 = (Ok body, st1) /\
          detail_status body = rfpController.rep_status report /\
          List.length (detail_vendors body) = rfpController.vendors_count report).
Proof.
  split.
  - rewrite getRFPById_run.
    destruct (castObjectId id) as [o |] eqn:Hc; [| split; [reflexivity | now left]].
    destruct (rfpById o st) as [x |] eqn:Hx.
    2:{ split; [reflexivity |]. right. exists o. split; [reflexivity | exact Hx]. }
    pose proof (find_some _ _ Hx) as [_ Hid]. apply N.eqb_eq in Hid.
    split; [reflexivity |]. exists o, x.
    cbn [detail_status detail_vendors detail_proposal_count].
    split; [reflexivity |]. split; [exact Hx |]. split; [reflexivity |].
    rewrite !map_map. cbn [dispatchView dv_sent_at dv_vendor_id].
    split; [reflexivity |]. split; [reflexivity |].
    unfold recordIds. rewrite length_map, Hid. split; [reflexivity |].
    intros listed. rewrite getProposalsByRFP_run, Hc, Hx. cbn [fst].
    destruct (listing _) as [ls | e]; [| discriminate].
    intros [= <-]. cbn [list_count].
    rewrite (Permutation_length (sort_perm (populated o st))).
    unfold populated. now rewrite length_map.
  - intros ids report st1 Hrun.
    destruct (sendRFP_ok _ _ _ Hrun) as (o & x & vs & Hc & Hx & _ & -> & -> & Hid & Hx').
    rewrite getRFPById_run, Hc. unfold rfpById in Hx'. unfold rfpById. rewrite Hx'.
    eexists. split; [reflexivity |].
    cbn [detail_status detail_vendors rfp_status rfp_vendors].
    split; [reflexivity |]. rewrite length_map. reflexivity.
Qed.

End DetailProofs.

(* ===================================================================== *)
(** * Creating a vendor                                                   *)
(* ===================================================================== *)

Section VendorCreationProofs.
Context {E : Env} {Mlr : Mailer}.
Import Db EmailSending vendorController Text.

Lemma lowerAscii_idem c : lowerAscii (lowerAscii c) = lowerAscii c.
Proof. destruct c as [[] [] [] [] [] [] [] []]; reflexivity. Qed.

Lemma toLowerCase_idem s : toLowerCase (toLowerCase s) = toLowerCase s.
Proof.
  induction s as [| c s IH]; [reflexivity |].
  cbn [toLowerCase]. now rewrite lowerAscii_idem, IH.
Qed.

Lemma isWhiteSpace_lower c : Text.isWhiteSpace (lowerAscii c) = Text.isWhiteSpace c.
Proof. destruct c as [[] [] [] [] [] [] [] []]; reflexivity. Qed.

Lemma trimStart_lower s : trimStart (toLowerCase s) = toLowerCase (trimStart s).
Proof.
  induction s as [| c s IH]; [reflexivity |].
  cbn [toLowerCase trimStart]. rewrite isWhiteSpace_lower.
  destruct (Text.isWhiteSpace c); [exact IH | reflexivity].
Qed.

Lemma trimEnd_lower s : trimEnd (toLowerCase s) = toLowerCase (trimEnd s).
Proof.
  induction s as [| c s IH]; [reflexivity |].
  cbn [toLowerCase trimEnd]. rewrite IH, isWhiteSpace_lower.
  destruct (trimEnd s); cbn [toLowerCase]; [| reflexivity].
  destruct (Text.isWhiteSpace c); reflexivity.
Qed.

Lemma trimEnd_cons c u :
  trimEnd (String c u) =
  match trimEnd u with
  | EmptyString => if Text.isWhiteSpace c then EmptyString else String c EmptyString
  | t => String c t
  end.
Proof. reflexivity. Qed.

Lemma trimEnd_idem s : trimEnd (trimEnd s) = trimEnd s.
Proof.
  induction s as [| c s IH]; [reflexivity |].
  rewrite (trimEnd_cons c s). destruct (trimEnd s) as [| d t].
  - destruct (Text.isWhiteSpace c) eqn:Hc; [reflexivity |].
    rewrite trimEnd_cons. cbn [trimEnd]. now rewrite Hc.
  - rewrite trimEnd_cons, IH. reflexivity.
Qed.

Lemma trimStart_noLeadingSpace s : noLeadingSpace (trimStart s) = true.
Proof.
  induction s as [| c s IH]; [reflexivity |].
  cbn [trimStart]. destruct (Text.isWhiteSpace c) eqn:Hc; [exact IH |].
  cbn [noLeadingSpace]. now rewrite Hc.
Qed.

Lemma trimStart_fixed s : noLeadingSpace s = true -> trimStart s = s.
Proof.
  destruct s as [| c s]; [reflexivity |]. cbn [noLeadingSpace trimStart].
  now destruct (Text.isWhiteSpace c).
Qed.

Lemma trimEnd_head s : noLeadingSpace s = true -> noLeadingSpace (trimEnd s) = true.
Proof.
  destruct s as [| c s]; [reflexivity |]. cbn [noLeadingSpace].
  intros Hc. rewrite trimEnd_cons. destruct (trimEnd s); [| exact Hc].
  apply negb_true_iff in Hc. rewrite Hc. cbn [noLeadingSpace]. now rewrite Hc.
Qed.

Lemma trim_idem s : trim (trim s) = trim s.
Proof.
  unfold trim.
  rewrite (@trimStart_fixed _ (@trimEnd_head _ (trimStart_noLeadingSpace s))).
  apply trimEnd_idem.
Qed.

Lemma trim_lower s : trim (toLowerCase s) = toLowerCase (trim s).
Proof. unfold trim. now rewrite trimStart_lower, trimEnd_lower. Qed.

(** The setters of [email] change nothing in what they made. *)
Lemma setEmail_idem s : setEmail (setEmail s) = setEmail s.
Proof. unfold setEmail. now rewrite trim_lower, trim_idem, toLowerCase_idem. Qed.

Lemma setEmail_lower s : setEmail (toLowerCase s) = setEmail s.
Proof. unfold setEmail. now rewrite trim_lower, toLowerCase_idem. Qed.

Lemma find_app_last {A} (f : A -> bool) l x :
  existsb f l = false -> f x = true -> find f (l ++ [x]) = Some x.
Proof.
  intros Hl Hx. induction l as [| y l IH]; cbn [app find existsb] in *.
  - now rewrite Hx.
  - apply orb_false_iff in Hl as [Hy Hl]. rewrite Hy. now apply IH.
Qed.

Lemma createVendor_run name email st :
  createVendor name email st =
  match name, email with
  | Some n, Some e =>
      if negb (truthy_str name) || negb (truthy_str email)
      then (Throw (ValidationError "Missing required fields" NoDetails), st)
      else
        match find (fun v => String.eqb (vendor_email v) (setEmail (toLowerCase e)))
                   (vendors st) with
        | Some _ =>
            (Throw (DuplicateError "Vendor with this email already exists" NoDetails), st)
        | None =>
            let v := mkVendor (next_oid st) (setName n) (setEmail e) in
            let st1 := mkState (rfps st) (vendors st) (proposals st) (N.succ (next_oid st))
                               (now st) (calls st) (slept st) in
            if negb (validVendor v) then (Throw validationFailed, st1)
            else if existsb (fun w => String.eqb (vendor_email w) (vendor_email v))
                            (vendors st)
            then (Throw duplicateKey, st1)
            else (Ok v,
                  mkState (rfps st) (vendors st ++ [v])%list (proposals st)
                          (N.succ (next_oid st)) (now st) (calls st) (slept st))
        end
  | _, _ => (Throw (ValidationError "Missing required fields" NoDetails), st)
  end.
Proof.
  unfold createVendor. destruct name as [n |]; [| reflexivity].
  destruct email as [e |]; [| reflexivity].
  destruct (negb (truthy_str (Some n)) || negb (truthy_str (Some e))); [reflexivity |].
  unfold bind at 1, Vendor_findOne, gets.
  destruct (find _ (vendors st)); [reflexivity |].
  unfold bind at 1, new_Vendor. unfold bind, Vendor_save. cbv zeta.
  cbn [rfps vendors proposals next_oid now calls slept].
  destruct (negb (validVendor _)); [reflexivity |].
  destruct (existsb _ (vendors st)); reflexivity.
Qed.

(** X23. [createVendor] with the setters and validators of the Vendor
    schema. A failed creation leaves requests, vendors and proposals as
    they were. A vendor that is created is appended with the next id,
    its name trimmed and its address trimmed and lower-cased; the
    address passes [validateEmail]. So a mail to it can only fail in the
    transport or in the rendering of the body, never as an invalid
    recipient, and a mail whose sender is that address in any
    capitalisation resolves to the new vendor. If before every stored
    vendor had a well-formed lower-case address and no two shared one,
    the same holds afterwards. *)
Theorem created_vendor_is_reachable (name email : option string) (st : State) :
  match createVendor name email st with
  | (Ok v, st') =>
      exists n e,
        name = Some n /\ email = Some e /\
        v = mkVendor (next_oid st) (trim n) (toLowerCase (trim e)) /\
        vendors st' = (vendors st ++ [v])%list /\
        rfps st' = rfps st /\ proposals st' = proposals st /\
        mailable v /\
        (addressBook st -> addressBook st') /\
        (forall mail addr,
           from mail = Some addr -> toLowerCase addr = vendor_email v ->
           senderVendor mail st' = Some v) /\
        (forall rfp,
           deliveryTo rfp v =
           let* emailBody := formatRFPForEmail rfp in
           sendMail (mkMailOptions EMAIL_USER (vendor_email v) (subjectFor rfp) emailBody))
  | (Throw _, st') =>
      rfps st' = rfps st /\ vendors st' = vendors st /\ proposals st' = proposals st
  end.
Proof.
  rewrite createVendor_run.
  destruct name as [n |]; [| repeat split].
  destruct email as [e |]; [| repeat split].
  destruct (negb (truthy_str (Some n)) || negb (truthy_str (Some e))); [repeat split |].
  destruct (find _ (vendors st)); [repeat split |].
  cbv zeta. destruct (validVendor _) eqn:Hvalid; cbn [negb]; [| repeat split].
  destruct (existsb _ (vendors st)) eqn:Hex; [repeat split |].
  unfold validVendor in Hvalid. cbn [vendor_name vendor_email] in Hvalid, Hex.
  apply andb_true_iff in Hvalid as [Hvalid Hmail].
  set (v := mkVendor (next_oid st) (setName n) (setEmail e)) in *.
  assert (Hm : mailable v).
  { split; [exact Hmail |]. unfold v, setEmail. cbn [vendor_email]. apply toLowerCase_idem. }
  exists n, e. split; [reflexivity |]. split; [reflexivity |]. split; [reflexivity |].
  cbn [rfps vendors proposals]. split; [reflexivity |]. split; [reflexivity |].
  split; [reflexivity |]. split; [exact Hm |]. split; [| split].
  - unfold addressBook. cbn [vendors]. intros [Hall Hnd]. split.
    + apply Forall_app. split; [exact Hall | apply Forall_cons; [exact Hm | apply Forall_nil]].
    + rewrite map_app. apply NoDup_app; [exact Hnd | apply NoDup_cons; [intros [] | apply NoDup_nil] |].
      intros a Ha [<- | []]. apply in_map_iff in Ha as (w & Hw & Hin).
      assert (Hc : existsb (fun w => String.eqb (vendor_email w) (setEmail e)) (vendors st)
                   = true).
      { apply existsb_exists. exists w. split; [exact Hin |]. apply String.eqb_eq. exact Hw. }
      congruence.
  - intros mail addr Hfrom Haddr. unfold senderVendor. rewrite Hfrom.
    assert (Hne : truthy_str (Some addr) = true).
    { destruct addr; [| reflexivity]. cbn in Haddr.
      rewrite <- Haddr in Hmail.
      discriminate Hmail. }
    rewrite Hne. cbn [vendors]. rewrite Haddr.
    replace (setEmail (vendor_email v)) with (vendor_email v)
      by (unfold v; cbn [vendor_email]; now rewrite setEmail_idem).
    apply find_app_last.
    + exact Hex.
    + apply String.eqb_refl.
  - intros rfp. unfold deliveryTo. destruct Hm as [-> _]. reflexivity.
Qed.

End VendorCreationProofs.

(* ===================================================================== *)
(** * Starting and stopping the polling                                   *)
(* ===================================================================== *)

Section PollingProofs.
Import Polling.

Lemma oneTimer_call s c : oneTimer s -> oneTimer (call s c).
Proof.
  intros (Hsync & Hfresh & Htimer).
  destruct s as [running [polling interval] ts next fs]. cbn in *.
  subst polling. destruct c as [m |]; cbn [call].
  - unfold start. cbn [isRunning]. destruct running.
    { split; [reflexivity |]. split; assumption. }
    destruct interval as [h |]; [destruct Htimer as [Hr _]; discriminate Hr |].
    destruct Htimer as [_ ->].
    unfold startEmailPolling, set_isRunning. cbn.
    split; [reflexivity |]. split; [| split; [reflexivity | eexists; reflexivity]].
    intros t [<- | []]. cbn. lia.
  - unfold stop. cbn [isRunning negb]. destruct running.
    2:{ split; [reflexivity |]. split; assumption. }
    destruct interval as [h |]; [| destruct Htimer as [Hr _]; discriminate Hr].
    destruct Htimer as [_ [ms ->]].
    unfold stopEmailPolling, set_isRunning. cbn. rewrite Nat.eqb_refl. cbn.
    split; [reflexivity |]. split; [intros t [] | split; reflexivity].
Qed.

(** X22. Starting and stopping the polling. After any sequence of
    [start] and [stop] calls on a freshly built polling service, the
    flag of the polling service and the flag of its EmailService agree,
    and there is exactly one active interval timer while the service
    runs, the one whose handle it holds, and none while it is stopped:
    timers are never leaked or stacked. A [start] while running and a
    [stop] while stopped change nothing, so the interval of a second
    [start] is ignored. A [start] from the stopped state calls
    [setInterval] once, with the delay [intervalMinutes * 60 * 1000], and
    the next [stop] clears that timer; the statement is about the delay
    handed to [setInterval], not about the period the runtime makes of
    it. *)
Theorem polling_has_one_timer (ops : list Call) :
  let s := fold_left call ops initial in
  oneTimer s
  /\ (forall m, isRunning s = true -> start m s = s)
  /\ (isRunning s = false -> stop s = s)
  /\ (forall m, isRunning s = false ->
        timers (start m s) = [(next_handle s, (m * 60 * 1000)%float)] /\
        timers (stop (start m s)) = []).
Proof.
  cbv zeta.
  assert (Hinv : oneTimer (fold_left call ops initial)).
  { assert (H0 : oneTimer initial) by (repeat split; intros t []).
    revert H0. generalize initial. induction ops as [| c l IH]; intros s Hs; [exact Hs |].
    cbn [fold_left]. apply IH. now apply oneTimer_call. }
  split; [exact Hinv |].
  destruct (fold_left call ops initial) as [running [polling interval] ts next fs].
  destruct Hinv as (Hsync & _ & Htimer). cbn in *. subst polling.
  split; [| split].
  - intros m ->. reflexivity.
  - intros ->. reflexivity.
  - intros m ->. destruct interval as [h |]; [destruct Htimer as [Hr _]; discriminate Hr |].
    destruct Htimer as [_ ->]. unfold start, stop, startEmailPolling, stopEmailPolling,
      set_isRunning. cbn. rewrite Nat.eqb_refl. split; reflexivity.
Qed.

End PollingProofs.

(* ===================================================================== *)
(** * The further theorems at concrete inputs                             *)
(* ===================================================================== *)

(** R1, a draft, is dispatched to V1, V2 and V3. The transport refuses
    V2 and the address of V3 is malformed: the entry of V2 from an
    earlier dispatch is kept, V1 gets an entry stamped with the time of
    the call, and V3 gets none. *)
Lemma dispatch_is_recorded_witness :
  let E := Fixtures.scripted [] in
  let Mlr := Samples.office ["v2@y.org"] in
  rfpController.sendRFP Samples.idR1 (Some [Samples.idV1; Samples.idV2; Samples.idV3])
                        Samples.catalog
    = (Ok Samples.report, Samples.dispatched) /\
  rfpById Fixtures.R1 Samples.dispatched = Some Samples.sentR1 /\
  In (mkVendorEntry Fixtures.V1 5000%Z) (rfp_vendors Samples.sentR1) /\
  In (mkVendorEntry Fixtures.V2 100%Z) (rfp_vendors Samples.sentR1).
Proof.
  cbv zeta. split; [reflexivity |]. split; [reflexivity |].
  destruct (@dispatch_is_recorded (Fixtures.scripted []) (Samples.office ["v2@y.org"])
              Samples.idR1 (Some [Samples.idV1; Samples.idV2; Samples.idV3])
              Samples.catalog Samples.dispatched Samples.report eq_refl)
    as (o & x & x' & Ho & Hx & Hx' & _ & _ & _ & Hnew & _ & Hkeep & _).
  injection Ho as <-. injection Hx as <-. injection Hx' as <-.
  split.
  - apply (Hnew Fixtures.V1). now left.
  - apply Hkeep; [now left |]. cbn. intros [H | []]. discriminate H.
Defined.

(** After that dispatch, a mail of V1 without a tag is correlated to R1,
    although R2 went out to V1 as well, earlier. *)
Lemma untagged_reply_after_dispatch_witness :
  let E := Fixtures.scripted [] in
  let Mlr := Samples.office ["v2@y.org"] in
  rfpController.sendRFP Samples.idR1 (Some [Samples.idV1; Samples.idV2; Samples.idV3])
                        Samples.catalog
    = (Ok Samples.report, Samples.dispatched) /\
  rfpById Fixtures.R1 Samples.catalog = Some Samples.draftR1 /\
  In Fixtures.V1 (sentIds Samples.report) /\
  correlationOf Fixtures.untaggedEmail Samples.dispatched
    = EmailService.result (Some (IdObj Fixtures.R1)) (Some Fixtures.V1) (Some "V1@X.com").
Proof.
  cbv zeta. split; [reflexivity |]. split; [reflexivity |]. split; [now left |].
  destruct (@untagged_reply_after_dispatch (Fixtures.scripted [])
              (Samples.office ["v2@y.org"])
              Samples.idR1 (Some [Samples.idV1; Samples.idV2; Samples.idV3])
              Samples.catalog Samples.dispatched Samples.report
              Fixtures.R1 Fixtures.V1 Samples.draftR1 eq_refl eq_refl eq_refl)
    as (r & _ & _ & Hcorr).
  - discriminate.
  - now left.
  - intros y [<- | [<- | []]] Hne _ _; [now elim Hne | reflexivity].
  - apply (Hcorr Fixtures.untaggedEmail Fixtures.vendorV1); reflexivity.
Defined.

(** A tagged mail of V1 delivered to a database that holds no request at
    all: the poller stores it for the id of the tag. *)
Lemma tag_is_not_checked_against_requests_witness :
  let E := Fixtures.scripted [] in
  let st := Samples.noRequests in
  let email := Fixtures.taggedEmail in
  senderVendor email st = Some Fixtures.vendorV1 /\
  subjectId email = Some (IdStr Samples.idR1) /\
  rfpById Fixtures.R1 st = None /\
  fst (EmailPollingService.processReceivedEmail email st)
    = Ok (EmailPollingService.processed 1000%N (IdStr Samples.idR1) Fixtures.V1) /\
  countPair Fixtures.R1 Fixtures.V1
            (snd (EmailPollingService.processReceivedEmail email st)) = 1%nat.
Proof.
  cbv zeta. split; [reflexivity |]. split; [reflexivity |]. split; [reflexivity |].
  destruct (@tag_is_not_checked_against_requests (Fixtures.scripted [])
              Fixtures.taggedEmail Samples.noRequests Fixtures.vendorV1
              Samples.idR1 Fixtures.R1 eq_refl eq_refl eq_refl eq_refl)
    as (Hrun & Hcount & _).
  split; [exact Hrun | exact Hcount].
Defined.

(** The reply of V1 delivered to a database that already holds a parsed
    record of V2: that record stays, the new one comes after it. *)
Lemma delivery_keeps_prior_records_witness :
  let E := Fixtures.scripted [Content "proposal at 0.7"] in
  let st := Fixtures.db sent [Samples.earlier] in
  freshIds st /\
  keepsPrior Fixtures.taggedEmail st
    (snd (EmailPollingService.processReceivedEmail Fixtures.taggedEmail st)) /\
  keepsPrior Fixtures.taggedEmail st
    (snd (proposalController.receiveProposal Fixtures.taggedEmail st)) /\
  nth_error (proposals (snd (proposalController.receiveProposal Fixtures.taggedEmail st))) 0
    = Some Samples.earlier.
Proof.
  cbv zeta.
  assert (H : freshIds (Fixtures.db sent [Samples.earlier]))
    by (repeat constructor).
  split; [exact H |].
  destruct (@delivery_keeps_prior_records (Fixtures.scripted [Content "proposal at 0.7"])
              Fixtures.taggedEmail (Fixtures.db sent [Samples.earlier]) H) as [Hp Hw].
  split; [exact Hp |]. split; [exact Hw |]. reflexivity.
Defined.

(** The poller stores the reply of V1 unparsed; the script then parses it,
    here with a confidence of 0.5, which flags it for review. *)
Lemma script_parses_what_the_poller_stored_witness :
  let E := Fixtures.scripted [Content "proposal at 0.5"] in
  let st := Fixtures.db sent [] in
  let email := Fixtures.taggedEmail in
  let st1 := snd (EmailPollingService.processReceivedEmail email st) in
  freshIds st /\
  fst (EmailPollingService.processReceivedEmail email st)
    = Ok (EmailPollingService.processed 1000%N (IdStr Samples.idR1) Fixtures.V1) /\
  exists d d',
    proposalById 1000%N st1 = Some d /\ p_status d = received /\
    proposalById 1000%N (snd (reparseScript.reparseOne d st1)) = Some d' /\
    p_status d' = parsed /\ requires_review d' = true.
Proof.
  cbv zeta. split; [constructor |]. split; [reflexivity |].
  destruct (@script_parses_what_the_poller_stored
              (Fixtures.scripted [Content "proposal at 0.5"])
              Fixtures.taggedEmail (Fixtures.db sent []) 1000%N
              (IdStr Samples.idR1) Fixtures.V1 (Forall_nil _) eq_refl)
    as (d & Hd & Hs & _ & _ & _ & _ & Hparse).
  exists d.
  assert (Hd0 : Some d = proposalById 1000%N
                  (snd (@EmailPollingService.processReceivedEmail
                          (Fixtures.scripted [Content "proposal at 0.5"])
                          Fixtures.taggedEmail (Fixtures.db sent []))))
    by (symmetry; exact Hd).
  injection Hd0 as ->.
  specialize (Hparse eq_refl). cbv zeta in Hparse. cbn in Hparse.
  destruct Hparse as (d' & c & Hd' & (_ & Hs' & _) & _ & Hc & (_ & _ & _ & Hr)).
  exists d'. split; [reflexivity |]. split; [reflexivity |].
  split; [exact Hd' |]. split; [exact Hs' |].
  injection Hc as <-. rewrite Hr. reflexivity.
Defined.

(** The whole way: R1 is dispatched as a draft, V1 replies with the
    dispatched subject after "Re: ", and the poller stores the reply;
    R1 is then in status receiving_proposals. *)
Lemma dispatched_request_collects_its_reply_witness :
  let E := Fixtures.scripted [] in
  let Mlr := Samples.office ["v2@y.org"] in
  let st1 := snd (EmailPollingService.processReceivedEmail Samples.reply
                    Samples.dispatched) in
  rfpController.sendRFP Samples.idR1 (Some [Samples.idV1; Samples.idV2; Samples.idV3])
                        Samples.catalog
    = (Ok Samples.report, Samples.dispatched) /\
  castObjectId (Text.toHexString Fixtures.R1) = Some Fixtures.R1 /\
  subject Samples.reply
    = Some ("Re: " ++ EmailSending.subjectFor Samples.draftR1 ++ "") /\
  fst (EmailPollingService.processReceivedEmail Samples.reply Samples.dispatched)
    = Ok (EmailPollingService.processed 1000%N (IdStr Samples.idR1) Fixtures.V1) /\
  countPair Fixtures.R1 Fixtures.V1 st1 = 1%nat /\
  option_map rfp_status (rfpById Fixtures.R1 st1) = Some receiving_proposals.
Proof.
  cbv zeta. split; [reflexivity |]. split; [reflexivity |]. split; [reflexivity |].
  destruct (@dispatched_request_collects_its_reply (Fixtures.scripted [])
              (Samples.office ["v2@y.org"])
              Samples.idR1 (Some [Samples.idV1; Samples.idV2; Samples.idV3])
              Samples.catalog Samples.dispatched Samples.report
              Fixtures.R1 Samples.draftR1 Samples.reply Fixtures.vendorV1 "Re: " ""
              eq_refl eq_refl eq_refl eq_refl eq_refl eq_refl eq_refl eq_refl)
    as (Hrun & Hcount & x' & x'' & _ & Hx'' & Hs & _).
  split; [exact Hrun |]. split; [exact Hcount |].
  rewrite Hx''. cbn [option_map]. rewrite Hs. reflexivity.
Defined.


(** A padded name and a capitalised address are stored trimmed and in
    lower case; the same address again, in another capitalisation, is
    refused; so is an address without a dot after the at sign. *)
Example createVendor_example :
  let created := mkVendor (next_oid Samples.catalog) "Acme Ltd" "sales@acme.example" in
  let after :=
    snd (vendorController.createVendor (Some "  Acme Ltd ") (Some " Sales@Acme.example")
           Samples.catalog) in
  fst (vendorController.createVendor (Some "  Acme Ltd ") (Some " Sales@Acme.example")
         Samples.catalog) = Ok created /\
  vendors after = (vendors Samples.catalog ++ [created])%list /\
  fst (vendorController.createVendor (Some "Acme") (Some "SALES@acme.example") after)
    = Throw (DuplicateError "Vendor with this email already exists" NoDetails) /\
  fst (vendorController.createVendor (Some "Acme") (Some "sales@acme") after)
    = Throw vendorController.validationFailed /\
  fst (vendorController.createVendor (Some "   ") (Some "new@acme.example") after)
    = Throw vendorController.validationFailed /\
  fst (vendorController.createVendor (Some "Acme") None after)
    = Throw (ValidationError "Missing required fields" NoDetails).
Proof. cbv zeta. repeat split; vm_compute; reflexivity. Qed.

